(** * Shopify product migration: client and orchestrator

    A shallow embedding of [shopify_migration/shopify_client.py] and
    [shopify_migration/main.py].  Python values are the values the JSON
    decoder produces; exceptions are explicit results; the remote stores,
    the request trace and the two loggers are threaded as state. *)

From Stdlib Require Import ZArith List String Ascii Bool Arith Lia.
Import ListNotations.
Local Open Scope string_scope.
Local Open Scope list_scope.

(** ** Python values

    What [response.json()] returns: [None], booleans, integers, strings,
    lists and string-keyed dictionaries.  A dictionary is an association list
    in insertion order, as Python keeps it.  Numbers are the integers (the
    identifiers, counts and positions of the admin API); a string is the
    sequence of its characters, one [ascii] each; a dictionary
    literal never repeats a key, and every operation below reads the first
    entry of a key and removes all of them, so nothing depends on that. *)

#[warnings="-register-all"]
Inductive json : Type :=
| JNull
| JBool (b : bool)
| JNum (n : Z)
| JStr (s : string)
| JList (l : list json)
| JDict (d : list (string * json)).

Definition dict := list (string * json).

(** ** Exceptions

    The classes the two modules raise or catch.  [JSONDecodeError] is a
    subclass of [ValueError]; [RequestError] is httpx's transport failure,
    which is not an [HTTPStatusError]. *)

Inductive exn : Type :=
| HTTPStatusError (status : Z)
| RequestError
| ValueError (msg : string)
| JSONDecodeError
| KeyError (k : string)
| IndexError
| TypeError
| AttributeError.

Definition is_HTTPStatusError (e : exn) : bool :=
  match e with HTTPStatusError _ => true | _ => false end.

Definition is_ValueError (e : exn) : bool :=
  match e with ValueError _ | JSONDecodeError => true | _ => false end.

Inductive res (A : Type) : Type :=
| Ok (a : A)
| Raise (e : exn).
Arguments Ok {A} a.
Arguments Raise {A} e.

Definition res_bind {A B} (r : res A) (k : A -> res B) : res B :=
  match r with
  | Ok a => k a
  | Raise e => Raise e
  end.

Declare Scope res_scope.
Delimit Scope res_scope with res.
Notation "x <~ r ;; k" := (res_bind r (fun x => k))
  (at level 100, r at next level, right associativity) : res_scope.

(** ** Dictionaries *)

Fixpoint dict_get (d : dict) (k : string) : option json :=
  match d with
  | [] => None
  | (k', v) :: d' => if String.eqb k' k then Some v else dict_get d' k
  end.

Definition dict_has (d : dict) (k : string) : bool :=
  match dict_get d k with Some _ => true | None => false end.

(** [d.pop(k, None)] with the result dropped. *)
Definition dict_pop (d : dict) (k : string) : dict :=
  filter (fun kv => negb (String.eqb (fst kv) k)) d.

(** [d[k] = v]: an existing key keeps its place, a new one goes last. *)
Fixpoint dict_setitem (d : dict) (k : string) (v : json) : dict :=
  match d with
  | [] => [(k, v)]
  | (k', v') :: d' =>
      if String.eqb k' k then (k', v) :: d' else (k', v') :: dict_setitem d' k v
  end.

Definition dict_keys (d : dict) : list string := map fst d.

(** ** Dynamic operations *)

(** [a == b].  [True == 1] and [False == 0] hold in Python; lists compare
    element by element and dictionaries key by key, whatever their order. *)
Fixpoint py_eq (a b : json) {struct a} : bool :=
  match a, b with
  | JNull, JNull => true
  | JBool x, JBool y => Bool.eqb x y
  | JBool x, JNum y => Z.eqb (if x then 1 else 0) y
  | JNum x, JBool y => Z.eqb x (if y then 1 else 0)
  | JNum x, JNum y => Z.eqb x y
  | JStr x, JStr y => String.eqb x y
  | JList l1, JList l2 =>
      (fix go (l1 l2 : list json) {struct l1} : bool :=
         match l1, l2 with
         | [], [] => true
         | x :: xs, y :: ys => py_eq x y && go xs ys
         | _, _ => false
         end) l1 l2
  | JDict d1, JDict d2 =>
      Nat.eqb (List.length d1) (List.length d2) &&
      (fix all (d1 : dict) {struct d1} : bool :=
         match d1 with
         | [] => true
         | (k, v) :: r =>
             match dict_get d2 k with
             | Some w => py_eq v w
             | None => false
             end && all r
         end) d1
  | _, _ => false
  end.

(** [bool(v)]. *)
Definition truthy (v : json) : bool :=
  match v with
  | JNull => false
  | JBool b => b
  | JNum n => negb (Z.eqb n 0)
  | JStr s => negb (String.eqb s "")
  | JList l => match l with [] => false | _ => true end
  | JDict d => match d with [] => false | _ => true end
  end.

Definition isinstance_dict (v : json) : bool :=
  match v with JDict _ => true | _ => false end.

(** [v.get(k, dflt)]: only dictionaries have [get]. *)
Definition py_get (v : json) (k : string) (dflt : json) : res json :=
  match v with
  | JDict d => Ok (match dict_get d k with Some x => x | None => dflt end)
  | _ => Raise AttributeError
  end.

(** [v[k]] for a string [k]. *)
Definition py_getitem (v : json) (k : string) : res json :=
  match v with
  | JDict d => match dict_get d k with Some x => Ok x | None => Raise (KeyError k) end
  | _ => Raise TypeError
  end.

Definition chars (s : string) : list json :=
  map (fun c => JStr (String c EmptyString)) (list_ascii_of_string s).

(** [v[0]].  A decoded dictionary has string keys only, so [0] is never
    one of them. *)
Definition py_getitem0 (v : json) : res json :=
  match v with
  | JList (x :: _) => Ok x
  | JList [] => Raise IndexError
  | JStr s => match chars s with x :: _ => Ok x | [] => Raise IndexError end
  | JDict _ => Raise (KeyError "0")
  | _ => Raise TypeError
  end.

(** [len(v)]. *)
Definition py_len (v : json) : res nat :=
  match v with
  | JStr s => Ok (String.length s)
  | JList l => Ok (List.length l)
  | JDict d => Ok (List.length d)
  | _ => Raise TypeError
  end.

(** The elements [for x in v] visits. *)
Definition py_iter (v : json) : res (list json) :=
  match v with
  | JList l => Ok l
  | JDict d => Ok (map JStr (dict_keys d))
  | JStr s => Ok (chars s)
  | _ => Raise TypeError
  end.

Definition is_substring (k s : string) : bool :=
  match String.index 0 k s with Some _ => true | None => false end.

(** ["k" in v]: key of a dictionary, element of a list, substring of a
    string. *)
Definition py_contains (v : json) (k : string) : res bool :=
  match v with
  | JDict d => Ok (dict_has d k)
  | JList l => Ok (existsb (py_eq (JStr k)) l)
  | JStr s => Ok (is_substring k s)
  | _ => Raise TypeError
  end.

(** A value that can key a dictionary. *)
Definition hashable (v : json) : bool :=
  match v with
  | JList _ | JDict _ => false
  | _ => true
  end.

(** ** [ShopifyClient._prepare_product_data] *)

Definition allowed_fields : list string :=
  ["title"; "body_html"; "vendor"; "product_type"; "handle";
   "status"; "variants"; "images"; "options"].

Definition keys_to_remove : list string :=
  ["admin_graphql_api_id"; "product_id"; "id"; "image_id";
   "inventory_item_id"; "old_inventory_quantity"; "requires_shipping"].

Definition is_allowed (k : string) : bool :=
  existsb (String.eqb k) allowed_fields.

(** The inner loop [for key in keys_to_remove: variant.pop(key, None)]:
    the variant object afterwards.  [list.pop] takes one argument at most;
    the other values have no [pop]. *)
Definition strip_variant (variant : json) : res json :=
  match variant with
  | JDict d => Ok (JDict (fold_left dict_pop keys_to_remove d))
  | JList _ => Raise TypeError
  | _ => Raise AttributeError
  end.

(** The loop over a list of variants.  The variant dictionaries are the
    caller's own objects, so the first component is the caller's list as the
    loop leaves it, also when a later variant raises. *)
Fixpoint strip_variants (vs : list json) : list json * res unit :=
  match vs with
  | [] => ([], Ok tt)
  | v :: rest =>
      match strip_variant v with
      | Ok v' => let (rest', r) := strip_variants rest in (v' :: rest', r)
      | Raise e => (v :: rest, Raise e)
      end
  end.

(** [len(cleaned_data["variants"])] and the loop, on whatever value the key
    holds: the value afterwards, and how the loop ended. *)
Definition clean_variants (vs : json) : json * res unit :=
  match py_len vs with
  | Raise e => (vs, Raise e)
  | Ok _ =>
      match vs with
      | JList l => let (l', r) := strip_variants l in (JList l', r)
      | _ =>
          (vs, match py_iter vs with
               | Raise e => Raise e
               | Ok [] => Ok tt
               | Ok (x :: _) => res_bind (strip_variant x) (fun _ => Ok tt)
               end)
      end
  end.

(** One turn of the loop over the images: the cleaned image, if the image
    has a source. *)
Definition clean_image (image : json) : res (option json) :=
  (has_src <~ py_contains image "src" ;;
   if (has_src : bool) then
     src <~ py_getitem image "src" ;;
     alt <~ py_get image "alt" (JStr "") ;;
     Ok (Some (JDict [("src", src); ("alt", alt)]))
   else Ok None)%res.

Fixpoint clean_image_list (images : list json) : res (list json) :=
  match images with
  | [] => Ok []
  | image :: rest =>
      (c <~ clean_image image ;;
       rest' <~ clean_image_list rest ;;
       Ok (match c with Some i => i :: rest' | None => rest' end))%res
  end.

Definition clean_images (images : json) : res json :=
  (_ <~ py_len images ;;
   l <~ py_iter images ;;
   cleaned <~ clean_image_list l ;;
   Ok (JList cleaned))%res.

(** The tail of the function: [if "images" in cleaned_data: ...] and the
    return. *)
Definition replace_images (cleaned_data : dict) : res json :=
  match dict_get cleaned_data "images" with
  | Some images =>
      (cleaned_images <~ clean_images images ;;
       Ok (JDict (dict_setitem cleaned_data "images" cleaned_images)))%res
  | None => Ok (JDict cleaned_data)
  end.

(** The function itself.  It returns the caller's [product_data] as the
    call leaves it, and its result: [cleaned_data] is a new dictionary, but
    its ["variants"] value is the caller's list, and the loop pops keys from
    the caller's variant dictionaries. *)
Definition _prepare_product_data (product_data : json) : json * res json :=
  match product_data with
  | JDict pd =>
      let cleaned_data := filter (fun kv => is_allowed (fst kv)) pd in
      match dict_get cleaned_data "variants" with
      | Some vs =>
          let (vs', r) := clean_variants vs in
          (JDict (dict_setitem pd "variants" vs'),
           res_bind r (fun _ =>
             replace_images (dict_setitem cleaned_data "variants" vs')))
      | None => (product_data, replace_images cleaned_data)
      end
  | _ => (product_data, Raise AttributeError)
  end.

(** ** The remote stores, the request trace and the logs *)

Inductive http_method : Type := GET | POST | PUT.

(** The paths under [base_url] that the client requests. *)
Inductive endpoint : Type :=
| Shop                                          (* /shop.json *)
| Products                                      (* /products.json *)
| ProductById (product_id : json)               (* /products/{product_id}.json *)
| CustomCollections                             (* /custom_collections.json *)
| Collects                                      (* /collects.json *)
| CollectsOf (product_id collection_id : json). (* /collects.json?product_id=..&collection_id=.. *)

Record request : Type := mkRequest {
  rq_method : http_method;
  rq_base_url : string;
  rq_endpoint : endpoint;
  rq_params : dict;
  rq_headers : list (string * string);
  rq_json : option json
}.

(** What an httpx call gives: a transport failure, or a response with its
    status code and its body, [None] when the body is not JSON. *)
Inductive http_result : Type :=
| ConnectFailed
| Response (status_code : Z) (body : option json).

(** A remote side answers requests and may change while doing so. *)
Class Remote (W : Type) : Type :=
  send : request -> W -> http_result * W.

Inductive logger : Type := shopify_client | shopify_migration.
Inductive level : Type := INFO | WARNING | ERROR.

(** A value interpolated into a log message. *)
Inductive log_arg : Type :=
| AVal (v : json)
| ANat (n : nat)
| AStr (s : string)
| AExn (e : exn).

(** A log record: the f-string with [{}] for each interpolation, and the
    interpolated values.  [log.debug] calls are below the configured level
    and leave no record. *)
Record log_record : Type := mkLog {
  lg_logger : logger;
  lg_level : level;
  lg_msg : string;
  lg_args : list log_arg
}.

Record env (W : Type) : Type := mkEnv {
  world : W;
  trace : list request;
  logs : list log_record
}.
Arguments mkEnv {W}.
Arguments world {W}.
Arguments trace {W}.
Arguments logs {W}.

(** ** State and exceptions *)

Definition M (S A : Type) : Type := S -> res A * S.

Definition ret {S A} (a : A) : M S A := fun s => (Ok a, s).

Definition raise {S A} (e : exn) : M S A := fun s => (Raise e, s).

Definition bind {S A B} (m : M S A) (k : A -> M S B) : M S B :=
  fun s =>
    match m s with
    | (Ok a, s') => k a s'
    | (Raise e, s') => (Raise e, s')
    end.

(** [try: m  except Exception as e: h e]. *)
Definition try_except {S A} (m : M S A) (h : exn -> M S A) : M S A :=
  fun s =>
    match m s with
    | (Ok a, s') => (Ok a, s')
    | (Raise e, s') => h e s'
    end.

Definition lift_res {S A} (r : res A) : M S A := fun s => (r, s).

Declare Scope m_scope.
Delimit Scope m_scope with M.
Notation "x <- m ;; k" := (bind m (fun x => k))
  (at level 100, m at next level, right associativity) : m_scope.
Notation "m ;; k" := (bind m (fun _ => k))
  (at level 100, right associativity) : m_scope.
Local Open Scope m_scope.

(** [for x in l: body x]. *)
Fixpoint for_each {S A} (l : list A) (body : A -> M S unit) : M S unit :=
  match l with
  | [] => ret tt
  | x :: rest => body x ;; for_each rest body
  end.

(** ** [ShopifyClient] *)

Record client : Type := mkClient {
  store_url : string;
  base_url : string;
  headers : list (string * string)
}.

Definition endswith (s suffix : string) : bool :=
  let n := String.length s in
  let m := String.length suffix in
  (m <=? n)%nat && String.eqb (substring (n - m) m s) suffix.

Section Client.

Context {W : Type} {R : Remote W}.

Definition log (lgr : logger) (lvl : level) (msg : string)
    (args : list log_arg) : M (env W) unit :=
  fun e =>
    (Ok tt, mkEnv (world e) (trace e) (logs e ++ [mkLog lgr lvl msg args])).

Definition client_log := log shopify_client.

(** One httpx call: the request goes on the trace, the store answers. *)
Definition http (rq : request) : M (env W) (Z * option json) :=
  fun e =>
    let (r, w') := send rq (world e) in
    let e' := mkEnv w' (trace e ++ [rq]) (logs e) in
    match r with
    | ConnectFailed => (Raise RequestError, e')
    | Response status body => (Ok (status, body), e')
    end.

(** [response.raise_for_status()]: httpx raises unless the status is 2xx. *)
Definition raise_for_status (response : Z * option json) : M (env W) unit :=
  let status := fst response in
  if (200 <=? status)%Z && (status <=? 299)%Z then ret tt
  else raise (HTTPStatusError status).

(** [response.json()]. *)
Definition response_json (response : Z * option json) : M (env W) json :=
  match snd response with
  | Some data => ret data
  | None => raise JSONDecodeError
  end.

Definition ShopifyClient (store_url admin_key : string) : M (env W) client :=
  if String.eqb store_url "" || String.eqb admin_key "" then
    raise (ValueError "All credentials (store_url, admin_key) must be provided")
  else if negb (endswith store_url "myshopify.com") then
    raise (ValueError "Store URL must end with 'myshopify.com'")
  else
    client_log INFO "Initialized Shopify client for store: {}" [AStr store_url] ;;
    ret (mkClient store_url
           ("https://" ++ store_url ++ "/admin/api/2024-01")
           [("X-Shopify-Access-Token", admin_key);
            ("Content-Type", "application/json")]).

Definition validate_credentials (self : client) : M (env W) bool :=
  try_except
    (response <- http (mkRequest GET (base_url self) Shop [] (headers self) None) ;;
     raise_for_status response ;;
     client_log INFO "Successfully validated credentials for store: {}"
       [AStr (store_url self)] ;;
     ret true)
    (fun e =>
       match e with
       | HTTPStatusError status =>
           (if (status =? 401)%Z then
              client_log ERROR
                "Invalid admin access token for store {}. Please check your Admin API access token."
                [AStr (store_url self)]
            else
              client_log ERROR "HTTP error during credential validation: {}" [AExn e]) ;;
           ret false
       | _ =>
           client_log ERROR "Error validating credentials: {}" [AExn e] ;;
           ret false
       end).

(** The validation loop of [get_products]: it warns about an entry that is
    not a dictionary with an ["id"], and does nothing else. *)
Definition warn_invalid (product : json) : M (env W) unit :=
  if negb (isinstance_dict product)
     || negb (match product with JDict d => dict_has d "id" | _ => false end)
  then client_log WARNING "Found invalid product data in response" []
  else ret tt.

Definition get_products (self : client) (limit : Z) : M (env W) json :=
  client_log INFO "Fetching products from {} (limit: {})"
    [AStr (store_url self); AVal (JNum limit)] ;;
  try_except
    (valid <- validate_credentials self ;;
     if negb valid then
       raise (ValueError ("Invalid credentials for store " ++ store_url self))
     else
       response <- http (mkRequest GET (base_url self) Products
                           [("limit", JNum limit);
                            ("fields", JStr "id,title,body_html,vendor,product_type,handle,status,variants,images,options")]
                           (headers self) None) ;;
       raise_for_status response ;;
       response_data <- response_json response ;;
       match response_data with
       | JDict d =>
           match dict_get d "products" with
           | Some products =>
               n <- lift_res (py_len products) ;;
               client_log INFO "Retrieved {} products from {}"
                 [ANat n; AStr (store_url self)] ;;
               l <- lift_res (py_iter products) ;;
               for_each l warn_invalid ;;
               ret products
           | None => raise (ValueError "Invalid response format from Shopify API")
           end
       | _ => raise (ValueError "Invalid response format from Shopify API")
       end)
    (fun e =>
       match e with
       | HTTPStatusError status =>
           client_log ERROR "HTTP error occurred while fetching products: {}" [AExn e] ;;
           (if (status =? 429)%Z then
              client_log ERROR "Rate limit exceeded. Please wait before retrying." []
            else ret tt) ;;
           raise e
       | _ =>
           if is_ValueError e then
             client_log ERROR "Validation error: {}" [AExn e] ;; raise e
           else
             client_log ERROR "Unexpected error while fetching products: {}" [AExn e] ;;
             raise e
       end).

(** The three handlers of [create_product] and of [update_product], which
    differ in the f-strings of the first and the last and in what these
    interpolate. *)
Definition write_handlers {A} (http_msg other_msg : string) (arg : log_arg)
    (e : exn) : M (env W) A :=
  match e with
  | HTTPStatusError status =>
      client_log ERROR http_msg [arg; AExn e] ;;
      (if (status =? 422)%Z then
         client_log ERROR "Validation error from Shopify API: {}" [AExn e]
       else ret tt) ;;
      raise e
  | _ =>
      if is_ValueError e then
        client_log ERROR "Validation error: {}" [AExn e] ;; raise e
      else
        client_log ERROR other_msg [arg; AExn e] ;; raise e
  end.

(** The body of [create_product] once the payload is shaped. *)
Definition create_product_request (self : client) (title : json)
    (clean_data : res json) : M (env W) json :=
  client_log INFO "Creating product '{}' in {}" [AVal title; AStr (store_url self)] ;;
  clean_data <- lift_res clean_data ;;
  try_except
    (response <- http (mkRequest POST (base_url self) Products []
                         (headers self) (Some (JDict [("product", clean_data)]))) ;;
     raise_for_status response ;;
     response_data <- response_json response ;;
     match response_data with
     | JDict d =>
         match dict_get d "product" with
         | Some created_product =>
             t <- lift_res (py_getitem created_product "title") ;;
             i <- lift_res (py_getitem created_product "id") ;;
             client_log INFO "Successfully created product '{}' (ID: {})" [AVal t; AVal i] ;;
             ret created_product
         | None => raise (ValueError "Invalid response format from Shopify API")
         end
     | _ => raise (ValueError "Invalid response format from Shopify API")
     end)
    (write_handlers "HTTP error occurred while creating product '{}': {}"
       "Unexpected error while creating product '{}': {}" (AVal title)).

(** [create_product(product_data)].  The state is the caller's
    [product_data] object together with the environment: the payload
    shaping changes that object. *)
Definition create_product (self : client) : M (json * env W) json :=
  fun '(product_data, e) =>
    match py_get product_data "title" (JStr "Unknown") with
    | Raise x => (Raise x, (product_data, e))
    | Ok title =>
        let (product_data', clean_data) := _prepare_product_data product_data in
        let (r, e') := create_product_request self title clean_data e in
        (r, (product_data', e'))
    end.

Definition update_product_request (self : client) (product_id title : json)
    (clean_data : res json) : M (env W) json :=
  client_log INFO "Updating product '{}' (ID: {}) in {}"
    [AVal title; AVal product_id; AStr (store_url self)] ;;
  clean_data <- lift_res clean_data ;;
  try_except
    (response <- http (mkRequest PUT (base_url self) (ProductById product_id) []
                         (headers self) (Some (JDict [("product", clean_data)]))) ;;
     raise_for_status response ;;
     response_data <- response_json response ;;
     match response_data with
     | JDict d =>
         match dict_get d "product" with
         | Some updated_product =>
             t <- lift_res (py_getitem updated_product "title") ;;
             client_log INFO "Successfully updated product '{}' (ID: {})"
               [AVal t; AVal product_id] ;;
             ret updated_product
         | None => raise (ValueError "Invalid response format from Shopify API")
         end
     | _ => raise (ValueError "Invalid response format from Shopify API")
     end)
    (write_handlers "HTTP error occurred while updating product {}: {}"
       "Unexpected error while updating product {}: {}" (AVal product_id)).

Definition update_product (self : client) (product_id : json)
  : M (json * env W) json :=
  fun '(product_data, e) =>
    match py_get product_data "title" (JStr "Unknown") with
    | Raise x => (Raise x, (product_data, e))
    | Ok title =>
        let (product_data', clean_data) := _prepare_product_data product_data in
        let (r, e') := update_product_request self product_id title clean_data e in
        (r, (product_data', e'))
    end.

(** The inner loop of [get_product_by_sku]: whether a variant carries the
    SKU. *)
Fixpoint sku_among (variants : list json) (sku : json) : res bool :=
  match variants with
  | [] => Ok false
  | variant :: rest =>
      (s <~ py_get variant "sku" JNull ;;
       if py_eq s sku then Ok true else sku_among rest sku)%res
  end.

(** Its outer loop, which returns at the first product found. *)
Fixpoint first_with_sku (self : client) (products : list json) (sku : json)
  : M (env W) (option json) :=
  match products with
  | [] =>
      client_log INFO "No product found with SKU '{}'" [AVal sku] ;;
      ret None
  | product :: rest =>
      variants <- lift_res (py_get product "variants" (JList [])) ;;
      vs <- lift_res (py_iter variants) ;;
      found <- lift_res (sku_among vs sku) ;;
      if (found : bool) then
        title <- lift_res (py_getitem product "title") ;;
        client_log INFO "Found product '{}' with SKU '{}'" [AVal title; AVal sku] ;;
        ret (Some product)
      else first_with_sku self rest sku
  end.

Definition get_product_by_sku (self : client) (sku : json)
  : M (env W) (option json) :=
  client_log INFO "Searching for product with SKU '{}' in {}"
    [AVal sku; AStr (store_url self)] ;;
  try_except
    (products <- get_products self 250 ;;
     l <- lift_res (py_iter products) ;;
     first_with_sku self l sku)
    (fun e =>
       client_log ERROR "Error while searching for product with SKU '{}': {}"
         [AVal sku; AExn e] ;;
       raise e).

(** The two handlers of the collection methods. *)
Definition collection_handlers {A} (http_msg other_msg : string) (e : exn)
  : M (env W) A :=
  if is_HTTPStatusError e then client_log ERROR http_msg [AExn e] ;; raise e
  else client_log ERROR other_msg [AExn e] ;; raise e.

Definition get_collections (self : client) : M (env W) json :=
  try_except
    (validate_credentials self ;;
     response <- http (mkRequest GET (base_url self) CustomCollections []
                         (headers self) None) ;;
     raise_for_status response ;;
     data <- response_json response ;;
     match data with
     | JDict d =>
         match dict_get d "custom_collections" with
         | Some collections =>
             n <- lift_res (py_len collections) ;;
             client_log INFO "Retrieved {} collections from {}"
               [ANat n; AStr (store_url self)] ;;
             ret collections
         | None => raise (ValueError "Invalid response format for collections")
         end
     | _ => raise (ValueError "Invalid response format for collections")
     end)
    (collection_handlers "HTTP error occurred while fetching collections: {}"
       "Error fetching collections: {}").

(** The loop of [get_collection_by_title]. *)
Fixpoint first_with_title (collections : list json) (title : json)
  : res (option json) :=
  match collections with
  | [] => Ok None
  | collection :: rest =>
      (t <~ py_get collection "title" JNull ;;
       if py_eq t title then Ok (Some collection)
       else first_with_title rest title)%res
  end.

Definition get_collection_by_title (self : client) (title : json)
  : M (env W) (option json) :=
  try_except
    (collections <- get_collections self ;;
     l <- lift_res (py_iter collections) ;;
     lift_res (first_with_title l title))
    (fun e =>
       client_log ERROR "Error finding collection by title: {}" [AExn e] ;;
       raise e).

(** [create_collection(title, description="")]: a caller that gives one
    argument gets [JStr ""] for the second. *)
Definition create_collection (self : client) (title description : json)
  : M (env W) json :=
  try_except
    (validate_credentials self ;;
     let collection_data :=
       JDict [("custom_collection",
               JDict [("title", title); ("body_html", description)])] in
     response <- http (mkRequest POST (base_url self) CustomCollections []
                         (headers self) (Some collection_data)) ;;
     raise_for_status response ;;
     data <- response_json response ;;
     match data with
     | JDict d =>
         match dict_get d "custom_collection" with
         | Some created =>
             client_log INFO "Created collection '{}' in {}"
               [AVal title; AStr (store_url self)] ;;
             ret created
         | None => raise (ValueError "Invalid response format for collection creation")
         end
     | _ => raise (ValueError "Invalid response format for collection creation")
     end)
    (collection_handlers "HTTP error occurred while creating collection: {}"
       "Error creating collection: {}").

(** The loop of [get_product_collections]: the collections that have a
    collect for the product, in the order of the listing. *)
Fixpoint collections_of (self : client) (product_id : json)
    (collections : list json) : M (env W) (list json) :=
  match collections with
  | [] => ret []
  | collection :: rest =>
      collection_id <- lift_res (py_getitem collection "id") ;;
      response <- http (mkRequest GET (base_url self)
                          (CollectsOf product_id collection_id) []
                          (headers self) None) ;;
      raise_for_status response ;;
      data <- response_json response ;;
      let member :=
        match data with
        | JDict d =>
            match dict_get d "collects" with
            | Some collects => truthy collects
            | None => false
            end
        | _ => false
        end in
      rest' <- collections_of self product_id rest ;;
      ret (if member then collection :: rest' else rest')
  end.

Definition get_product_collections (self : client) (product_id : json)
  : M (env W) (list json) :=
  try_except
    (validate_credentials self ;;
     collections <- get_collections self ;;
     l <- lift_res (py_iter collections) ;;
     product_collections <- collections_of self product_id l ;;
     client_log INFO "Found {} collections for product {}"
       [ANat (List.length product_collections); AVal product_id] ;;
     ret product_collections)
    (collection_handlers "HTTP error occurred while fetching product collections: {}"
       "Error fetching product collections: {}").

Definition add_product_to_collection (self : client)
    (product_id collection_id : json) : M (env W) json :=
  try_except
    (validate_credentials self ;;
     let collect_data :=
       JDict [("collect",
               JDict [("product_id", product_id);
                      ("collection_id", collection_id)])] in
     response <- http (mkRequest POST (base_url self) Collects []
                         (headers self) (Some collect_data)) ;;
     raise_for_status response ;;
     data <- response_json response ;;
     match data with
     | JDict d =>
         match dict_get d "collect" with
         | Some collect =>
             client_log INFO "Added product {} to collection {}"
               [AVal product_id; AVal collection_id] ;;
             ret collect
         | None => raise (ValueError "Invalid response format for collect creation")
         end
     | _ => raise (ValueError "Invalid response format for collect creation")
     end)
    (collection_handlers "HTTP error occurred while adding product to collection: {}"
       "Error adding product to collection: {}").

End Client.

(** ** [migrate_products]

    The local variables that outlive an exception are state: the five
    counters, the recording dictionary, the loop variable [product] (the
    client changes the object it names) and [migrated_product].  The
    progress bar only draws and is left out. *)

Record locals : Type := mkLocals {
  created_count : nat;
  updated_count : nat;
  skipped_count : nat;
  error_count : nat;
  collection_count : nat;
  product_collections : list (json * list json);
  product : json;
  migrated_product : option json
}.

Definition initial_locals : locals := mkLocals 0 0 0 0 0 [] JNull None.

Definition incr_created (l : locals) : locals :=
  mkLocals (S (created_count l)) (updated_count l) (skipped_count l)
    (error_count l) (collection_count l) (product_collections l)
    (product l) (migrated_product l).

Definition incr_updated (l : locals) : locals :=
  mkLocals (created_count l) (S (updated_count l)) (skipped_count l)
    (error_count l) (collection_count l) (product_collections l)
    (product l) (migrated_product l).

Definition incr_skipped (l : locals) : locals :=
  mkLocals (created_count l) (updated_count l) (S (skipped_count l))
    (error_count l) (collection_count l) (product_collections l)
    (product l) (migrated_product l).

Definition incr_error (l : locals) : locals :=
  mkLocals (created_count l) (updated_count l) (skipped_count l)
    (S (error_count l)) (collection_count l) (product_collections l)
    (product l) (migrated_product l).

Definition incr_collection (l : locals) : locals :=
  mkLocals (created_count l) (updated_count l) (skipped_count l)
    (error_count l) (S (collection_count l)) (product_collections l)
    (product l) (migrated_product l).

Definition set_product_collections (pcs : list (json * list json))
    (l : locals) : locals :=
  mkLocals (created_count l) (updated_count l) (skipped_count l)
    (error_count l) (collection_count l) pcs (product l) (migrated_product l).

Definition set_product (p : json) (l : locals) : locals :=
  mkLocals (created_count l) (updated_count l) (skipped_count l)
    (error_count l) (collection_count l) (product_collections l)
    p (migrated_product l).

Definition set_migrated_product (m : option json) (l : locals) : locals :=
  mkLocals (created_count l) (updated_count l) (skipped_count l)
    (error_count l) (collection_count l) (product_collections l)
    (product l) m.

(** [product_collections[k] = v] on a dictionary keyed by identifiers: an
    equal key keeps its entry's place (and the key object first stored), a
    new key goes last. *)
Fixpoint pc_setitem (pcs : list (json * list json)) (k : json) (v : list json)
  : list (json * list json) :=
  match pcs with
  | [] => [(k, v)]
  | (k', v') :: rest =>
      if py_eq k' k then (k', v) :: rest else (k', v') :: pc_setitem rest k v
  end.

Fixpoint pc_get (pcs : list (json * list json)) (k : json)
  : option (list json) :=
  match pcs with
  | [] => None
  | (k', v) :: rest => if py_eq k' k then Some v else pc_get rest k
  end.

Definition truthy_opt (v : option json) : bool :=
  match v with Some x => truthy x | None => false end.

Definition nonempty {A} (l : list A) : bool :=
  match l with [] => false | _ => true end.

Section Orchestrator.

Context {W : Type} {R : Remote W}.

Definition O (A : Type) : Type := M (locals * env W) A.

(** A client call: it does not see the locals. *)
Definition call {A} (m : M (env W) A) : O A :=
  fun '(l, e) => let (r, e') := m e in (r, (l, e')).

(** A client call that is given [product]: it may change that object. *)
Definition call_with_product {A} (m : M (json * env W) A) : O A :=
  fun '(l, e) =>
    match m (product l, e) with
    | (r, (p', e')) => (r, (set_product p' l, e'))
    end.

Definition local {A} (f : locals -> A) : O A :=
  fun '(l, e) => (Ok (f l), (l, e)).

Definition assign (f : locals -> locals) : O unit :=
  fun '(l, e) => (Ok tt, (f l, e)).

Definition migration_log (lvl : level) (msg : string) (args : list log_arg)
  : O unit :=
  call (log shopify_migration lvl msg args).

(** [product.get('title', dflt)] on the current [product]. *)
Definition product_title (dflt : json) : O json :=
  p <- local product ;;
  lift_res (py_get p "title" dflt).

(** Lines 63-66 and 70-73: warn, count as skipped, [continue]. *)
Definition skip_product (msg : string) : O unit :=
  title <- product_title (JStr "Unknown") ;;
  migration_log WARNING msg [AVal title] ;;
  assign incr_skipped.

(** Lines 76-81. *)
Definition fetch_source_collections (source_client : client) : O (list json) :=
  try_except
    (p <- local product ;;
     product_id <- lift_res (py_getitem p "id") ;;
     source_collections <- call (get_product_collections source_client product_id) ;;
     title <- product_title JNull ;;
     migration_log INFO "Found {} collections for product '{}'"
       [ANat (List.length source_collections); AVal title] ;;
     ret source_collections)
    (fun e =>
       title <- product_title JNull ;;
       migration_log WARNING "Failed to fetch collections for product '{}': {}"
         [AVal title; AExn e] ;;
       ret []).

(** Lines 87-94: the product exists at the destination. *)
Definition update_existing (dest_client : client) (sku existing_product : json)
  : O unit :=
  try_except
    (product_id <- lift_res (py_getitem existing_product "id") ;;
     updated <- call_with_product (update_product dest_client product_id) ;;
     assign (set_migrated_product (Some updated)) ;;
     title <- product_title JNull ;;
     migration_log INFO "Updated product '{}' with SKU '{}'"
       [AVal title; AVal sku] ;;
     assign incr_updated)
    (fun e =>
       title <- product_title JNull ;;
       migration_log ERROR "Failed to update product '{}' with SKU '{}': {}"
         [AVal title; AVal sku; AExn e] ;;
       assign incr_error).

(** Lines 96-103: it does not. *)
Definition create_new (dest_client : client) (sku : json) : O unit :=
  try_except
    (created <- call_with_product (create_product dest_client) ;;
     assign (set_migrated_product (Some created)) ;;
     title <- product_title JNull ;;
     migration_log INFO "Created product '{}' with SKU '{}'"
       [AVal title; AVal sku] ;;
     assign incr_created)
    (fun e =>
       title <- product_title JNull ;;
       migration_log ERROR "Failed to create product '{}' with SKU '{}': {}"
         [AVal title; AVal sku; AExn e] ;;
       assign incr_error).

(** Lines 84-103. *)
Definition write_product (dest_client : client) (sku : json)
    (existing_product : option json) : O unit :=
  assign (set_migrated_product None) ;;
  match existing_product with
  | Some existing =>
      if truthy existing then update_existing dest_client sku existing
      else create_new dest_client sku
  | None => create_new dest_client sku
  end.

(** Lines 106-107. *)
Definition record_collections (source_collections : list json) : O unit :=
  migrated <- local migrated_product ;;
  match migrated with
  | Some m =>
      if truthy m && nonempty source_collections then
        key <- lift_res (py_getitem m "id") ;;
        if hashable key then
          pcs <- local product_collections ;;
          assign (set_product_collections (pc_setitem pcs key source_collections))
        else raise TypeError
      else ret tt
  | None => ret tt
  end.

(** The body of the loop over [source_products], lines 59-114. *)
Definition migrate_product (source_client dest_client : client) (p : json)
  : O unit :=
  assign (set_product p) ;;
  try_except
    (p <- local product ;;
     variants <- lift_res (py_get p "variants" (JList [])) ;;
     if negb (truthy variants) then
       skip_product "Skipping product '{}' - No variants found"
     else
       first_variant <- lift_res (py_getitem0 variants) ;;
       sku <- lift_res (py_get first_variant "sku" JNull) ;;
       if negb (truthy sku) then
         skip_product "Skipping product '{}' - No SKU found in first variant"
       else
         source_collections <- fetch_source_collections source_client ;;
         existing_product <- call (get_product_by_sku dest_client sku) ;;
         write_product dest_client sku existing_product ;;
         record_collections source_collections)
    (fun e =>
       assign incr_error ;;
       title <- product_title (JStr "Unknown") ;;
       migration_log ERROR "Error processing product '{}': {}"
         [AVal title; AExn e]).

(** Lines 130-143: make the collection when the destination has none of
    that title.  [None] is the [continue] of the handler. *)
Definition find_or_create (dest_client : client) (collection title : json)
    (dest_collection : option json) : O (option json) :=
  if negb (truthy_opt dest_collection) then
    body_html <- lift_res (py_get collection "body_html" (JStr "")) ;;
    published <- lift_res (py_get collection "published" (JBool true)) ;;
    let collection_data :=
      JDict [("title", title); ("body_html", body_html);
             ("published", published)] in
    try_except
      (created <- call (create_collection dest_client collection_data (JStr "")) ;;
       migration_log INFO "Created collection '{}'" [AVal title] ;;
       ret (Some created))
      (fun e =>
         migration_log ERROR "Failed to create collection '{}': {}"
           [AVal title; AExn e] ;;
         ret None)
  else ret dest_collection.

(** Lines 146-151. *)
Definition associate (dest_client : client) (product_id title dest_collection : json)
  : O unit :=
  try_except
    (collection_id <- lift_res (py_getitem dest_collection "id") ;;
     call (add_product_to_collection dest_client product_id collection_id) ;;
     migration_log INFO "Added product {} to collection '{}'"
       [AVal product_id; AVal title] ;;
     assign incr_collection)
    (fun e =>
       migration_log ERROR "Failed to add product {} to collection '{}': {}"
         [AVal product_id; AVal title; AExn e]).

(** The body of the inner loop of the second phase, lines 126-158.
    [collection["title"]] is read once: the collection does not change, so
    every later read gives the same. *)
Definition migrate_collection (dest_client : client)
    (product_id collection : json) : O unit :=
  try_except
    (title <- lift_res (py_getitem collection "title") ;;
     dest_collection <- call (get_collection_by_title dest_client title) ;;
     found <- find_or_create dest_client collection title dest_collection ;;
     match found with
     | Some dest_collection => associate dest_client product_id title dest_collection
     | None => ret tt
     end)
    (fun e =>
       title <- lift_res (py_get collection "title" (JStr "Unknown")) ;;
       migration_log ERROR "Error processing collection '{}' for product {}: {}"
         [AVal title; AVal product_id; AExn e] ;;
       assign incr_error).

(** Lines 117-158. *)
Definition migrate_collections (dest_client : client) : O unit :=
  pcs <- local product_collections ;;
  if nonempty pcs then
    migration_log INFO "Starting collection migration process" [] ;;
    for_each pcs (fun '(product_id, collections) =>
      for_each collections (migrate_collection dest_client product_id))
  else ret tt.

(** Lines 161-168. *)
Definition report (total_products : nat) : O unit :=
  l <- local (fun l => l) ;;
  migration_log INFO "Migration completed!" [] ;;
  migration_log INFO "Total products processed: {}" [ANat total_products] ;;
  migration_log INFO "Products created: {}" [ANat (created_count l)] ;;
  migration_log INFO "Products updated: {}" [ANat (updated_count l)] ;;
  migration_log INFO "Products skipped: {}" [ANat (skipped_count l)] ;;
  migration_log INFO "Collection assignments: {}" [ANat (collection_count l)] ;;
  if (0 <? error_count l)%nat then
    migration_log WARNING "Items with errors: {}" [ANat (error_count l)]
  else ret tt.

(** What follows the listing: both phases and the report. *)
Definition migrate_listed (source_client dest_client : client)
    (source_products : json) : O unit :=
  total_products <- lift_res (py_len source_products) ;;
  migration_log INFO "Found {} products to migrate" [ANat total_products] ;;
  assign (fun _ => initial_locals) ;;
  l <- lift_res (py_iter source_products) ;;
  for_each l (migrate_product source_client dest_client) ;;
  migrate_collections dest_client ;;
  report total_products.

Definition migrate_products (source_client dest_client : client) : O unit :=
  try_except
    (migration_log INFO "Starting product migration process" [] ;;
     source_products <- call (get_products source_client 250) ;;
     migrate_listed source_client dest_client source_products)
    (fun e =>
       migration_log ERROR "Migration failed: {}" [AExn e] ;;
       raise e).

End Orchestrator.

(** ** [validate_store_credentials] and [main]

    What the process gives [main]: the environment variables as they are
    after [load_dotenv()], and the operator's answer to [Confirm.ask]. *)

Record process : Type := mkProcess {
  getenv : string -> option string;
  confirm : bool
}.

Definition required_env_vars : list string :=
  ["SOURCE_SHOPIFY_STORE"; "SOURCE_ADMIN_KEY";
   "DESTINATION_SHOPIFY_STORE"; "DESTINATION_ADMIN_KEY"].

(** [not os.getenv(var)]: unset, or set to the empty string. *)
Definition unset (p : process) (var : string) : bool :=
  match getenv p var with
  | Some s => String.eqb s ""
  | None => true
  end.

(** The string [os.getenv(var)] gives; an unset variable is [None], which
    the constructor of the client treats as it treats the empty string. *)
Definition env_string (p : process) (var : string) : string :=
  match getenv p var with
  | Some s => s
  | None => ""
  end.

Section Main.

Context {W : Type} {R : Remote W}.

Definition validate_store_credentials (store_url admin_key : string)
  : M (env W) bool :=
  try_except
    (client <- ShopifyClient store_url admin_key ;;
     validate_credentials client)
    (fun e =>
       log shopify_migration ERROR "Error validating credentials for {}: {}"
         [AStr store_url; AExn e] ;;
       ret false).

Definition main (p : process) : O unit :=
  try_except
    (migration_log INFO "Loading environment variables" [] ;;
     let missing_vars := filter (unset p) required_env_vars in
     if nonempty missing_vars then
       raise (ValueError ("Missing required environment variables: "
                          ++ String.concat ", " missing_vars))
     else
       migration_log INFO "Validating source store credentials" [] ;;
       source_valid <- call (validate_store_credentials
                               (env_string p "SOURCE_SHOPIFY_STORE")
                               (env_string p "SOURCE_ADMIN_KEY")) ;;
       migration_log INFO "Validating destination store credentials" [] ;;
       dest_valid <- call (validate_store_credentials
                             (env_string p "DESTINATION_SHOPIFY_STORE")
                             (env_string p "DESTINATION_ADMIN_KEY")) ;;
       if negb (source_valid && dest_valid) then
         raise (ValueError
                  "Invalid credentials. Please check your Admin API access tokens.")
       else
         migration_log INFO "Initializing Shopify clients" [] ;;
         source_client <- call (ShopifyClient
                                  (env_string p "SOURCE_SHOPIFY_STORE")
                                  (env_string p "SOURCE_ADMIN_KEY")) ;;
         dest_client <- call (ShopifyClient
                                (env_string p "DESTINATION_SHOPIFY_STORE")
                                (env_string p "DESTINATION_ADMIN_KEY")) ;;
         if confirm p then migrate_products source_client dest_client
         else migration_log INFO "Migration cancelled by user" [])
    (fun e =>
       migration_log ERROR "Migration process failed: {}" [AExn e] ;;
       raise e).

End Main.

(** ** Concrete stores

    The remote side of the examples: two stores that answer each kind of
    request the same way every time. *)

Record store : Type := mkStore {
  get_shop : http_result;
  get_products_json : http_result;
  post_products_json : http_result;
  put_product_json : http_result;
  get_custom_collections_json : http_result;
  post_custom_collections_json : http_result;
  get_collects_json : json -> json -> http_result;
  post_collects_json : http_result
}.

Definition answer (s : store) (rq : request) : http_result :=
  match rq_method rq, rq_endpoint rq with
  | GET, Shop => get_shop s
  | GET, Products => get_products_json s
  | POST, Products => post_products_json s
  | PUT, ProductById _ => put_product_json s
  | GET, CustomCollections => get_custom_collections_json s
  | POST, CustomCollections => post_custom_collections_json s
  | GET, CollectsOf product_id collection_id =>
      get_collects_json s product_id collection_id
  | POST, Collects => post_collects_json s
  | _, _ => Response 404 None
  end.

(** A pair of stores, told apart by the host in the base URL. *)
Record stores : Type := mkStores {
  source_host : string;
  source_store : store;
  dest_store : store
}.

Definition route (w : stores) (rq : request) : http_result :=
  if String.eqb (rq_base_url rq)
       ("https://" ++ source_host w ++ "/admin/api/2024-01")
  then answer (source_store w) rq
  else answer (dest_store w) rq.

(** The remote side that is these two stores for ever: it has no state of
    its own. *)
Definition fixed (w : stores) : Remote unit :=
  fun rq _ => (route w rq, tt).

Definition new_client (host token : string) : client :=
  mkClient host ("https://" ++ host ++ "/admin/api/2024-01")
    [("X-Shopify-Access-Token", token); ("Content-Type", "application/json")].

Definition source_shop : client := new_client "source.myshopify.com" "source-token".
Definition dest_shop : client := new_client "dest.myshopify.com" "dest-token".

(** The product of [tests/test_shopify_client.py]. *)
Definition sample_variants : list json :=
  [JDict [("id", JNum 1); ("product_id", JNum 1);
          ("sku", JStr "TEST-SKU-1"); ("price", JStr "10.00");
          ("inventory_quantity", JNum 10)];
   JDict [("id", JNum 2); ("product_id", JNum 1);
          ("sku", JStr "TEST-SKU-2"); ("price", JStr "15.00");
          ("inventory_quantity", JNum 5)]].

Definition sample_fields : dict :=
  [("id", JNum 1); ("title", JStr "Test Product");
   ("body_html", JStr "<p>Test description</p>");
   ("vendor", JStr "Test Vendor"); ("product_type", JStr "Test Type");
   ("handle", JStr "test-product"); ("status", JStr "active");
   ("variants", JList sample_variants);
   ("images",
    JList
      [JDict [("id", JNum 1); ("src", JStr "https://test.com/image1.jpg");
              ("alt", JStr "Test Image 1"); ("position", JNum 1)];
       JDict [("id", JNum 2); ("src", JStr "https://test.com/image2.jpg");
              ("alt", JStr "Test Image 2"); ("position", JNum 2)]]);
   ("options",
    JList
      [JDict [("name", JStr "Size");
              ("values", JList [JStr "Small"; JStr "Medium"; JStr "Large"])]])].

Definition sample_product : json := JDict sample_fields.

Definition shirt : json :=
  JDict [("id", JNum 1); ("title", JStr "Shirt");
         ("variants", JList [JDict [("id", JNum 11); ("sku", JStr "SKU-1")]])].

Definition summer : json :=
  JDict [("id", JNum 7); ("title", JStr "Summer");
         ("body_html", JStr "<p>Hot</p>")].

Definition winter : json :=
  JDict [("id", JNum 8); ("title", JStr "Winter")].

Definition found (status : Z) (k : string) (v : json) : http_result :=
  Response status (Some (JDict [(k, v)])).

Definition not_found : http_result := Response 404 None.

(** A source store with one product, which is in its one collection. *)
Definition shirt_source : store :=
  mkStore
    (found 200 "shop" (JDict [("id", JNum 1)]))
    (found 200 "products" (JList [shirt]))
    not_found
    not_found
    (found 200 "custom_collections" (JList [summer]))
    not_found
    (fun _ _ => found 200 "collects" (JList [JDict [("id", JNum 5)]]))
    not_found.

(** An empty destination that accepts a new product and refuses a new
    collection. *)
Definition refusing_dest : store :=
  mkStore
    (found 200 "shop" (JDict [("id", JNum 2)]))
    (found 200 "products" (JList []))
    (found 201 "product" (JDict [("id", JNum 100); ("title", JStr "Shirt")]))
    not_found
    (found 200 "custom_collections" (JList []))
    (Response 422 None)
    (fun _ _ => not_found)
    not_found.

(** A destination that has the collection and fails to link a product to
    it. *)
Definition unlinking_dest : store :=
  mkStore
    (found 200 "shop" (JDict [("id", JNum 2)]))
    (found 200 "products" (JList []))
    (found 201 "product" (JDict [("id", JNum 100); ("title", JStr "Shirt")]))
    not_found
    (found 200 "custom_collections"
       (JList [JDict [("id", JNum 70); ("title", JStr "Summer")]]))
    not_found
    (fun _ _ => not_found)
    (Response 500 None).

(** A destination that accepts a new product and fails to list its
    collections. *)
Definition unlisting_dest : store :=
  mkStore
    (found 200 "shop" (JDict [("id", JNum 2)]))
    (found 200 "products" (JList []))
    (found 201 "product" (JDict [("id", JNum 100); ("title", JStr "Shirt")]))
    not_found
    (Response 500 None)
    not_found
    (fun _ _ => not_found)
    not_found.

Definition shirt_at_dest : json :=
  JDict [("id", JNum 42); ("title", JStr "Shirt");
         ("variants", JList [JDict [("id", JNum 420); ("sku", JStr "SKU-1")]])].


(** A destination that has the product under identifier 42 and accepts
    the update. *)
Definition accepting_dest : store :=
  mkStore
    (found 200 "shop" (JDict [("id", JNum 2)]))
    (found 200 "products" (JList [shirt_at_dest]))
    not_found
    (found 200 "product" shirt_at_dest)
    (found 200 "custom_collections"
       (JList [JDict [("id", JNum 70); ("title", JStr "Summer")];
               JDict [("id", JNum 80); ("title", JStr "Winter")]]))
    not_found
    (fun _ _ => not_found)
    (found 201 "collect" (JDict [("id", JNum 9)])).

(** A destination that has the product and answers the update with a
    product that has lost its identifier. *)
Definition anonymous_dest : store :=
  mkStore
    (found 200 "shop" (JDict [("id", JNum 2)]))
    (found 200 "products" (JList [shirt_at_dest]))
    not_found
    (found 200 "product" (JDict [("title", JStr "Shirt")]))
    (found 200 "custom_collections" (JList []))
    not_found
    (fun _ _ => not_found)
    not_found.

Definition shirt_again : json :=
  JDict [("id", JNum 2); ("title", JStr "Shirt (new)");
         ("variants", JList [JDict [("id", JNum 21); ("sku", JStr "SKU-1")]])].

(** A source store with two products of the same SKU, the first in the
    collection Summer and the second in Winter. *)
Definition twin_source : store :=
  mkStore
    (found 200 "shop" (JDict [("id", JNum 1)]))
    (found 200 "products" (JList [shirt; shirt_again]))
    not_found
    not_found
    (found 200 "custom_collections" (JList [summer; winter]))
    not_found
    (fun product_id collection_id =>
       found 200 "collects"
         (if py_eq product_id (JNum 1) && py_eq collection_id (JNum 7)
             || py_eq product_id (JNum 2) && py_eq collection_id (JNum 8)
          then JList [JDict [("id", JNum 5)]]
          else JList []))
    not_found.

(** A source store whose listing has two entries without an identifier. *)
Definition untidy_source : store :=
  mkStore
    (found 200 "shop" (JDict [("id", JNum 1)]))
    (found 200 "products"
       (JList [JDict [("title", JStr "No identifier")]; JStr "junk"; shirt]))
    not_found
    not_found
    (found 200 "custom_collections" (JList []))
    not_found
    (fun _ _ => not_found)
    not_found.


Definition hat : json :=
  JDict [("id", JNum 3); ("title", JStr "Hat");
         ("variants", JList [JDict [("id", JNum 31); ("sku", JStr "SKU-2")]])].

(** A source store with three products: the first and the third have the
    same SKU, and are in Summer and in Winter; the second is in Summer. *)
Definition triple_source : store :=
  mkStore
    (found 200 "shop" (JDict [("id", JNum 1)]))
    (found 200 "products" (JList [shirt; hat; shirt_again]))
    not_found
    not_found
    (found 200 "custom_collections" (JList [summer; winter]))
    not_found
    (fun product_id collection_id =>
       found 200 "collects"
         (if py_eq product_id (JNum 1) && py_eq collection_id (JNum 7)
             || py_eq product_id (JNum 3) && py_eq collection_id (JNum 7)
             || py_eq product_id (JNum 2) && py_eq collection_id (JNum 8)
          then JList [JDict [("id", JNum 5)]]
          else JList []))
    not_found.

(** A destination that has the shirt under identifier 42, accepts its
    update, and answers a creation with identifier 100. *)
Definition welcoming_dest : store :=
  mkStore
    (found 200 "shop" (JDict [("id", JNum 2)]))
    (found 200 "products" (JList [shirt_at_dest]))
    (found 201 "product" (JDict [("id", JNum 100); ("title", JStr "Hat")]))
    (found 200 "product" shirt_at_dest)
    (found 200 "custom_collections" (JList []))
    not_found
    (fun _ _ => not_found)
    not_found.

(** A store that rejects the access token. *)
Definition locked_store : store :=
  mkStore
    (Response 401 None)
    (found 200 "products" (JList [shirt]))
    not_found
    not_found
    (found 200 "custom_collections" (JList [summer]))
    (found 201 "custom_collection" summer)
    (fun _ _ => not_found)
    (found 201 "collect" (JDict [("id", JNum 9)])).

(** The payload of the sample product. *)
Definition sample_payload : json :=
  match snd (_prepare_product_data sample_product) with
  | Ok payload => payload
  | Raise _ => JNull
  end.

Definition sample_payload_fields : dict :=
  match sample_payload with
  | JDict d => d
  | _ => []
  end.

(** A product whose variants are a number. *)
Definition odd_product : json :=
  JDict [("id", JNum 5); ("title", JStr "Odd"); ("variants", JNum 3)].

(** The environment of a configured process, and three processes. *)
Definition sample_getenv (var : string) : option string :=
  if String.eqb var "SOURCE_SHOPIFY_STORE" then Some "source.myshopify.com"
  else if String.eqb var "SOURCE_ADMIN_KEY" then Some "source-token"
  else if String.eqb var "DESTINATION_SHOPIFY_STORE" then Some "dest.myshopify.com"
  else if String.eqb var "DESTINATION_ADMIN_KEY" then Some "dest-token"
  else None.

Definition confirming : process := mkProcess sample_getenv true.
Definition declining : process := mkProcess sample_getenv false.

Definition without_destination_key : process :=
  mkProcess
    (fun var =>
       if String.eqb var "DESTINATION_ADMIN_KEY" then Some ""
       else sample_getenv var)
    true.

Definition migration (source dest : store) : stores :=
  mkStores "source.myshopify.com" source dest.

Definition nothing_yet : env unit := mkEnv tt [] [].

(** A whole run against a pair of stores. *)
Definition run_migration (source dest : store)
  : res unit * (locals * env unit) :=
  migrate_products (R := fixed (migration source dest))
    source_shop dest_shop (initial_locals, nothing_yet).

(** * Vocabulary of the properties *)

(** A variant without any of the removed keys. *)
Definition stripped (v : json) : Prop :=
  exists d, v = JDict d /\ forall k, In k keys_to_remove -> dict_get d k = None.

(** An image that is its source and its alt text and nothing else. *)
Definition src_and_alt (i : json) : Prop :=
  exists src alt, i = JDict [("src", src); ("alt", alt)].

Definition shaped (payload : json) : Prop :=
  exists d,
    payload = JDict d /\
    (forall k, In k (dict_keys d) -> In k allowed_fields) /\
    (forall vs, dict_get d "variants" = Some vs ->
       exists l, py_iter vs = Ok l /\ Forall stripped l) /\
    (forall images, dict_get d "images" = Some images ->
       exists l, images = JList l /\ Forall src_and_alt l).

Definition all_dicts (v : json) : bool :=
  match v with
  | JList l => forallb isinstance_dict l
  | _ => false
  end.

(** A product dictionary as the API lists it: the variants and the images,
    when present, are lists of dictionaries. *)
Definition listed_product (p : json) : bool :=
  match p with
  | JDict d =>
      match dict_get d "variants" with Some vs => all_dicts vs | None => true end &&
      match dict_get d "images" with Some images => all_dicts images | None => true end
  | _ => false
  end.

(** The variant object after the inner loop, for any value. *)
Definition pop_keys (variant : json) : json :=
  match variant with
  | JDict d => JDict (fold_left dict_pop keys_to_remove d)
  | _ => variant
  end.

(** A product dictionary that has no SKU to go by: no variants, an
    empty value for them, or a first variant whose SKU is missing or
    empty. *)
Definition without_sku (p : json) : bool :=
  match p with
  | JDict d =>
      match dict_get d "variants" with
      | None => true
      | Some variants =>
          if truthy variants then
            match variants with
            | JList (JDict first_variant :: _) =>
                match dict_get first_variant "sku" with
                | None => true
                | Some sku => negb (truthy sku)
                end
            | _ => false
            end
          else true
      end
  | _ => false
  end.

(** A request that only reads. *)
Definition is_get (rq : request) : Prop := rq_method rq = GET.

(** A record of the client's logger. *)
Definition of_client (r : log_record) : Prop := lg_logger r = shopify_client.

(** The record that the handler of the second loop writes. *)
Definition is_collection_error (r : log_record) : bool :=
  match lg_logger r, lg_level r with
  | shopify_migration, ERROR =>
      String.eqb (lg_msg r) "Error processing collection '{}' for product {}: {}"
  | _, _ => false
  end.

Definition collection_errors (lg : list log_record) : nat :=
  List.length (filter is_collection_error lg).

Definition quiet (r : log_record) : Prop := is_collection_error r = false.

Definition any_request (rq : request) : Prop := True.

(** A product that has an identifier which can key a dictionary. *)
Definition keyed (m : json) : bool :=
  match py_getitem m "id" with
  | Ok key => hashable key
  | Raise _ => false
  end.

(** The stores answer with identified products: whenever an answer has a
    ["product"], that product is [keyed]. *)
Definition identifies_products (W : Type) {R : Remote W} : Prop :=
  forall rq w status body m,
    fst (send rq w) = Response status (Some (JDict body)) ->
    dict_get body "product" = Some m ->
    keyed m = true.

(** The environment in which [migrate_products] asks for the listing: its
    first record is logged. *)
Definition started {W} (e : env W) : env W :=
  mkEnv (world e) (trace e)
    (logs e ++ [mkLog shopify_migration INFO
                  "Starting product migration process" []]).

Definition sum4 (l : locals) : nat :=
  created_count l + updated_count l + skipped_count l + error_count l.

(** An entry of the listing that [get_products] does not warn about. *)
Definition valid_entry (p : json) : bool :=
  match p with
  | JDict d => dict_has d "id"
  | _ => false
  end.

(** The second phase leaves the three product counters alone. *)
Definition same_products (l l' : locals) : Prop :=
  created_count l' = created_count l /\
  updated_count l' = updated_count l /\
  skipped_count l' = skipped_count l.

Definition same_counts (l l' : locals) : Prop :=
  same_products l l' /\ error_count l' = error_count l.

(** Exactly one of the four counters is one more, the others are as they
    were. *)
Definition one_more (l l' : locals) : Prop :=
  (created_count l' = S (created_count l) /\
   updated_count l' = updated_count l /\
   skipped_count l' = skipped_count l /\
   error_count l' = error_count l) \/
  (created_count l' = created_count l /\
   updated_count l' = S (updated_count l) /\
   skipped_count l' = skipped_count l /\
   error_count l' = error_count l) \/
  (created_count l' = created_count l /\
   updated_count l' = updated_count l /\
   skipped_count l' = S (skipped_count l) /\
   error_count l' = error_count l) \/
  (created_count l' = created_count l /\
   updated_count l' = updated_count l /\
   skipped_count l' = skipped_count l /\
   error_count l' = S (error_count l)).

(** What the writing step leaves: one more product counted, the recording
    dictionary as it was, a [product] that is still a dictionary, and a
    [migrated_product] that is identified when there is one. *)
Definition written (l l' : locals) : Prop :=
  one_more l l' /\
  product_collections l' = product_collections l /\
  isinstance_dict (product l') = true /\
  forall m, migrated_product l' = Some m -> keyed m = true.

(** The recorded collections are dictionaries. *)
Definition recorded_dicts (pcs : list (json * list json)) : bool :=
  forallb (fun kv => forallb isinstance_dict (snd kv)) pcs.

(** Lines 61-68: the SKU that the first variant gives, [None] for it when
    the variants are missing or empty. *)
Definition first_variant_sku (p : json) : res json :=
  (variants <~ py_get p "variants" (JList []) ;;
   if truthy variants then
     first_variant <~ py_getitem0 variants ;;
     py_get first_variant "sku" JNull
   else Ok JNull)%res.


(** An answer that, when it has a product, has an identified one. *)
Definition tidy_answer (r : http_result) : bool :=
  match r with
  | Response _ (Some (JDict body)) =>
      match dict_get body "product" with
      | Some m => keyed m
      | None => true
      end
  | _ => true
  end.

Definition tidy_store (s : store) : Prop :=
  tidy_answer (get_shop s) = true /\
  tidy_answer (get_products_json s) = true /\
  tidy_answer (post_products_json s) = true /\
  tidy_answer (put_product_json s) = true /\
  tidy_answer (get_custom_collections_json s) = true /\
  tidy_answer (post_custom_collections_json s) = true /\
  (forall product_id collection_id,
     tidy_answer (get_collects_json s product_id collection_id) = true) /\
  tidy_answer (post_collects_json s) = true.

Definition is_warning (r : log_record) : bool :=
  match lg_level r with WARNING => true | _ => false end.

Definition is_error (r : log_record) : bool :=
  match lg_level r with ERROR => true | _ => false end.

Definition posts_to (ep : endpoint) (rq : request) : bool :=
  match rq_method rq, rq_endpoint rq, ep with
  | POST, CustomCollections, CustomCollections => true
  | POST, Collects, Collects => true
  | POST, Products, Products => true
  | _, _, _ => false
  end.

(** A request that goes to the store of a client, with its headers. *)
Definition to_store (self : client) (rq : request) : Prop :=
  rq_base_url rq = base_url self /\ rq_headers rq = headers self.

(** A request to the store of a client that reads, or is the one write
    named. *)
Definition reads_or (self : client) (m : http_method) (ep : endpoint)
    (rq : request) : Prop :=
  to_store self rq /\
  (is_get rq \/ (rq_method rq = m /\ rq_endpoint rq = ep)).

Definition reads_from (self : client) (rq : request) : Prop :=
  to_store self rq /\ is_get rq.

(** A 2xx status. *)
Definition success (status : Z) : bool :=
  (200 <=? status)%Z && (status <=? 299)%Z.

(** The requests of [create_product] and [update_product]. *)
Definition create_request (self : client) (payload : json) : request :=
  mkRequest POST (base_url self) Products [] (headers self)
    (Some (JDict [("product", payload)])).

Definition update_request (self : client) (product_id payload : json)
  : request :=
  mkRequest PUT (base_url self) (ProductById product_id) [] (headers self)
    (Some (JDict [("product", payload)])).

(** What a write of a product makes of the answer of the store, once the
    handlers have logged and raised again; [create_product] reads the
    identifier of the product for its log record, [update_product] does
    not. *)
Definition product_of_answer (reads_id : bool) (answer : http_result)
  : res json :=
  match answer with
  | ConnectFailed => Raise RequestError
  | Response status body =>
      if success status then
        match body with
        | None => Raise JSONDecodeError
        | Some (JDict d) =>
            match dict_get d "product" with
            | Some m =>
                (_ <~ py_getitem m "title" ;;
                 if reads_id then (_ <~ py_getitem m "id" ;; Ok m) else Ok m)%res
            | None => Raise (ValueError "Invalid response format from Shopify API")
            end
        | Some _ => Raise (ValueError "Invalid response format from Shopify API")
        end
      else Raise (HTTPStatusError status)
  end.

(** The request of [validate_credentials] and the second request of
    [get_products]. *)
Definition shop_request (self : client) : request :=
  mkRequest GET (base_url self) Shop [] (headers self) None.

Definition products_request (self : client) (limit : Z) : request :=
  mkRequest GET (base_url self) Products
    [("limit", JNum limit);
     ("fields", JStr "id,title,body_html,vendor,product_type,handle,status,variants,images,options")]
    (headers self) None.

(** An answer with a 2xx status. *)
Definition answers_ok (answer : http_result) : bool :=
  match answer with
  | Response status _ => success status
  | ConnectFailed => false
  end.

(** A product one of whose variants has the SKU. *)
Definition carries_sku (p sku : json) : Prop :=
  exists variants vs v s,
    py_get p "variants" (JList []) = Ok variants /\
    py_iter variants = Ok vs /\
    In v vs /\
    py_get v "sku" JNull = Ok s /\
    py_eq s sku = true.

(** A collection of that title. *)
Definition titled (c title : json) : Prop :=
  exists t, py_get c "title" JNull = Ok t /\ py_eq t title = true.

(** What a search through a list gives: the first entry that satisfies
    the predicate, or nothing when no entry does. *)
Definition first_such (P : json -> Prop) (l : list json) (found : option json)
  : Prop :=
  match found with
  | Some p =>
      exists before after,
        l = before ++ p :: after /\ P p /\ Forall (fun q => ~ P q) before
  | None => Forall (fun q => ~ P q) l
  end.

(** The environment in which [get_product_by_sku] asks for the listing:
    its first record is logged. *)
Definition searching {W} (self : client) (sku : json) (e : env W) : env W :=
  mkEnv (world e) (trace e)
    (logs e ++ [mkLog shopify_client INFO
                  "Searching for product with SKU '{}' in {}"
                  [AVal sku; AStr (store_url self)]]).

(** A payload dictionary that the shaping leaves as it is: allow-listed
    keys, variants that the loop does not change, images that the loop gives
    back. *)
Definition settled (d : dict) : Prop :=
  (forall k, In k (dict_keys d) -> In k allowed_fields) /\
  (forall vs, dict_get d "variants" = Some vs ->
     clean_variants vs = (vs, Ok tt)) /\
  (forall images, dict_get d "images" = Some images ->
     clean_images images = Ok images).

(** An image that the loop over the images keeps, and what it keeps of
    it. *)
Definition has_src (image : json) : bool :=
  match py_contains image "src" with
  | Ok b => b
  | Raise _ => false
  end.

Definition src_alt_of (image : json) : json :=
  JDict [("src", match py_getitem image "src" with
                 | Ok src => src
                 | Raise _ => JNull
                 end);
         ("alt", match py_get image "alt" (JStr "") with
                 | Ok alt => alt
                 | Raise _ => JStr ""
                 end)].

(** The lists that the recording dictionary holds under an identifier:
    what the second phase iterates for that product. *)
Definition entries_of (pcs : list (json * list json)) (key : json)
  : list (list json) :=
  map snd (filter (fun kv => py_eq (fst kv) key) pcs).

(** Keys as a Python dictionary has them: hashable, and no two equal. *)
Fixpoint distinct (keys : list json) : bool :=
  match keys with
  | [] => true
  | k :: rest =>
      hashable k && negb (existsb (fun k' => py_eq k' k) rest) && distinct rest
  end.

Definition distinct_keys (pcs : list (json * list json)) : bool :=
  distinct (map fst pcs).

(** What an iteration of the first loop records, if anything: an
    identifier and the list of collections stored under it. *)
Definition recording : Type := option (json * list json).

Definition record (pcs : list (json * list json)) (r : recording)
  : list (json * list json) :=
  match r with
  | Some (key, cs) => pc_setitem pcs key cs
  | None => pcs
  end.

Definition under_other_key (key : json) (r : recording) : Prop :=
  match r with
  | Some (k, _) => py_eq k key = false
  | None => True
  end.

Definition well_keyed (r : recording) : Prop :=
  match r with
  | Some (k, _) => hashable k = true
  | None => True
  end.


(** A request of a migration: a read of the source store, or a request to
    the destination store. *)
Definition of_migration (source_client dest_client : client) (rq : request)
  : Prop :=
  reads_from source_client rq \/ to_store dest_client rq.

Definition any_record (r : log_record) : Prop := True.

(** The request [create_product self] sends. *)
Definition is_create_at (self : client) (rq : request) : Prop :=
  rq_method rq = POST /\
  rq_base_url rq = base_url self /\
  rq_endpoint rq = Products.

(** Credentials that the constructor of the client accepts. *)
Definition well_formed (store_url admin_key : string) : Prop :=
  admin_key <> "" /\ exists prefix, store_url = (prefix ++ "myshopify.com")%string.

(** The environment after a record of the orchestrator's logger. *)
Definition announced {W} (lvl : level) (msg : string) (args : list log_arg)
    (e : env W) : env W :=
  mkEnv (world e) (trace e) (logs e ++ [mkLog shopify_migration lvl msg args]).

Definition is_shop_request (rq : request) : Prop :=
  rq_method rq = GET /\ rq_endpoint rq = Shop.

(** The requests of the collection methods. *)
Definition collections_request (self : client) : request :=
  mkRequest GET (base_url self) CustomCollections [] (headers self) None.

Definition collection_post (self : client) (title description : json)
  : request :=
  mkRequest POST (base_url self) CustomCollections [] (headers self)
    (Some (JDict [("custom_collection",
                   JDict [("title", title); ("body_html", description)])])).

Definition collect_post (self : client) (product_id collection_id : json)
  : request :=
  mkRequest POST (base_url self) Collects [] (headers self)
    (Some (JDict [("collect",
                   JDict [("product_id", product_id);
                          ("collection_id", collection_id)])])).

Definition collects_request (self : client) (product_id collection_id : json)
  : request :=
  mkRequest GET (base_url self) (CollectsOf product_id collection_id) []
    (headers self) None.

(** What a collection method makes of the answer of the store, once its
    handlers have logged and raised again: the value under the key [k] of a
    2xx JSON dictionary. *)
Definition field_of_answer (k msg : string) (answer : http_result) : res json :=
  match answer with
  | ConnectFailed => Raise RequestError
  | Response status body =>
      if success status then
        match body with
        | None => Raise JSONDecodeError
        | Some (JDict d) =>
            match dict_get d k with
            | Some v => Ok v
            | None => Raise (ValueError msg)
            end
        | Some _ => Raise (ValueError msg)
        end
      else Raise (HTTPStatusError status)
  end.

(** [l1] is [l2] with some entries left out. *)
Inductive sublist {A : Type} : list A -> list A -> Prop :=
| sublist_nil : sublist [] []
| sublist_keep (x : A) (l1 l2 : list A) :
    sublist l1 l2 -> sublist (x :: l1) (x :: l2)
| sublist_skip (x : A) (l1 l2 : list A) :
    sublist l1 l2 -> sublist l1 (x :: l2).

(** A product dictionary with a title. *)
Definition has_title (p : json) : bool :=
  match p with
  | JDict d => dict_has d "title"
  | _ => false
  end.

Section Vocabulary.

Context {W : Type} {R : Remote W}.

(** A state that contains the environment. *)
Class HasEnv (S : Type) : Type := env_of : S -> env W.

#[global] Instance env_has_env : HasEnv (env W) := fun e => e.
#[global] Instance object_has_env : HasEnv (json * env W) := snd.
#[global] Instance locals_has_env : HasEnv (locals * env W) := snd.

(** [effects P Q m]: whatever the state, [m] appends to the trace only
    requests that satisfy [P] and to the logs only records that satisfy
    [Q]. *)
Definition effects {S} {H : HasEnv S} {A}
    (P : request -> Prop) (Q : log_record -> Prop) (m : M S A) : Prop :=
  forall s,
    exists t lg,
      trace (env_of (snd (m s))) = trace (env_of s) ++ t /\
      logs (env_of (snd (m s))) = logs (env_of s) ++ lg /\
      Forall P t /\ Forall Q lg.

Definition keeps_counts {A} (m : O (W:=W) A) : Prop :=
  forall l e, same_counts l (fst (snd (m (l, e)))).

(** What the second phase and the report leave: the product counters as
    they were, and an error counter that has grown by the number of
    collection errors logged. *)
Definition collections_counted (l : locals) (e : env W) (l' : locals)
    (e' : env W) : Prop :=
  same_products l l' /\
  error_count l' + collection_errors (logs e)
    = error_count l + collection_errors (logs e').

(** A computation that leaves the recording dictionary as it is. *)
Definition keeps_recordings {A} (m : O (W:=W) A) : Prop :=
  forall l e,
    product_collections (fst (snd (m (l, e)))) = product_collections l.

(** Lines 59-107 read for what they record.  The iteration of [p] from
    the state [s] records when the first variant of [p] has a SKU, the
    lookup of the SKU at the destination returns, the write that follows
    returns a product (the updated or the created one) that has an
    identifier, and the source collections fetched for [p] are not empty:
    it then records these collections under that identifier. *)
Definition recorded (source_client dest_client : client) (p : json)
    (s : locals * env W) : recording :=
  match first_variant_sku p with
  | Ok sku =>
      if truthy sku then
        let fetched :=
          fetch_source_collections source_client
            (set_product p (fst s), snd s) in
        match fst fetched with
        | Ok source_collections =>
            let looked_up :=
              get_product_by_sku dest_client sku (snd (snd fetched)) in
            match fst looked_up with
            | Ok existing_product =>
                let written :=
                  write_product dest_client sku existing_product
                    (fst (snd fetched), snd looked_up) in
                match fst written, migrated_product (fst (snd written)) with
                | Ok _, Some m =>
                    if truthy m && nonempty source_collections then
                      match py_getitem m "id" with
                      | Ok key =>
                          if hashable key then Some (key, source_collections)
                          else None
                      | Raise _ => None
                      end
                    else None
                | _, _ => None
                end
            | Raise _ => None
            end
        | Raise _ => None
        end
      else None
  | Raise _ => None
  end.

(** What the iterations of the first loop record, one after the other, as
    far as the loop goes. *)
Fixpoint loop_recordings (source_client dest_client : client)
    (ps : list json) (s : locals * env W) : list recording :=
  match ps with
  | [] => []
  | p :: rest =>
      recorded source_client dest_client p s ::
      match migrate_product source_client dest_client p s with
      | (Ok _, s') => loop_recordings source_client dest_client rest s'
      | (Raise _, _) => []
      end
  end.

End Vocabulary.

(** * Properties *)

(** ** Dictionaries *)

Lemma dict_get_setitem_same (d : dict) (k : string) (v : json) :
  dict_get (dict_setitem d k v) k = Some v.
Proof.
  induction d as [|[k' v'] d IH]; simpl.
  - now rewrite String.eqb_refl.
  - destruct (String.eqb k' k) eqn:E; simpl; rewrite E; auto.
Qed.

Lemma dict_get_setitem_other (d : dict) (k k' : string) (v : json) :
  k <> k' -> dict_get (dict_setitem d k v) k' = dict_get d k'.
Proof.
  intros Hne. induction d as [|[k0 v0] d IH]; simpl.
  - destruct (String.eqb_spec k k'); congruence.
  - destruct (String.eqb_spec k0 k) as [->|Hk]; simpl.
    + destruct (String.eqb_spec k k'); congruence.
    + now rewrite IH.
Qed.

Lemma dict_keys_setitem_present (d : dict) (k : string) (v x : json) :
  dict_get d k = Some x -> dict_keys (dict_setitem d k v) = dict_keys d.
Proof.
  unfold dict_keys. induction d as [|[k' v'] d IH]; simpl; [discriminate|].
  destruct (String.eqb k' k); simpl; intros H; [reflexivity|].
  now rewrite IH.
Qed.

Lemma dict_get_filter (f : string -> bool) (d : dict) (k : string) :
  dict_get (filter (fun kv => f (fst kv)) d) k =
  if f k then dict_get d k else None.
Proof.
  induction d as [|[k' v'] d IH]; simpl.
  - now destruct (f k).
  - destruct (String.eqb_spec k' k) as [->|Hne].
    + destruct (f k) eqn:Ef; simpl.
      * now rewrite String.eqb_refl.
      * rewrite IH. now destruct (f k).
    + destruct (f k'); simpl; [|exact IH].
      destruct (String.eqb_spec k' k); [contradiction | exact IH].
Qed.

Lemma dict_get_pop_same (d : dict) (k : string) :
  dict_get (dict_pop d k) k = None.
Proof.
  unfold dict_pop. rewrite (dict_get_filter (fun x => negb (String.eqb x k))).
  now rewrite String.eqb_refl.
Qed.

Lemma dict_get_pop_none (d : dict) (k k' : string) :
  dict_get d k = None -> dict_get (dict_pop d k') k = None.
Proof.
  intros H. unfold dict_pop.
  rewrite (dict_get_filter (fun x => negb (String.eqb x k'))).
  now destruct (negb (String.eqb k k')).
Qed.

Lemma dict_get_pop_all_none (ks : list string) (d : dict) (k : string) :
  dict_get d k = None -> dict_get (fold_left dict_pop ks d) k = None.
Proof.
  revert d. induction ks as [|k0 ks IH]; simpl; intros d H; [exact H|].
  apply IH. now apply dict_get_pop_none.
Qed.

Lemma dict_get_pop_all (ks : list string) (d : dict) (k : string) :
  In k ks -> dict_get (fold_left dict_pop ks d) k = None.
Proof.
  revert d. induction ks as [|k0 ks IH]; simpl; intros d Hin; [contradiction|].
  destruct Hin as [->|H].
  - apply dict_get_pop_all_none, dict_get_pop_same.
  - now apply IH.
Qed.

Lemma is_allowed_In (k : string) : is_allowed k = true <-> In k allowed_fields.
Proof.
  unfold is_allowed. rewrite existsb_exists. split.
  - intros (x & Hx & E). apply String.eqb_eq in E. now subst.
  - intros H. exists k. split; [exact H | apply String.eqb_refl].
Qed.

(** ** The payload *)

Lemma strip_variant_stripped (v v' : json) :
  strip_variant v = Ok v' -> stripped v'.
Proof.
  intros H. destruct v; try discriminate H.
  injection H as <-. eexists; split; [reflexivity|].
  intros k Hk. exact (dict_get_pop_all keys_to_remove d k Hk).
Qed.

Lemma strip_variants_stripped (vs vs' : list json) :
  strip_variants vs = (vs', Ok tt) -> Forall stripped vs'.
Proof.
  revert vs'. induction vs as [|v vs IH]; simpl; intros vs'.
  - intros [= <-]. constructor.
  - destruct (strip_variant v) as [v1|] eqn:Ev; [|discriminate].
    destruct (strip_variants vs) as [rest r] eqn:Er.
    intros [= <- ->]. constructor; [eapply strip_variant_stripped; eauto|].
    now apply IH.
Qed.

Lemma clean_variants_stripped (vs vs' : json) :
  clean_variants vs = (vs', Ok tt) ->
  exists l, py_iter vs' = Ok l /\ Forall stripped l.
Proof.
  unfold clean_variants.
  destruct vs as [| | |s|l|d]; simpl; try discriminate.
  - destruct (chars s) as [|x xs] eqn:Ec.
    + intros [= <-]. simpl. rewrite Ec. eauto.
    + destruct (strip_variant x) eqn:Ex; simpl; [|discriminate].
      unfold chars in Ec. destruct (list_ascii_of_string s); simpl in Ec;
        [discriminate|]. injection Ec as <- _. discriminate.
  - destruct (strip_variants l) as [l' r] eqn:El.
    intros [= <- ->]. simpl. eauto using strip_variants_stripped.
  - destruct d as [|[k v] d]; simpl.
    + intros [= <-]. simpl. eauto.
    + discriminate.
Qed.

Lemma clean_image_src_and_alt (image i : json) :
  clean_image image = Ok (Some i) -> src_and_alt i.
Proof.
  unfold clean_image.
  destruct (py_contains image "src") as [[|]|]; simpl; try discriminate.
  destruct (py_getitem image "src"); simpl; [|discriminate].
  destruct (py_get image "alt" (JStr "")); simpl; [|discriminate].
  intros [= <-]. red. eauto.
Qed.

Lemma clean_image_list_src_and_alt (images cleaned : list json) :
  clean_image_list images = Ok cleaned -> Forall src_and_alt cleaned.
Proof.
  revert cleaned. induction images as [|image rest IH]; simpl; intros cleaned.
  - intros [= <-]. constructor.
  - destruct (clean_image image) as [c|] eqn:Ec; simpl; [|discriminate].
    destruct (clean_image_list rest) as [rest'|]; simpl; [|discriminate].
    intros [= <-]. destruct c as [i|]; auto.
    constructor; eauto using clean_image_src_and_alt.
Qed.

Lemma replace_images_shaped (cleaned_data : dict) (payload : json) :
  (forall k, In k (dict_keys cleaned_data) -> In k allowed_fields) ->
  (forall vs, dict_get cleaned_data "variants" = Some vs ->
     exists l, py_iter vs = Ok l /\ Forall stripped l) ->
  replace_images cleaned_data = Ok payload -> shaped payload.
Proof.
  intros Hkeys Hvs. unfold replace_images.
  destruct (dict_get cleaned_data "images") as [images|] eqn:Ei.
  - unfold clean_images.
    destruct (py_len images); simpl; [|discriminate].
    destruct (py_iter images) as [l|]; simpl; [|discriminate].
    destruct (clean_image_list l) as [cleaned|] eqn:Ec; simpl; [|discriminate].
    intros [= <-]. eexists; split; [reflexivity|]. repeat split.
    + erewrite dict_keys_setitem_present by eassumption. exact Hkeys.
    + intros vs. rewrite dict_get_setitem_other by discriminate. apply Hvs.
    + intros images'. rewrite dict_get_setitem_same. intros [= <-].
      eauto using clean_image_list_src_and_alt.
  - intros [= <-]. eexists; split; [reflexivity|]. repeat split; auto.
    intros images. rewrite Ei. discriminate.
Qed.

Lemma filter_allowed_keys (pd : dict) (k : string) :
  In k (dict_keys (filter (fun kv => is_allowed (fst kv)) pd)) ->
  In k allowed_fields.
Proof.
  unfold dict_keys. rewrite in_map_iff. intros ([k' v] & <- & H).
  apply filter_In in H. now apply is_allowed_In.
Qed.

Lemma prepare_shaped (product_data payload : json) :
  snd (_prepare_product_data product_data) = Ok payload -> shaped payload.
Proof.
  destruct product_data as [| | | | |pd]; simpl; try discriminate.
  set (cleaned := filter (fun kv => is_allowed (fst kv)) pd).
  destruct (dict_get cleaned "variants") as [vs|] eqn:Ev.
  - destruct (clean_variants vs) as [vs' r] eqn:Ec. simpl.
    destruct r as [[]|]; simpl; [|discriminate].
    apply replace_images_shaped.
    + intros k. erewrite dict_keys_setitem_present by eassumption.
      apply filter_allowed_keys.
    + intros vs0. rewrite dict_get_setitem_same. intros [= <-].
      eauto using clean_variants_stripped.
  - simpl. apply replace_images_shaped.
    + apply filter_allowed_keys.
    + intros vs. rewrite Ev. discriminate.
Qed.

Lemma strip_variants_dicts (vs : list json) :
  forallb isinstance_dict vs = true ->
  strip_variants vs = (map pop_keys vs, Ok tt).
Proof.
  induction vs as [|v vs IH]; [reflexivity|].
  intros H. apply andb_prop in H as [Hv Hvs].
  destruct v; try discriminate Hv.
  cbn [strip_variants strip_variant map pop_keys]. now rewrite IH.
Qed.

Lemma clean_variants_dicts (vs : list json) :
  forallb isinstance_dict vs = true ->
  clean_variants (JList vs) = (JList (map pop_keys vs), Ok tt).
Proof.
  intros H. unfold clean_variants. cbn [py_len].
  now rewrite strip_variants_dicts.
Qed.

Lemma clean_image_list_dicts (images : list json) :
  forallb isinstance_dict images = true ->
  exists cleaned, clean_image_list images = Ok cleaned.
Proof.
  induction images as [|image rest IH]; simpl; [eauto|].
  intros H. apply andb_prop in H as [Hi Hr].
  destruct (IH Hr) as [rest' ->].
  destruct image as [| | | | |d]; try discriminate Hi.
  unfold clean_image. simpl. unfold dict_has.
  destruct (dict_get d "src"); simpl; eauto.
Qed.

Lemma replace_images_dicts (cleaned_data : dict) :
  match dict_get cleaned_data "images" with
  | Some images => all_dicts images
  | None => true
  end = true ->
  exists payload, replace_images cleaned_data = Ok payload.
Proof.
  unfold replace_images.
  destruct (dict_get cleaned_data "images") as [images|]; [|eauto].
  destruct images as [| | | |l|]; try discriminate. simpl. intros H.
  unfold clean_images. simpl.
  destruct (clean_image_list_dicts l H) as [cleaned ->]. simpl. eauto.
Qed.

Lemma prepare_returns (product_data : json) :
  listed_product product_data = true ->
  exists payload, snd (_prepare_product_data product_data) = Ok payload.
Proof.
  destruct product_data as [| | | | |pd]; try discriminate.
  intros H. apply andb_prop in H as [Hv Hi]. simpl.
  rewrite (dict_get_filter is_allowed pd "variants"). simpl.
  destruct (dict_get pd "variants") as [vs|].
  - destruct vs as [| | | |l|]; try discriminate Hv. simpl in Hv.
    rewrite (clean_variants_dicts l Hv). simpl.
    apply replace_images_dicts.
    rewrite dict_get_setitem_other by discriminate.
    rewrite (dict_get_filter is_allowed pd "images"). exact Hi.
  - simpl. apply replace_images_dicts.
    rewrite (dict_get_filter is_allowed pd "images"). exact Hi.
Qed.

(** C5.  The payload that [_prepare_product_data] returns has allow-listed
    top-level keys only, its variants carry none of the removed keys, and
    its images are a source URL and an alt text each; and the function does
    return a payload for a product whose variants and images are lists of
    dictionaries. *)
Theorem payload_is_shaped (product_data : json) :
  (listed_product product_data = true ->
   exists payload, snd (_prepare_product_data product_data) = Ok payload) /\
  (forall payload,
     snd (_prepare_product_data product_data) = Ok payload -> shaped payload).
Proof.
  split; [apply prepare_returns | apply prepare_shaped].
Qed.

Lemma payload_is_shaped_sample :
  exists payload,
    snd (_prepare_product_data sample_product) = Ok payload /\ shaped payload.
Proof.
  destruct (payload_is_shaped sample_product) as [Hret Hshape].
  destruct (Hret eq_refl) as [payload Hp].
  exists payload. split; [exact Hp | exact (Hshape payload Hp)].
Defined.

Lemma map_fixed {A} (f : A -> A) (l : list A) (x : A) :
  map f l = l -> In x l -> f x = x.
Proof.
  induction l as [|y l IH]; simpl; [contradiction|].
  intros [= Hy Hl] [<-|Hin]; auto.
Qed.

Section ClientFacts.

Context {W : Type} {R : Remote W}.

Lemma create_product_object (self : client) (product_data : json) (e : env W) :
  fst (snd (create_product self (product_data, e))) =
  fst (_prepare_product_data product_data).
Proof.
  unfold create_product.
  destruct (py_get product_data "title" (JStr "Unknown")) eqn:Et.
  - destruct (_prepare_product_data product_data).
    now destruct (create_product_request self a r e).
  - destruct product_data; try reflexivity. discriminate Et.
Qed.

Lemma update_product_object (self : client) (product_id product_data : json)
    (e : env W) :
  fst (snd (update_product self product_id (product_data, e))) =
  fst (_prepare_product_data product_data).
Proof.
  unfold update_product.
  destruct (py_get product_data "title" (JStr "Unknown")) eqn:Et.
  - destruct (_prepare_product_data product_data).
    now destruct (update_product_request self product_id a r e).
  - destruct product_data; try reflexivity. discriminate Et.
Qed.

Lemma prepare_object (pd : dict) (vs : list json) :
  dict_get pd "variants" = Some (JList vs) ->
  forallb isinstance_dict vs = true ->
  fst (_prepare_product_data (JDict pd)) =
  JDict (dict_setitem pd "variants" (JList (map pop_keys vs))).
Proof.
  intros Hv Hd. simpl.
  rewrite (dict_get_filter is_allowed pd "variants"). simpl. rewrite Hv.
  now rewrite (clean_variants_dicts vs Hd).
Qed.

(** C9.  [create_product] and [update_product] change the caller's
    product: whatever the store answers, every variant dictionary of the
    object the caller passed has lost the server-managed keys, so the object
    differs from what it was as soon as a variant had one of them. *)
Theorem write_strips_callers_variants (self : client) (product_id : json)
    (pd : dict) (vs : list json) (e : env W) :
  dict_get pd "variants" = Some (JList vs) ->
  forallb isinstance_dict vs = true ->
  let after := JDict (dict_setitem pd "variants" (JList (map pop_keys vs))) in
  fst (snd (create_product self (JDict pd, e))) = after /\
  fst (snd (update_product self product_id (JDict pd, e))) = after /\
  Forall stripped (map pop_keys vs) /\
  ((exists v k, In v vs /\ In k keys_to_remove /\ py_contains v k = Ok true) ->
   after <> JDict pd).
Proof.
  intros Hv Hd after. repeat split.
  - rewrite create_product_object. now apply prepare_object.
  - rewrite update_product_object. now apply prepare_object.
  - apply (strip_variants_stripped vs). now apply strip_variants_dicts.
  - intros (v & k & Hin & Hk & Hc) [= Heq].
    assert (Hsame : dict_get (dict_setitem pd "variants" (JList (map pop_keys vs)))
                      "variants" = Some (JList vs)) by now rewrite Heq.
    rewrite dict_get_setitem_same in Hsame. injection Hsame as Hmap.
    pose proof (map_fixed pop_keys vs v Hmap Hin) as Hfix.
    destruct v as [| | | | |d];
      try (rewrite forallb_forall in Hd; specialize (Hd _ Hin); discriminate Hd).
    assert (Hd' : fold_left dict_pop keys_to_remove d = d)
      by (unfold pop_keys in Hfix; congruence).
    pose proof (dict_get_pop_all keys_to_remove d k Hk) as Hnone.
    rewrite Hd' in Hnone. simpl in Hc. unfold dict_has in Hc.
    rewrite Hnone in Hc. discriminate Hc.
Qed.

End ClientFacts.

Lemma write_strips_callers_variants_sample :
  let R := fixed (migration shirt_source refusing_dest) in
  fst (snd (create_product dest_shop (sample_product, nothing_yet)))
    <> sample_product /\
  fst (snd (update_product dest_shop (JNum 42) (sample_product, nothing_yet)))
    <> sample_product.
Proof.
  intros R.
  destruct (write_strips_callers_variants (R:=R) dest_shop (JNum 42)
              sample_fields sample_variants nothing_yet eq_refl eq_refl)
    as (Hc & Hu & _ & Hne).
  assert (Hkey : exists v k,
             In v sample_variants /\ In k keys_to_remove /\
             py_contains v k = Ok true).
  { eexists _, "id". split; [left; reflexivity|]. split; [|reflexivity].
    simpl. tauto. }
  unfold sample_product. rewrite Hc, Hu. split; exact (Hne Hkey).
Defined.

Section Credentials.

Context {W : Type} {R : Remote W}.

(** C8.  [validate_credentials] always returns a boolean and never raises:
    [True] exactly when the store answers the shop request with a 2xx
    status, [False] for every other status (401 among them) and when the
    request does not get through. *)
Theorem validate_credentials_never_raises (self : client) (e : env W) :
  exists valid : bool,
    fst (validate_credentials self e) = Ok valid /\
    (valid = true <->
     exists status body,
       fst (send (mkRequest GET (base_url self) Shop [] (headers self) None)
              (world e)) = Response status body /\
       (200 <= status <= 299)%Z).
Proof.
  unfold validate_credentials, try_except, bind, http.
  destruct (send _ (world e)) as [[|status body] w'] eqn:Es; simpl.
  - exists false. split; [reflexivity|]. split; [discriminate|].
    intros (st & b & H & _). discriminate H.
  - unfold raise_for_status. simpl.
    destruct (200 <=? status)%Z eqn:Elo; simpl;
      [destruct (status <=? 299)%Z eqn:Ehi; simpl|].
    + exists true. split; [reflexivity|]. split; [|reflexivity].
      intros _. exists status, body. split; [reflexivity|]. lia.
    + exists false. split; [now destruct (status =? 401)%Z|].
      split; [discriminate|]. intros (st & b & [= -> ->] & H). lia.
    + exists false. split; [now destruct (status =? 401)%Z|].
      split; [discriminate|]. intros (st & b & [= -> ->] & H). lia.
Qed.

End Credentials.

(** ** The recording dictionary *)

Lemma py_eq_hashable_refl (k : json) : hashable k = true -> py_eq k k = true.
Proof.
  destruct k; simpl; try discriminate; intros _.
  - reflexivity.
  - now destruct b.
  - apply Z.eqb_refl.
  - apply String.eqb_refl.
Qed.

Lemma pc_get_setitem_same (pcs : list (json * list json)) (k : json)
    (v : list json) :
  py_eq k k = true -> pc_get (pc_setitem pcs k v) k = Some v.
Proof.
  intros Hk. induction pcs as [|[k' v'] pcs IH]; simpl.
  - now rewrite Hk.
  - destruct (py_eq k' k) eqn:E; simpl; rewrite E; auto.
Qed.

Lemma pc_setitem_present (pcs : list (json * list json)) (k : json)
    (v old : list json) :
  pc_get pcs k = Some old ->
  map fst (pc_setitem pcs k v) = map fst pcs.
Proof.
  induction pcs as [|[k' v'] pcs IH]; simpl; [discriminate|].
  destruct (py_eq k' k); simpl; [reflexivity|].
  intros H. now rewrite IH.
Qed.

Lemma identified_is_truthy (m key : json) :
  py_getitem m "id" = Ok key -> truthy m = true.
Proof.
  destruct m as [| | | | |[|kv d]]; try discriminate. reflexivity.
Qed.

Section Recording.

Context {W : Type} {R : Remote W}.

Lemma record_collections_stores (l : locals) (e : env W) (m key : json)
    (cs : list json) :
  migrated_product l = Some m ->
  py_getitem m "id" = Ok key ->
  hashable key = true ->
  cs <> [] ->
  record_collections cs (l, e) =
  (Ok tt, (set_product_collections (pc_setitem (product_collections l) key cs) l, e)).
Proof.
  intros Hm Hid Hh Hcs. pose proof (identified_is_truthy m key Hid) as Ht.
  unfold record_collections, bind, local, lift_res, assign. rewrite Hm, Ht.
  destruct cs as [|c cs]; [congruence|]. simpl. rewrite Hid, Hh. reflexivity.
Qed.

Lemma recording_twice_replaces (l : locals) (e : env W)
    (m1 m2 key : json) (earlier later : list json) :
  py_getitem m1 "id" = Ok key -> py_getitem m2 "id" = Ok key ->
  hashable key = true ->
  earlier <> [] -> later <> [] ->
  exists l1 l2,
    record_collections earlier (set_migrated_product (Some m1) l, e)
      = (Ok tt, (l1, e)) /\
    pc_get (product_collections l1) key = Some earlier /\
    record_collections later (set_migrated_product (Some m2) l1, e)
      = (Ok tt, (l2, e)) /\
    pc_get (product_collections l2) key = Some later /\
    map fst (product_collections l2) = map fst (product_collections l1).
Proof.
  intros Hid1 Hid2 Hh He Hl.
  pose proof (py_eq_hashable_refl key Hh) as Hrefl.
  eexists _, _. split; [|split; [|split; [|split]]].
  - now apply (record_collections_stores _ e m1 key).
  - simpl. now apply pc_get_setitem_same.
  - now apply (record_collections_stores _ e m2 key).
  - simpl. now apply pc_get_setitem_same.
  - simpl. eapply pc_setitem_present. now apply pc_get_setitem_same.
Qed.

End Recording.

(** ** Skipping a product *)

Section Skipping.

Context {W : Type} {R : Remote W}.

Lemma skipped_iteration (source_client dest_client : client)
    (p : json) (l : locals) (e : env W) :
  without_sku p = true ->
  exists msg title,
    (msg = "Skipping product '{}' - No variants found" \/
     msg = "Skipping product '{}' - No SKU found in first variant") /\
    py_get p "title" (JStr "Unknown") = Ok title /\
    migrate_product source_client dest_client p (l, e) =
    (Ok tt,
     (incr_skipped (set_product p l),
      mkEnv (world e) (trace e)
        (logs e ++ [mkLog shopify_migration WARNING msg [AVal title]]))).
Proof.
  intros H. destruct p as [| | | | |d]; try discriminate H.
  unfold migrate_product, try_except, bind, assign, local, lift_res. simpl.
  simpl in H. destruct (dict_get d "variants") as [variants|] eqn:Ev.
  - destruct (truthy variants) eqn:Et.
    + destruct variants as [| | | |[|[| | | | |v] vs]|]; try discriminate H.
      simpl. destruct (dict_get v "sku") as [sku|]; simpl.
      * apply negb_true_iff in H. rewrite H. simpl. eauto 6.
      * eauto 6.
    + simpl. eauto 6.
  - simpl. eauto 6.
Qed.

(** C7.  A product whose variant list is missing or empty, or whose first
    variant has no SKU (or an empty one), is skipped.  The iteration ends
    normally; the skipped count is exactly one more, and the four other
    counts and the recording dictionary are as before; no request is sent to
    either store and the stores are as before, so the product is neither
    created nor updated; one warning that names the title of the product is
    logged; and the loop goes on with the next product from that state. *)
Theorem product_without_sku_is_skipped (source_client dest_client : client)
    (p : json) (rest : list json) (l : locals) (e : env W) :
  without_sku p = true ->
  exists l' e' msg title,
    migrate_product source_client dest_client p (l, e) = (Ok tt, (l', e')) /\
    skipped_count l' = S (skipped_count l) /\
    created_count l' = created_count l /\
    updated_count l' = updated_count l /\
    error_count l' = error_count l /\
    collection_count l' = collection_count l /\
    product_collections l' = product_collections l /\
    trace e' = trace e /\
    world e' = world e /\
    logs e' = logs e ++ [mkLog shopify_migration WARNING msg [AVal title]] /\
    (msg = "Skipping product '{}' - No variants found" \/
     msg = "Skipping product '{}' - No SKU found in first variant") /\
    py_get p "title" (JStr "Unknown") = Ok title /\
    for_each (p :: rest) (migrate_product source_client dest_client) (l, e)
    = for_each rest (migrate_product source_client dest_client) (l', e').
Proof.
  intros H.
  destruct (skipped_iteration source_client dest_client p l e H)
    as (msg & title & Hmsg & Htitle & Hrun).
  eexists _, _, msg, title. split; [exact Hrun|].
  cbn [skipped_count created_count updated_count error_count collection_count
       product_collections incr_skipped set_product trace world logs].
  repeat (split; [reflexivity|]).
  split; [exact Hmsg|]. split; [exact Htitle|].
  cbn [for_each]. unfold bind at 1. now rewrite Hrun.
Qed.

End Skipping.

(** ** What a computation sends and logs *)

Section Effects.

Context {W : Type} {R : Remote W}.

Variables (P : request -> Prop) (Q : log_record -> Prop).

Lemma effects_none {S} {H : HasEnv (W:=W) S} {A} (m : M S A) :
  (forall s, env_of (snd (m s)) = env_of s) -> effects P Q m.
Proof.
  intros Hm s. exists [], []. rewrite Hm, !app_nil_r. auto.
Qed.

Lemma effects_ret {S} {H : HasEnv (W:=W) S} {A} (a : A) : effects P Q (@ret S A a).
Proof. now apply effects_none. Qed.

Lemma effects_raise {S} {H : HasEnv (W:=W) S} {A} (x : exn) :
  effects P Q (@raise S A x).
Proof. now apply effects_none. Qed.

Lemma effects_lift_res {S} {H : HasEnv (W:=W) S} {A} (r : res A) :
  effects P Q (@lift_res S A r).
Proof. now apply effects_none. Qed.

Lemma effects_seq {S} {H : HasEnv (W:=W) S} (s1 s2 s3 : S) (t1 t2 : list request)
    (lg1 lg2 : list log_record) :
  trace (env_of s2) = trace (env_of s1) ++ t1 ->
  logs (env_of s2) = logs (env_of s1) ++ lg1 ->
  Forall P t1 -> Forall Q lg1 ->
  trace (env_of s3) = trace (env_of s2) ++ t2 ->
  logs (env_of s3) = logs (env_of s2) ++ lg2 ->
  Forall P t2 -> Forall Q lg2 ->
  exists t lg,
    trace (env_of s3) = trace (env_of s1) ++ t /\
    logs (env_of s3) = logs (env_of s1) ++ lg /\
    Forall P t /\ Forall Q lg.
Proof.
  intros Ht1 Hl1 HP1 HQ1 Ht2 Hl2 HP2 HQ2.
  exists (t1 ++ t2), (lg1 ++ lg2).
  rewrite Ht2, Hl2, Ht1, Hl1, !app_assoc.
  repeat split; auto; now apply Forall_app.
Qed.

Lemma effects_bind {S} {H : HasEnv (W:=W) S} {A B} (m : M S A) (k : A -> M S B) :
  effects P Q m -> (forall a, effects P Q (k a)) -> effects P Q (bind m k).
Proof.
  intros Hm Hk s. unfold bind.
  destruct (Hm s) as (t1 & lg1 & Ht1 & Hl1 & HP1 & HQ1).
  destruct (m s) as [[a|x] s1]; simpl in *.
  - destruct (Hk a s1) as (t2 & lg2 & Ht2 & Hl2 & HP2 & HQ2).
    eapply effects_seq; eauto.
  - eauto 6.
Qed.

Lemma effects_try_except {S} {H : HasEnv (W:=W) S} {A} (m : M S A)
    (h : exn -> M S A) :
  effects P Q m -> (forall x, effects P Q (h x)) ->
  effects P Q (try_except m h).
Proof.
  intros Hm Hh s. unfold try_except.
  destruct (Hm s) as (t1 & lg1 & Ht1 & Hl1 & HP1 & HQ1).
  destruct (m s) as [[a|x] s1]; simpl in *.
  - eauto 6.
  - destruct (Hh x s1) as (t2 & lg2 & Ht2 & Hl2 & HP2 & HQ2).
    eapply effects_seq; eauto.
Qed.

Lemma effects_for_each {S} {H : HasEnv (W:=W) S} {A} (l : list A)
    (body : A -> M S unit) :
  (forall x, effects P Q (body x)) -> effects P Q (for_each l body).
Proof.
  intros Hb. induction l as [|x l IH]; simpl.
  - apply effects_ret.
  - apply effects_bind; auto.
Qed.

Lemma effects_log (lgr : logger) (lvl : level) (msg : string)
    (args : list log_arg) :
  Q (mkLog lgr lvl msg args) -> effects P Q (log (W:=W) lgr lvl msg args).
Proof.
  intros HQ e. exists [], [mkLog lgr lvl msg args]. simpl.
  rewrite app_nil_r. auto.
Qed.

Lemma effects_http (rq : request) : P rq -> effects P Q (http (W:=W) rq).
Proof.
  intros HP e. exists [rq], []. unfold http.
  destruct (send rq (world e)) as [[|status body] w']; simpl;
    rewrite app_nil_r; auto.
Qed.

Lemma effects_raise_for_status (response : Z * option json) :
  effects P Q (raise_for_status (W:=W) response).
Proof.
  unfold raise_for_status.
  destruct (_ && _); [apply effects_ret | apply effects_raise].
Qed.

Lemma effects_response_json (response : Z * option json) :
  effects P Q (response_json (W:=W) response).
Proof.
  unfold response_json.
  destruct (snd response); [apply effects_ret | apply effects_raise].
Qed.

Lemma effects_call {A} (m : M (env W) A) : effects P Q m -> effects P Q (call m).
Proof.
  intros Hm [l e]. unfold call. specialize (Hm e).
  destruct (m e) as [r e']. exact Hm.
Qed.

Lemma effects_call_with_product {A} (m : M (json * env W) A) :
  effects P Q m -> effects P Q (call_with_product m).
Proof.
  intros Hm [l e]. unfold call_with_product. specialize (Hm (product l, e)).
  destruct (m (product l, e)) as [r [p' e']]. exact Hm.
Qed.

Lemma effects_local {A} (f : locals -> A) : effects P Q (local (W:=W) f).
Proof. apply effects_none. now intros [l e]. Qed.

Lemma effects_assign (f : locals -> locals) : effects P Q (assign (W:=W) f).
Proof. apply effects_none. now intros [l e]. Qed.

End Effects.

Lemma effects_weaken {W} {S} {H : HasEnv (W:=W) S} {A}
    (P P' : request -> Prop) (Q Q' : log_record -> Prop) (m : M S A) :
  (forall rq, P rq -> P' rq) -> (forall r, Q r -> Q' r) ->
  effects P Q m -> effects P' Q' m.
Proof.
  intros HP HQ Hm s. destruct (Hm s) as (t & lg & Ht & Hl & Pt & Ql).
  exists t, lg. repeat split; auto; eapply Forall_impl; eauto.
Qed.

(** One syntax-directed step of a proof of [effects], and the steps
    repeated with the facts already proved as hints. *)
Ltac effects_step :=
  lazymatch goal with
  | |- effects _ _ (bind _ _) => apply effects_bind; [|intros]
  | |- effects _ _ (try_except _ _) => apply effects_try_except; [|intros]
  | |- effects _ _ (ret _) => apply effects_ret
  | |- effects _ _ (raise _) => apply effects_raise
  | |- effects _ _ (lift_res _) => apply effects_lift_res
  | |- effects _ _ (log _ _ _ _) => apply effects_log
  | |- effects _ _ (client_log _ _ _) => apply effects_log
  | |- effects _ _ (migration_log _ _ _) => apply effects_call, effects_log
  | |- effects _ _ (http _) => apply effects_http
  | |- effects _ _ (raise_for_status _) => apply effects_raise_for_status
  | |- effects _ _ (response_json _) => apply effects_response_json
  | |- effects _ _ (for_each _ _) => apply effects_for_each; intros
  | |- effects _ _ (call _) => apply effects_call
  | |- effects _ _ (call_with_product _) => apply effects_call_with_product
  | |- effects _ _ (local _) => apply effects_local
  | |- effects _ _ (assign _) => apply effects_assign
  | |- effects _ _ (match ?x with _ => _ end) => destruct x
  | |- effects _ _ (let _ := _ in _) => cbv zeta
  end.

Create HintDb effects.

Ltac effects_auto :=
  repeat first [ solve [eauto with effects] | effects_step ];
  try reflexivity.

Lemma of_client_quiet (r : log_record) : of_client r -> quiet r.
Proof. unfold of_client, quiet, is_collection_error. now intros ->. Qed.
#[global] Hint Resolve of_client_quiet : effects.

Section ClientEffects.

Context {W : Type} {R : Remote W}.
Variables (P : request -> Prop) (Q : log_record -> Prop).
Hypothesis HQ : forall r, of_client r -> Q r.

Ltac client_effects :=
  effects_auto;
  try (apply HQ; reflexivity).

Section Reads.

Hypothesis HP : forall rq, is_get rq -> P rq.

Ltac read_effects :=
  client_effects; try (apply HP; reflexivity).

Lemma validate_credentials_effects (self : client) :
  effects P Q (validate_credentials (W:=W) self).
Proof. unfold validate_credentials. read_effects. Qed.
Hint Resolve validate_credentials_effects : effects.

Lemma warn_invalid_effects (p : json) : effects P Q (warn_invalid (W:=W) p).
Proof. unfold warn_invalid. read_effects. Qed.
Hint Resolve warn_invalid_effects : effects.

Lemma get_products_effects (self : client) (limit : Z) :
  effects P Q (get_products (W:=W) self limit).
Proof. unfold get_products. read_effects. Qed.
Hint Resolve get_products_effects : effects.

Lemma first_with_sku_effects (self : client) (products : list json)
    (sku : json) :
  effects P Q (first_with_sku (W:=W) self products sku).
Proof.
  induction products as [|p ps IH]; simpl; read_effects.
Qed.
Hint Resolve first_with_sku_effects : effects.

Lemma get_product_by_sku_effects (self : client) (sku : json) :
  effects P Q (get_product_by_sku (W:=W) self sku).
Proof. unfold get_product_by_sku. read_effects. Qed.

Lemma collection_handlers_effects {A} (m1 m2 : string) (x : exn) :
  effects P Q (collection_handlers (W:=W) (A:=A) m1 m2 x).
Proof. unfold collection_handlers. read_effects. Qed.
Hint Resolve collection_handlers_effects : effects.

Lemma get_collections_effects (self : client) :
  effects P Q (get_collections (W:=W) self).
Proof. unfold get_collections. read_effects. Qed.
Hint Resolve get_collections_effects : effects.

Lemma get_collection_by_title_effects (self : client) (title : json) :
  effects P Q (get_collection_by_title (W:=W) self title).
Proof. unfold get_collection_by_title. read_effects. Qed.

Lemma collections_of_effects (self : client) (product_id : json)
    (collections : list json) :
  effects P Q (collections_of (W:=W) self product_id collections).
Proof.
  induction collections as [|c cs IH]; simpl; read_effects.
Qed.
Hint Resolve collections_of_effects : effects.

Lemma get_product_collections_effects (self : client) (product_id : json) :
  effects P Q (get_product_collections (W:=W) self product_id).
Proof. unfold get_product_collections. read_effects. Qed.

End Reads.

Section Writes.

Hypothesis HP : forall rq, P rq.

Ltac write_effects :=
  client_effects; try apply HP;
  try apply collection_handlers_effects;
  try (apply validate_credentials_effects; intros; apply HP).

Lemma write_handlers_effects {A} (m1 m2 : string) (arg : log_arg) (x : exn) :
  effects P Q (write_handlers (W:=W) (A:=A) m1 m2 arg x).
Proof. unfold write_handlers. write_effects. Qed.
Hint Resolve write_handlers_effects : effects.

Lemma create_product_effects (self : client) :
  effects P Q (create_product (W:=W) self).
Proof.
  intros [product_data e]. unfold create_product.
  destruct (py_get product_data "title" (JStr "Unknown")) as [title|x].
  - destruct (_prepare_product_data product_data) as [product_data' clean].
    assert (H : effects P Q (create_product_request (W:=W) self title clean))
      by (unfold create_product_request; write_effects).
    specialize (H e).
    destruct (create_product_request self title clean e). exact H.
  - exists [], []. simpl. rewrite !app_nil_r. auto.
Qed.

Lemma update_product_effects (self : client) (product_id : json) :
  effects P Q (update_product (W:=W) self product_id).
Proof.
  intros [product_data e]. unfold update_product.
  destruct (py_get product_data "title" (JStr "Unknown")) as [title|x].
  - destruct (_prepare_product_data product_data) as [product_data' clean].
    assert (H : effects P Q
                  (update_product_request (W:=W) self product_id title clean))
      by (unfold update_product_request; write_effects).
    specialize (H e).
    destruct (update_product_request self product_id title clean e). exact H.
  - exists [], []. simpl. rewrite !app_nil_r. auto.
Qed.

Lemma create_collection_effects (self : client) (title description : json) :
  effects P Q (create_collection (W:=W) self title description).
Proof.
  unfold create_collection. write_effects.
Qed.

Lemma add_product_to_collection_effects (self : client)
    (product_id collection_id : json) :
  effects P Q (add_product_to_collection (W:=W) self product_id collection_id).
Proof.
  unfold add_product_to_collection. write_effects.
Qed.

End Writes.

End ClientEffects.

#[global] Hint Resolve get_products_effects get_product_by_sku_effects
  get_product_collections_effects get_collection_by_title_effects
  create_product_effects update_product_effects create_collection_effects
  add_product_to_collection_effects : effects.
#[global] Hint Extern 1 => exact I : effects.

Section OrchestratorEffects.

Context {W : Type} {R : Remote W}.

Lemma product_title_effects (P : request -> Prop) (Q : log_record -> Prop)
    (dflt : json) :
  effects P Q (product_title (W:=W) dflt).
Proof. unfold product_title. effects_auto. Qed.
Hint Resolve product_title_effects : effects.

Lemma skip_product_effects (P : request -> Prop) (msg : string) :
  effects P quiet (skip_product (W:=W) msg).
Proof. unfold skip_product, migration_log. effects_auto. Qed.
Hint Resolve skip_product_effects : effects.

Lemma fetch_source_collections_effects (source_client : client) :
  effects is_get quiet (fetch_source_collections (W:=W) source_client).
Proof. unfold fetch_source_collections. effects_auto. Qed.

Lemma fetch_source_collections_effects_any (source_client : client) :
  effects any_request quiet (fetch_source_collections (W:=W) source_client).
Proof.
  eapply effects_weaken; [| |apply fetch_source_collections_effects]; auto.
  now intros.
Qed.
Hint Resolve fetch_source_collections_effects_any : effects.

Lemma update_existing_effects (dest_client : client) (sku existing : json) :
  effects any_request quiet (update_existing (W:=W) dest_client sku existing).
Proof. unfold update_existing. effects_auto. Qed.
Hint Resolve update_existing_effects : effects.

Lemma create_new_effects (dest_client : client) (sku : json) :
  effects any_request quiet (create_new (W:=W) dest_client sku).
Proof. unfold create_new. effects_auto. Qed.
Hint Resolve create_new_effects : effects.

Lemma write_product_effects (dest_client : client) (sku : json)
    (existing : option json) :
  effects any_request quiet (write_product (W:=W) dest_client sku existing).
Proof. unfold write_product. effects_auto. Qed.
Hint Resolve write_product_effects : effects.

Lemma record_collections_effects (P : request -> Prop)
    (Q : log_record -> Prop) (source_collections : list json) :
  effects P Q (record_collections (W:=W) source_collections).
Proof. unfold record_collections. effects_auto. Qed.
Hint Resolve record_collections_effects : effects.

Lemma migrate_product_effects (source_client dest_client : client) (p : json) :
  effects any_request quiet (migrate_product (W:=W) source_client dest_client p).
Proof. unfold migrate_product. effects_auto. Qed.

Lemma find_or_create_effects (dest_client : client)
    (collection title : json) (dest_collection : option json) :
  effects any_request quiet
    (find_or_create (W:=W) dest_client collection title dest_collection).
Proof. unfold find_or_create. effects_auto. Qed.
Hint Resolve find_or_create_effects : effects.

Lemma associate_effects (dest_client : client)
    (product_id title dest_collection : json) :
  effects any_request quiet
    (associate (W:=W) dest_client product_id title dest_collection).
Proof. unfold associate. effects_auto. Qed.
Hint Resolve associate_effects : effects.

End OrchestratorEffects.

#[global] Hint Resolve product_title_effects skip_product_effects
  fetch_source_collections_effects_any write_product_effects
  record_collections_effects migrate_product_effects find_or_create_effects
  associate_effects : effects.

(** ** Counting *)

Lemma prepare_keeps_dict (product_data : json) :
  isinstance_dict product_data = true ->
  isinstance_dict (fst (_prepare_product_data product_data)) = true.
Proof.
  destruct product_data as [| | | | |pd]; try discriminate. intros _.
  unfold _prepare_product_data.
  destruct (dict_get _ "variants"); [|reflexivity].
  now destruct (clean_variants j).
Qed.

#[local] Arguments py_get : simpl never.
#[local] Arguments create_product : simpl never.
#[local] Arguments update_product : simpl never.
#[local] Arguments get_products : simpl never.
#[local] Arguments get_product_by_sku : simpl never.
#[local] Arguments get_product_collections : simpl never.
#[local] Arguments get_collection_by_title : simpl never.
#[local] Arguments create_collection : simpl never.
#[local] Arguments add_product_to_collection : simpl never.

Section Counting.

Context {W : Type} {R : Remote W}.
Hypothesis Hid : identifies_products W.

Lemma create_product_request_keyed (self : client) (title : json)
    (clean : res json) (e : env W) (m : json) :
  fst (create_product_request self title clean e) = Ok m -> keyed m = true.
Proof.
  unfold create_product_request, try_except, bind, client_log, log, lift_res,
    http, raise_for_status, response_json, write_handlers, ret, raise.
  destruct clean as [clean_data|x]; [|discriminate].
  simpl.
  destruct (send _ (world e)) as [[|status body] w'] eqn:Es; simpl.
  - discriminate.
  - destruct ((200 <=? status)%Z && (status <=? 299)%Z); simpl.
    + destruct body as [[| | | | |d]|]; simpl; try discriminate.
      destruct (dict_get d "product") as [created|] eqn:Ep; simpl;
        [|discriminate].
      destruct (py_getitem created "title") as [t|x]; simpl;
        [|destruct x; simpl; try discriminate;
          destruct (_ =? 422)%Z; discriminate].
      destruct (py_getitem created "id") as [i|x] eqn:Ei; simpl;
        [|destruct x; simpl; try discriminate;
          destruct (_ =? 422)%Z; discriminate].
      intros [= <-].
      eapply Hid; [|exact Ep]. rewrite Es. reflexivity.
    + destruct (status =? 422)%Z; discriminate.
Qed.

Lemma update_product_request_keyed (self : client) (product_id title : json)
    (clean : res json) (e : env W) (m : json) :
  fst (update_product_request self product_id title clean e) = Ok m ->
  keyed m = true.
Proof.
  unfold update_product_request, try_except, bind, client_log, log, lift_res,
    http, raise_for_status, response_json, write_handlers, ret, raise.
  destruct clean as [clean_data|x]; [|discriminate].
  simpl.
  destruct (send _ (world e)) as [[|status body] w'] eqn:Es; simpl.
  - discriminate.
  - destruct ((200 <=? status)%Z && (status <=? 299)%Z); simpl.
    + destruct body as [[| | | | |d]|]; simpl; try discriminate.
      destruct (dict_get d "product") as [updated|] eqn:Ep; simpl;
        [|discriminate].
      destruct (py_getitem updated "title") as [t|x]; simpl;
        [|destruct x; simpl; try discriminate;
          destruct (_ =? 422)%Z; discriminate].
      intros [= <-].
      eapply Hid; [|exact Ep]. rewrite Es. reflexivity.
    + destruct (status =? 422)%Z; discriminate.
Qed.

Lemma create_product_run (self : client) (product_data : json) (e : env W) :
  exists r e',
    create_product self (product_data, e) =
      (r, (fst (_prepare_product_data product_data), e')) /\
    forall m, r = Ok m -> keyed m = true.
Proof.
  unfold create_product.
  destruct (py_get product_data "title" (JStr "Unknown")) as [title|x] eqn:Et.
  - destruct (_prepare_product_data product_data) as [product_data' clean].
    pose proof (create_product_request_keyed self title clean e) as Hk.
    destruct (create_product_request self title clean e) as [r e'].
    exists r, e'. split; [reflexivity|]. intros m ->. now apply Hk.
  - exists (Raise x), e. split; [|discriminate].
    destruct product_data; try reflexivity. discriminate Et.
Qed.

Lemma update_product_run (self : client) (product_id product_data : json)
    (e : env W) :
  exists r e',
    update_product self product_id (product_data, e) =
      (r, (fst (_prepare_product_data product_data), e')) /\
    forall m, r = Ok m -> keyed m = true.
Proof.
  unfold update_product.
  destruct (py_get product_data "title" (JStr "Unknown")) as [title|x] eqn:Et.
  - destruct (_prepare_product_data product_data) as [product_data' clean].
    pose proof (update_product_request_keyed self product_id title clean e) as Hk.
    destruct (update_product_request self product_id title clean e) as [r e'].
    exists r, e'. split; [reflexivity|]. intros m ->. now apply Hk.
  - exists (Raise x), e. split; [|discriminate].
    destruct product_data; try reflexivity. discriminate Et.
Qed.

Lemma py_get_dict (p : json) (k : string) (dflt : json) :
  isinstance_dict p = true -> exists v, py_get p k dflt = Ok v.
Proof. destruct p; try discriminate. unfold py_get. eauto. Qed.

Ltac title_of H :=
  let t := fresh "t" in
  let Ht := fresh "Ht" in
  destruct (py_get_dict _ "title" JNull H) as [t Ht]; rewrite Ht.

Ltac pick_counter :=
  unfold one_more; simpl;
  first [ left; now repeat split
        | right; left; now repeat split
        | right; right; left; now repeat split
        | right; right; right; now repeat split ].

Ltac close_written :=
  eexists _, _; split; [reflexivity|];
  unfold written; split; [pick_counter|]; simpl; repeat split; auto.

Lemma update_existing_run (dest_client : client) (sku existing : json)
    (l : locals) (e : env W) :
  isinstance_dict (product l) = true ->
  migrated_product l = None ->
  exists l' e',
    update_existing dest_client sku existing (l, e) = (Ok tt, (l', e')) /\
    written l l'.
Proof.
  intros Hd Hm. unfold update_existing, try_except, bind, product_title.
  simpl. unfold call_with_product.
  destruct (py_getitem existing "id") as [product_id|x]; simpl.
  - destruct (update_product_run dest_client product_id (product l) e)
      as (r & e' & -> & Hk).
    pose proof (prepare_keeps_dict (product l) Hd) as Hd'.
    destruct r as [m|x]; simpl; title_of Hd'; simpl; close_written.
    + intros m' [= <-]. now apply Hk.
    + intros m' Hm'. change (migrated_product l = Some m') in Hm'. congruence.
  - title_of Hd. simpl. close_written.
    intros m' Hm'. change (migrated_product l = Some m') in Hm'. congruence.
Qed.

Lemma create_new_run (dest_client : client) (sku : json)
    (l : locals) (e : env W) :
  isinstance_dict (product l) = true ->
  migrated_product l = None ->
  exists l' e',
    create_new dest_client sku (l, e) = (Ok tt, (l', e')) /\
    written l l'.
Proof.
  intros Hd Hm. unfold create_new, try_except, bind, product_title.
  simpl. unfold call_with_product.
  destruct (create_product_run dest_client (product l) e)
    as (r & e' & -> & Hk).
  pose proof (prepare_keeps_dict (product l) Hd) as Hd'.
  destruct r as [m|x]; simpl; title_of Hd'; simpl; close_written.
  - intros m' [= <-]. now apply Hk.
  - intros m' Hm'. change (migrated_product l = Some m') in Hm'. congruence.
Qed.

Lemma write_product_run (dest_client : client) (sku : json)
    (existing : option json) (l : locals) (e : env W) :
  isinstance_dict (product l) = true ->
  exists l' e',
    write_product dest_client sku existing (l, e) = (Ok tt, (l', e')) /\
    written l l'.
Proof.
  intros Hd. unfold write_product, bind, assign.
  set (l0 := set_migrated_product None l).
  assert (H0 : isinstance_dict (product l0) = true) by exact Hd.
  assert (Hw : forall l', written l0 l' -> written l l')
    by (intros l' H; exact H).
  destruct existing as [existing|]; [destruct (truthy existing)|].
  - destruct (update_existing_run dest_client sku existing l0 e H0 eq_refl)
      as (l' & e' & -> & H). eauto.
  - destruct (create_new_run dest_client sku l0 e H0 eq_refl)
      as (l' & e' & -> & H). eauto.
  - destruct (create_new_run dest_client sku l0 e H0 eq_refl)
      as (l' & e' & -> & H). eauto.
Qed.

Lemma pc_setitem_dicts (pcs : list (json * list json)) (k : json)
    (cs : list json) :
  recorded_dicts pcs = true -> forallb isinstance_dict cs = true ->
  recorded_dicts (pc_setitem pcs k cs) = true.
Proof.
  intros Hp Hc. induction pcs as [|[k' v'] pcs IH]; simpl.
  - now rewrite Hc.
  - simpl in Hp. apply andb_prop in Hp as [Hv Hp].
    destruct (py_eq k' k); simpl.
    + now rewrite Hc, Hp.
    + now rewrite Hv, IH.
Qed.

Lemma collections_of_dicts (self : client) (product_id : json)
    (collections : list json) (e : env W) (l : list json) :
  fst (collections_of self product_id collections e) = Ok l ->
  forallb isinstance_dict l = true.
Proof.
  revert e l. induction collections as [|c cs IH]; intros e l.
  - simpl. now intros [= <-].
  - simpl. unfold bind, lift_res, http, raise_for_status, response_json, ret, raise.
    destruct (py_getitem c "id") as [collection_id|x] eqn:Ei; [|discriminate].
    assert (Hc : isinstance_dict c = true)
      by (destruct c; try discriminate Ei; reflexivity).
    simpl. destruct (send _ (world e)) as [[|status body] w']; simpl;
      [discriminate|].
    destruct ((200 <=? status)%Z && (status <=? 299)%Z); simpl; [|discriminate].
    destruct body as [data|]; simpl; [|discriminate].
    match goal with
    | |- context [collections_of self product_id cs ?e1] =>
        specialize (IH e1); destruct (collections_of self product_id cs e1)
          as [[rest|x] e2]
    end; simpl; [|discriminate].
    specialize (IH rest eq_refl).
    intros [= <-]. destruct (match data with JDict _ => _ | _ => false end);
      simpl; [now rewrite Hc|exact IH].
Qed.

Lemma get_product_collections_dicts (self : client) (product_id : json)
    (e : env W) (l : list json) :
  fst (get_product_collections self product_id e) = Ok l ->
  forallb isinstance_dict l = true.
Proof.
  unfold get_product_collections, try_except, bind.
  destruct (validate_credentials self e) as [[valid|x] e1]; simpl.
  - destruct (get_collections self e1) as [[collections|x] e2]; simpl.
    + destruct (py_iter collections) as [cs|x]; simpl.
      * pose proof (collections_of_dicts self product_id cs e2) as H.
        destruct (collections_of self product_id cs e2) as [[pcs|x] e3]; simpl.
        -- intros [= <-]. now apply H.
        -- unfold collection_handlers. now destruct (is_HTTPStatusError x).
      * unfold collection_handlers. now destruct (is_HTTPStatusError x).
    + unfold collection_handlers. now destruct (is_HTTPStatusError x).
  - unfold collection_handlers. now destruct (is_HTTPStatusError x).
Qed.

Lemma fetch_source_collections_run (source_client : client) (l : locals)
    (e : env W) :
  isinstance_dict (product l) = true ->
  exists cs e',
    fetch_source_collections source_client (l, e) = (Ok cs, (l, e')) /\
    forallb isinstance_dict cs = true.
Proof.
  intros Hd.
  unfold fetch_source_collections, try_except, bind, product_title, ret.
  simpl. destruct (py_getitem (product l) "id") as [product_id|x]; simpl.
  - unfold call.
    pose proof (get_product_collections_dicts source_client product_id e) as H.
    destruct (get_product_collections source_client product_id e)
      as [[cs|x] e1]; simpl; title_of Hd; simpl;
      (eexists _, _; split; [reflexivity|]); [now apply H | reflexivity].
  - title_of Hd. simpl. eexists _, _; split; reflexivity.
Qed.

Lemma record_collections_run (cs : list json) (l : locals) (e : env W) :
  (forall m, migrated_product l = Some m -> keyed m = true) ->
  recorded_dicts (product_collections l) = true ->
  forallb isinstance_dict cs = true ->
  exists l',
    record_collections cs (l, e) = (Ok tt, (l', e)) /\
    same_counts l l' /\
    recorded_dicts (product_collections l') = true.
Proof.
  intros Hk Hp Hc. unfold record_collections, bind, ret. simpl.
  destruct (migrated_product l) as [m|] eqn:Em; simpl;
    [|now eexists; repeat split].
  destruct (truthy m && nonempty cs); simpl; [|now eexists; repeat split].
  specialize (Hk m eq_refl). unfold keyed in Hk.
  destruct (py_getitem m "id") as [key|x]; [|discriminate Hk]. simpl.
  rewrite Hk. simpl. eexists. split; [reflexivity|].
  split; [now repeat split|].
  simpl. now apply pc_setitem_dicts.
Qed.

Lemma one_more_sum (l l' : locals) : one_more l l' -> sum4 l' = S (sum4 l).
Proof. unfold one_more, sum4. intros [H|[H|[H|H]]]; lia. Qed.

Lemma one_more_then_same (l1 l2 l3 : locals) :
  one_more l1 l2 -> same_counts l2 l3 -> one_more l1 l3.
Proof.
  unfold one_more, same_counts, same_products.
  intros H ((Hc & Hu & Hs) & He). rewrite Hc, Hu, Hs, He. exact H.
Qed.

Lemma migrate_product_run (source_client dest_client : client) (p : json)
    (l : locals) (e : env W) :
  isinstance_dict p = true ->
  recorded_dicts (product_collections l) = true ->
  exists l' e',
    migrate_product source_client dest_client p (l, e) = (Ok tt, (l', e')) /\
    one_more l l' /\
    recorded_dicts (product_collections l') = true.
Proof.
  intros Hd Hp.
  unfold migrate_product, skip_product, product_title.
  unfold try_except, bind, ret. simpl.
  destruct (py_get_dict p "variants" (JList []) Hd) as [variants ->]. simpl.
  destruct (py_get_dict p "title" (JStr "Unknown") Hd) as [title Ht].
  assert (Hdone : forall e1 : env W,
    exists l' e',
      (Ok tt, (incr_skipped (set_product p l), e1)) = (Ok tt, (l', e')) /\
      one_more l l' /\
      recorded_dicts (product_collections l') = true).
  { intros e1. eexists _, _. split; [reflexivity|].
    split; [pick_counter | exact Hp]. }
  assert (Hfail : forall e1 : env W,
    exists l' e',
      (Ok tt, (incr_error (set_product p l), e1)) = (Ok tt, (l', e')) /\
      one_more l l' /\
      recorded_dicts (product_collections l') = true).
  { intros e1. eexists _, _. split; [reflexivity|].
    split; [pick_counter | exact Hp]. }
  destruct (truthy variants); simpl; [|rewrite Ht; simpl; apply Hdone].
  destruct (py_getitem0 variants) as [first_variant|x]; simpl;
    [|rewrite Ht; simpl; apply Hfail].
  unfold py_get at 1.
  destruct first_variant as [| | | | |v]; simpl;
    try (rewrite Ht; simpl; apply Hfail).
  set (sku := match dict_get v "sku" with Some x => x | None => JNull end).
  destruct (truthy sku); simpl; [|rewrite Ht; simpl; apply Hdone].
  destruct (fetch_source_collections_run source_client (set_product p l) e Hd)
    as (cs & e1 & -> & Hcs). simpl.
  unfold call.
  destruct (get_product_by_sku dest_client sku e1) as [[existing|x] e2]; simpl;
    [|rewrite Ht; simpl; apply Hfail].
  destruct (write_product_run dest_client sku existing (set_product p l) e2 Hd)
    as (l3 & e3 & -> & Hs & Hpc & Hd3 & Hk). simpl.
  destruct (record_collections_run cs l3 e3 Hk) as (l4 & -> & Hs4 & Hp4);
    [now rewrite Hpc | exact Hcs |].
  eexists _, _. split; [reflexivity|]. split; [|exact Hp4].
  exact (one_more_then_same _ l3 l4 Hs Hs4).
Qed.

Lemma first_loop_run (source_client dest_client : client)
    (products : list json) (l : locals) (e : env W) :
  forallb isinstance_dict products = true ->
  recorded_dicts (product_collections l) = true ->
  exists l' e',
    for_each products (migrate_product source_client dest_client) (l, e)
      = (Ok tt, (l', e')) /\
    sum4 l' = sum4 l + List.length products /\
    recorded_dicts (product_collections l') = true.
Proof.
  revert l e. induction products as [|p ps IH]; intros l e Hd Hp.
  - simpl. eexists _, _. split; [reflexivity|]. split; [lia | exact Hp].
  - simpl in Hd. apply andb_prop in Hd as [Hd Hds].
    destruct (migrate_product_run source_client dest_client p l e Hd Hp)
      as (l1 & e1 & Hrun & Hs1 & Hp1).
    apply one_more_sum in Hs1.
    destruct (IH l1 e1 Hds Hp1) as (l2 & e2 & Hrest & Hs2 & Hp2).
    exists l2, e2. split; [|split; [|exact Hp2]].
    + simpl. unfold bind. rewrite Hrun. exact Hrest.
    + rewrite Hs2, Hs1. simpl. lia.
Qed.

Lemma same_counts_refl (l : locals) : same_counts l l.
Proof. repeat split. Qed.

Lemma same_counts_trans (l1 l2 l3 : locals) :
  same_counts l1 l2 -> same_counts l2 l3 -> same_counts l1 l3.
Proof.
  unfold same_counts, same_products.
  intros ((? & ? & ?) & ?) ((? & ? & ?) & ?). repeat split; congruence.
Qed.

Lemma keeps_bind {A B} (m : O (W:=W) A) (k : A -> O (W:=W) B) :
  keeps_counts m -> (forall a, keeps_counts (k a)) -> keeps_counts (bind m k).
Proof.
  intros Hm Hk l e. unfold bind. specialize (Hm l e).
  destruct (m (l, e)) as [[a|x] [l1 e1]]; simpl in *; [|exact Hm].
  eapply same_counts_trans; [exact Hm | apply Hk].
Qed.

Lemma keeps_try_except {A} (m : O (W:=W) A) (h : exn -> O (W:=W) A) :
  keeps_counts m -> (forall x, keeps_counts (h x)) ->
  keeps_counts (try_except m h).
Proof.
  intros Hm Hh l e. unfold try_except. specialize (Hm l e).
  destruct (m (l, e)) as [[a|x] [l1 e1]]; simpl in *; [exact Hm|].
  eapply same_counts_trans; [exact Hm | apply Hh].
Qed.

Lemma keeps_call {A} (m : M (env W) A) : keeps_counts (call m).
Proof.
  intros l e. unfold call. destruct (m e). apply same_counts_refl.
Qed.

Lemma keeps_pure {A} (m : O (W:=W) A) :
  (forall s, snd (m s) = s) -> keeps_counts m.
Proof. intros H l e. rewrite H. apply same_counts_refl. Qed.

Lemma find_or_create_keeps (dest_client : client) (collection title : json)
    (dest_collection : option json) :
  keeps_counts (find_or_create dest_client collection title dest_collection).
Proof.
  unfold find_or_create, migration_log.
  destruct (negb (truthy_opt dest_collection)); [|now apply keeps_pure].
  repeat first [ apply keeps_bind; [|intros] | apply keeps_try_except; [|intros]
               | apply keeps_call | now apply keeps_pure ].
Qed.

Lemma associate_keeps (dest_client : client)
    (product_id title dest_collection : json) :
  keeps_counts (associate dest_client product_id title dest_collection).
Proof.
  unfold associate, migration_log.
  repeat first [ apply keeps_bind; [|intros] | apply keeps_try_except; [|intros]
               | apply keeps_call | now apply keeps_pure ].
  intros l e. repeat split.
Qed.

Lemma collection_errors_app (a b : list log_record) :
  collection_errors (a ++ b) = collection_errors a + collection_errors b.
Proof.
  unfold collection_errors. induction a as [|r a IH]; simpl; [reflexivity|].
  destruct (is_collection_error r); simpl; now rewrite IH.
Qed.

Lemma collection_errors_quiet (lg : list log_record) :
  Forall quiet lg -> collection_errors lg = 0.
Proof.
  unfold collection_errors. induction 1 as [|r lg Hr _ IH]; [reflexivity|].
  simpl. now rewrite Hr.
Qed.

Lemma collections_counted_trans (l1 l2 l3 : locals) (e1 e2 e3 : env W) :
  collections_counted l1 e1 l2 e2 -> collections_counted l2 e2 l3 e3 ->
  collections_counted l1 e1 l3 e3.
Proof.
  unfold collections_counted, same_products.
  intros ((? & ? & ?) & ?) ((? & ? & ?) & ?). repeat split; try congruence. lia.
Qed.

Lemma quiet_counted {A} (m : O (W:=W) A) (l : locals) (e : env W) :
  keeps_counts m -> effects any_request quiet m ->
  collections_counted l e (fst (snd (m (l, e)))) (snd (snd (m (l, e)))).
Proof.
  intros Hk He. destruct (Hk l e) as [Hp Herr].
  destruct (He (l, e)) as (t & lg & _ & Hl & _ & Hq).
  unfold env_of, locals_has_env in Hl. simpl in Hl.
  split; [exact Hp|]. rewrite Hl, collection_errors_app.
  rewrite (collection_errors_quiet lg Hq). lia.
Qed.

Lemma migrate_collection_run (dest_client : client)
    (product_id collection : json) (l : locals) (e : env W) :
  isinstance_dict collection = true ->
  exists l' e',
    migrate_collection dest_client product_id collection (l, e)
      = (Ok tt, (l', e')) /\
    collections_counted l e l' e'.
Proof.
  intros Hd. unfold migrate_collection, try_except.
  match goal with
  | |- context [match ?body (l, e) with _ => _ end] => set (m := body)
  end.
  assert (Hk : keeps_counts m).
  { unfold m.
    repeat first [ apply keeps_bind; [|intros] | apply keeps_call
                 | apply find_or_create_keeps | now apply keeps_pure ].
    destruct a1; [apply associate_keeps | now apply keeps_pure]. }
  assert (He : effects any_request quiet m) by (unfold m; effects_auto).
  pose proof (quiet_counted m l e Hk He) as Hc.
  destruct (m (l, e)) as [[[]|x] [l1 e1]]; simpl in Hc.
  - eauto.
  - unfold bind, lift_res, migration_log, call, assign. simpl.
    destruct (py_get_dict collection "title" (JStr "Unknown") Hd) as [t ->].
    simpl. eexists _, _. split; [reflexivity|].
    eapply collections_counted_trans; [exact Hc|].
    unfold collections_counted, same_products. simpl.
    rewrite collection_errors_app.
    replace (collection_errors [_]) with 1 by reflexivity.
    repeat split. lia.
Qed.

Lemma inner_loop_run (dest_client : client) (product_id : json)
    (collections : list json) (l : locals) (e : env W) :
  forallb isinstance_dict collections = true ->
  exists l' e',
    for_each collections (migrate_collection dest_client product_id) (l, e)
      = (Ok tt, (l', e')) /\
    collections_counted l e l' e'.
Proof.
  revert l e. induction collections as [|c cs IH]; intros l e Hd.
  - simpl. exists l, e. split; [reflexivity|]. now repeat split.
  - simpl in Hd. apply andb_prop in Hd as [Hd Hds].
    destruct (migrate_collection_run dest_client product_id c l e Hd)
      as (l1 & e1 & Hrun & Hc1).
    destruct (IH l1 e1 Hds) as (l2 & e2 & Hrest & Hc2).
    exists l2, e2. split.
    + simpl. unfold bind. rewrite Hrun. exact Hrest.
    + eapply collections_counted_trans; eauto.
Qed.

Lemma second_loop_run (dest_client : client) (pcs : list (json * list json))
    (l : locals) (e : env W) :
  recorded_dicts pcs = true ->
  exists l' e',
    for_each pcs
      (fun '(product_id, collections) =>
         for_each collections (migrate_collection dest_client product_id))
      (l, e)
      = (Ok tt, (l', e')) /\
    collections_counted l e l' e'.
Proof.
  revert l e. induction pcs as [|[product_id cs] pcs IH]; intros l e Hd.
  - simpl. exists l, e. split; [reflexivity|]. now repeat split.
  - simpl in Hd. apply andb_prop in Hd as [Hd Hds].
    destruct (inner_loop_run dest_client product_id cs l e Hd)
      as (l1 & e1 & Hrun & Hc1).
    destruct (IH l1 e1 Hds) as (l2 & e2 & Hrest & Hc2).
    exists l2, e2. split.
    + simpl. unfold bind. rewrite Hrun. exact Hrest.
    + eapply collections_counted_trans; eauto.
Qed.

Lemma first_loop_counted (source_client dest_client : client)
    (products : list json) (l : locals) (e : env W) :
  forallb isinstance_dict products = true ->
  recorded_dicts (product_collections l) = true ->
  exists l' e',
    for_each products (migrate_product source_client dest_client) (l, e)
      = (Ok tt, (l', e')) /\
    sum4 l' = sum4 l + List.length products /\
    recorded_dicts (product_collections l') = true /\
    collection_errors (logs e') = collection_errors (logs e).
Proof.
  intros Hd Hp.
  destruct (first_loop_run source_client dest_client products l e Hd Hp)
    as (l' & e' & Hrun & Hs & Hp').
  exists l', e'. repeat split; auto.
  assert (He : effects any_request quiet
                 (for_each products
                    (migrate_product (W:=W) source_client dest_client)))
    by (apply effects_for_each; intros; apply migrate_product_effects).
  destruct (He (l, e)) as (t & lg & _ & Hl & _ & Hq).
  rewrite Hrun in Hl. unfold env_of, locals_has_env in Hl. simpl in Hl.
  rewrite Hl, collection_errors_app, (collection_errors_quiet lg Hq). lia.
Qed.

Lemma migrate_collections_run (dest_client : client) (l : locals)
    (e : env W) :
  recorded_dicts (product_collections l) = true ->
  exists l' e',
    migrate_collections dest_client (l, e) = (Ok tt, (l', e')) /\
    collections_counted l e l' e'.
Proof.
  intros Hp. unfold migrate_collections, bind, migration_log. simpl.
  destruct (nonempty (product_collections l)); simpl.
  - match goal with
    | |- context [for_each _ _ (l, ?e0)] =>
        destruct (second_loop_run dest_client (product_collections l) l e0 Hp)
          as (l' & e' & -> & Hc)
    end.
    exists l', e'. split; [reflexivity|].
    destruct Hc as [Hsame Herr]. split; [exact Hsame|].
    simpl in Herr. rewrite collection_errors_app in Herr.
    replace (collection_errors [_]) with 0 in Herr by reflexivity. lia.
  - exists l, e. split; [reflexivity|]. now repeat split.
Qed.

Lemma report_run (total_products : nat) (l : locals) (e : env W) :
  exists e',
    report total_products (l, e) = (Ok tt, (l, e')) /\
    collection_errors (logs e') = collection_errors (logs e).
Proof.
  assert (He : effects any_request quiet (report (W:=W) total_products))
    by (unfold report; effects_auto).
  destruct (He (l, e)) as (t & lg & _ & Hl & _ & Hq).
  unfold env_of, locals_has_env in Hl. simpl in Hl.
  assert (Hrun : exists e', report total_products (l, e) = (Ok tt, (l, e'))).
  { unfold report, bind, migration_log, ret. simpl.
    destruct (0 <? error_count l)%nat; simpl; eauto. }
  destruct Hrun as [e' Hrun]. exists e'. split; [exact Hrun|].
  rewrite Hrun in Hl. simpl in Hl.
  rewrite Hl, collection_errors_app, (collection_errors_quiet lg Hq). lia.
Qed.

Lemma valid_entries_are_dicts (products : list json) :
  forallb valid_entry products = true ->
  forallb isinstance_dict products = true.
Proof.
  induction products as [|p ps IH]; simpl; [reflexivity|].
  intros H. apply andb_prop in H as [Hp Hps].
  rewrite (IH Hps). now destruct p.
Qed.

Lemma migrate_listed_counts
    (source_client dest_client : client) (products : list json)
    (l : locals) (e : env W) :
  forallb valid_entry products = true ->
  exists l' e',
    migrate_listed source_client dest_client (JList products) (l, e)
      = (Ok tt, (l', e')) /\
    created_count l' + updated_count l' + skipped_count l' + error_count l'
      + collection_errors (logs e)
    = List.length products + collection_errors (logs e').
Proof.
  intros Hv. apply valid_entries_are_dicts in Hv.
  unfold migrate_listed, bind, migration_log. simpl.
  match goal with
  | |- context [for_each _ _ (initial_locals, ?e0)] =>
      destruct (first_loop_counted source_client dest_client products
                  initial_locals e0 Hv eq_refl)
        as (l1 & e1 & -> & Hs1 & Hp1 & Hl1)
  end.
  destruct (migrate_collections_run dest_client l1 e1 Hp1)
    as (l2 & e2 & -> & (Hc & Hu & Hk) & Herr).
  destruct (report_run (List.length products) l2 e2) as (e3 & -> & Hl3).
  exists l2, e3. split; [reflexivity|].
  simpl in Hl1. rewrite collection_errors_app in Hl1.
  replace (collection_errors [_]) with 0 in Hl1 by reflexivity.
  unfold sum4 in Hs1. simpl in Hs1. lia.
Qed.

(** C4 (as amended).  When the stores answer with identified products and
    the source lists [N] entries, all of them valid, the run ends normally
    and its counters satisfy
    created + updated + skipped + errors = N + E,
    where [E] is the number of records "Error processing collection" that
    the second phase has logged: the error counter is shared by the two
    phases. *)
Theorem counts_sum_to_products_and_collection_errors
    (source_client dest_client : client) (products : list json)
    (l : locals) (e e1 : env W) :
  get_products source_client 250 (started e) = (Ok (JList products), e1) ->
  forallb valid_entry products = true ->
  exists l' e',
    migrate_products source_client dest_client (l, e) = (Ok tt, (l', e')) /\
    created_count l' + updated_count l' + skipped_count l' + error_count l'
      + collection_errors (logs e)
    = List.length products + collection_errors (logs e').
Proof.
  intros Hlist Hv.
  destruct (get_products_effects (W:=W) any_request quiet of_client_quiet
              (fun _ _ => I) source_client 250 (started e))
    as (t & lg & _ & Hl & _ & Hq).
  rewrite Hlist in Hl. unfold env_of, env_has_env in Hl. simpl in Hl.
  destruct (migrate_listed_counts source_client dest_client products l e1 Hv)
    as (l' & e' & Hrun & Hsum).
  exists l', e'. split.
  - unfold migrate_products, try_except, bind, migration_log, call. simpl.
    fold (started e). rewrite Hlist. simpl. now rewrite Hrun.
  - rewrite Hl, !collection_errors_app in Hsum.
    rewrite (collection_errors_quiet lg Hq) in Hsum.
    replace (collection_errors [_]) with 0 in Hsum by reflexivity. lia.
Qed.

End Counting.

(** ** Updating a product that the destination has *)

Section Updating.

Context {W : Type} {R : Remote W}.


Lemma record_collections_frame (cs : list json) (l : locals) (e : env W) :
  exists r l',
    record_collections cs (l, e) = (r, (l', e)) /\
    same_counts l l' /\ product l' = product l.
Proof.
  unfold record_collections, bind, ret, raise. simpl.
  destruct (migrated_product l) as [m|]; simpl;
    [|now eexists _, _; repeat split].
  destruct (truthy m && nonempty cs); simpl;
    [|now eexists _, _; repeat split].
  destruct (py_getitem m "id") as [key|x]; simpl;
    [|now eexists _, _; repeat split].
  destruct (hashable key); simpl; now eexists _, _; repeat split.
Qed.


End Updating.

(** ** The recordings of a run *)

Lemma py_eq_sym (a b : json) :
  hashable a = true -> hashable b = true -> py_eq a b = py_eq b a.
Proof.
  destruct a as [|x|x|x|x|x], b as [|y|y|y|y|y]; simpl; try discriminate;
    intros _ _;
    first [ reflexivity | apply Z.eqb_sym | apply String.eqb_sym
          | now destruct x, y ].
Qed.

Lemma py_eq_trans (a b c : json) :
  hashable a = true -> hashable b = true -> hashable c = true ->
  py_eq a b = true -> py_eq b c = true -> py_eq a c = true.
Proof.
  destruct a as [|x|x|x|x|x], b as [|y|y|y|y|y], c as [|z|z|z|z|z]; simpl;
    try discriminate; intros _ _ _ H1 H2; try discriminate; try reflexivity;
    repeat match goal with
           | H : Bool.eqb _ _ = true |- _ => apply Bool.eqb_prop in H
           | H : Z.eqb _ _ = true |- _ => apply Z.eqb_eq in H
           | H : String.eqb _ _ = true |- _ => apply String.eqb_eq in H
           end;
    subst;
    first [ apply Bool.eqb_reflx | apply Z.eqb_refl | apply String.eqb_refl
          | (repeat match goal with
                    | b : bool |- _ => destruct b
                    end;
             first [ reflexivity | discriminate | lia ]) ].
Qed.

Lemma py_eq_left (a b c : json) :
  hashable a = true -> hashable b = true -> hashable c = true ->
  py_eq a b = true -> py_eq a c = py_eq b c.
Proof.
  intros Ha Hb Hc Hab.
  destruct (py_eq a c) eqn:Eac, (py_eq b c) eqn:Ebc; try reflexivity.
  - rewrite (py_eq_sym a b Ha Hb) in Hab.
    now rewrite (py_eq_trans b a c Hb Ha Hc Hab Eac) in Ebc.
  - now rewrite (py_eq_trans a b c Ha Hb Hc Hab Ebc) in Eac.
Qed.

Lemma py_eq_right (a b c : json) :
  hashable a = true -> hashable b = true -> hashable c = true ->
  py_eq a b = true -> py_eq c a = py_eq c b.
Proof.
  intros Ha Hb Hc Hab.
  rewrite (py_eq_sym c a Hc Ha), (py_eq_sym c b Hc Hb).
  now apply py_eq_left.
Qed.

Lemma distinct_head (k : json) (ks : list json) :
  distinct (k :: ks) = true ->
  hashable k = true /\
  existsb (fun k' => py_eq k' k) ks = false /\
  distinct ks = true.
Proof.
  simpl. intros H. apply andb_prop in H as [H Hd].
  apply andb_prop in H as [Hh Hn]. apply negb_true_iff in Hn. auto.
Qed.

Lemma held_under_equal (ks : list json) (a b : json) :
  distinct ks = true -> hashable a = true -> hashable b = true ->
  py_eq a b = true ->
  existsb (fun k' => py_eq k' a) ks = existsb (fun k' => py_eq k' b) ks.
Proof.
  intros Hd Ha Hb Hab. induction ks as [|k ks IH]; [reflexivity|].
  apply distinct_head in Hd as (Hk & _ & Hd). simpl.
  now rewrite (py_eq_right a b k Ha Hb Hk Hab), IH.
Qed.

Lemma entries_none (d : list (json * list json)) (q : json) :
  existsb (fun k' => py_eq k' q) (map fst d) = false -> entries_of d q = [].
Proof.
  unfold entries_of. induction d as [|[k v] d IH]; simpl; [reflexivity|].
  intros H. apply orb_false_elim in H as [Hk Hd]. rewrite Hk. auto.
Qed.

Lemma entries_setitem_same (d : list (json * list json)) (k q : json)
    (v : list json) :
  distinct_keys d = true -> hashable k = true -> hashable q = true ->
  py_eq k q = true ->
  entries_of (pc_setitem d k v) q = [v].
Proof.
  unfold distinct_keys. intros Hd Hk Hq Hkq.
  induction d as [|[k0 v0] d IH]; simpl.
  - unfold entries_of. simpl. now rewrite Hkq.
  - simpl in Hd. pose proof Hd as Hd0.
    apply distinct_head in Hd as (Hk0 & Hn & Hd).
    destruct (py_eq k0 k) eqn:E.
    + assert (E' : py_eq k0 q = true)
        by exact (py_eq_trans k0 k q Hk0 Hk Hq E Hkq).
      unfold entries_of. simpl. rewrite E'. simpl. f_equal.
      apply (entries_none d q).
      now rewrite <- (held_under_equal (map fst d) k0 q Hd Hk0 Hq E').
    + assert (E' : py_eq k0 q = false)
        by (now rewrite <- (py_eq_right k q k0 Hk Hq Hk0 Hkq)).
      unfold entries_of. simpl. rewrite E'. now apply IH.
Qed.

Lemma entries_setitem_other (d : list (json * list json)) (k q : json)
    (v : list json) :
  distinct_keys d = true -> hashable k = true -> hashable q = true ->
  py_eq k q = false ->
  entries_of (pc_setitem d k v) q = entries_of d q.
Proof.
  unfold distinct_keys. intros Hd Hk Hq Hkq.
  induction d as [|[k0 v0] d IH]; simpl.
  - unfold entries_of. simpl. now rewrite Hkq.
  - simpl in Hd. apply distinct_head in Hd as (Hk0 & Hn & Hd).
    destruct (py_eq k0 k) eqn:E.
    + assert (E' : py_eq k0 q = false)
        by (now rewrite (py_eq_left k0 k q Hk0 Hk Hq E)).
      unfold entries_of. simpl. now rewrite E'.
    + unfold entries_of. simpl. destruct (py_eq k0 q); simpl;
        [f_equal|]; now apply IH.
Qed.

Lemma pc_setitem_keys (d : list (json * list json)) (k : json)
    (v : list json) :
  map fst (pc_setitem d k v)
  = if existsb (fun k' => py_eq k' k) (map fst d) then map fst d
    else map fst d ++ [k].
Proof.
  induction d as [|[k0 v0] d IH]; simpl; [reflexivity|].
  destruct (py_eq k0 k); simpl; [reflexivity|].
  rewrite IH. now destruct (existsb _ (map fst d)).
Qed.

Lemma distinct_last (ks : list json) (k : json) :
  distinct ks = true -> hashable k = true ->
  existsb (fun k' => py_eq k' k) ks = false ->
  distinct (ks ++ [k]) = true.
Proof.
  intros Hd Hk Hn. induction ks as [|k0 ks IH]; simpl.
  - now rewrite Hk.
  - apply distinct_head in Hd as (Hk0 & Hn0 & Hd).
    simpl in Hn. apply orb_false_elim in Hn as [E Hn].
    rewrite Hk0, existsb_app, Hn0. simpl.
    rewrite (py_eq_sym k k0 Hk Hk0), E. simpl. now apply IH.
Qed.

Lemma distinct_setitem (d : list (json * list json)) (k : json)
    (v : list json) :
  distinct_keys d = true -> hashable k = true ->
  distinct_keys (pc_setitem d k v) = true.
Proof.
  unfold distinct_keys. intros Hd Hk. rewrite pc_setitem_keys.
  destruct (existsb _ (map fst d)) eqn:E; [exact Hd|].
  now apply distinct_last.
Qed.

Lemma record_distinct (d : list (json * list json)) (r : recording) :
  distinct_keys d = true -> well_keyed r -> distinct_keys (record d r) = true.
Proof.
  destruct r as [[k cs]|]; simpl; [|tauto]. intros. now apply distinct_setitem.
Qed.

Lemma fold_distinct (rs : list recording) (d : list (json * list json)) :
  distinct_keys d = true -> Forall well_keyed rs ->
  distinct_keys (fold_left record rs d) = true.
Proof.
  revert d. induction rs as [|r rs IH]; simpl; intros d Hd Hrs; [exact Hd|].
  inversion Hrs; subst. apply IH; [now apply record_distinct | assumption].
Qed.

Lemma fold_other (rs : list recording) (d : list (json * list json))
    (q : json) :
  distinct_keys d = true -> hashable q = true ->
  Forall well_keyed rs -> Forall (under_other_key q) rs ->
  entries_of (fold_left record rs d) q = entries_of d q.
Proof.
  revert d. induction rs as [|r rs IH]; simpl; intros d Hd Hq Hrs Ho;
    [reflexivity|].
  inversion Hrs; subst. inversion Ho; subst.
  rewrite IH by (try assumption; now apply record_distinct).
  destruct r as [[k cs]|]; simpl in *; [|reflexivity].
  now apply entries_setitem_other.
Qed.

Lemma last_recording_wins (before after : list recording)
    (d : list (json * list json)) (k q : json) (cs : list json) :
  distinct_keys d = true -> hashable q = true ->
  Forall well_keyed (before ++ Some (k, cs) :: after) ->
  py_eq k q = true ->
  Forall (under_other_key q) after ->
  entries_of (fold_left record (before ++ Some (k, cs) :: after) d) q = [cs].
Proof.
  intros Hd Hq Hrs Hkq Ho.
  apply Forall_app in Hrs as [Hb Ha]. inversion Ha as [|r rs Hk Ha']; subst.
  rewrite fold_left_app. simpl.
  pose proof (fold_distinct before d Hd Hb) as Hd1.
  rewrite fold_other; try assumption.
  - now apply entries_setitem_same.
  - now apply distinct_setitem.
Qed.

Lemma last_under (q : json) (rs : list recording) :
  Forall (under_other_key q) rs \/
  exists pre k last post,
    rs = pre ++ Some (k, last) :: post /\
    py_eq k q = true /\
    Forall (under_other_key q) post.
Proof.
  induction rs as [|r rs IH]; [left; constructor|].
  destruct IH as [Ho|(pre & k & last & post & -> & Hk & Ho)].
  - destruct r as [[k cs]|].
    + destruct (py_eq k q) eqn:E.
      * right. exists [], k, cs, rs. auto.
      * left. constructor; [exact E | exact Ho].
    + left. constructor; [exact I | exact Ho].
  - right. exists (r :: pre), k, last, post. auto.
Qed.

#[local] Arguments fetch_source_collections : simpl never.
#[local] Arguments write_product : simpl never.
#[local] Arguments skip_product : simpl never.
#[local] Arguments record_collections : simpl never.
#[local] Arguments product_title : simpl never.
#[local] Arguments migration_log : simpl never.

Section Recordings.

Context {W : Type} {R : Remote W}.

Lemma kr_bind {A B} (m : O (W:=W) A) (k : A -> O (W:=W) B) :
  keeps_recordings m -> (forall a, keeps_recordings (k a)) ->
  keeps_recordings (bind m k).
Proof.
  intros Hm Hk l e. unfold bind. specialize (Hm l e).
  destruct (m (l, e)) as [[a|x] [l1 e1]]; simpl in *; [|exact Hm].
  now rewrite Hk.
Qed.

Lemma kr_try_except {A} (m : O (W:=W) A) (h : exn -> O (W:=W) A) :
  keeps_recordings m -> (forall x, keeps_recordings (h x)) ->
  keeps_recordings (try_except m h).
Proof.
  intros Hm Hh l e. unfold try_except. specialize (Hm l e).
  destruct (m (l, e)) as [[a|x] [l1 e1]]; simpl in *; [exact Hm|].
  now rewrite Hh.
Qed.

Lemma kr_call {A} (m : M (env W) A) : keeps_recordings (call m).
Proof. intros l e. unfold call. now destruct (m e). Qed.

Lemma kr_call_with_product {A} (m : M (json * env W) A) :
  keeps_recordings (call_with_product m).
Proof.
  intros l e. unfold call_with_product.
  now destruct (m (product l, e)) as [r [p' e']].
Qed.

Lemma kr_pure {A} (m : O (W:=W) A) :
  (forall s, snd (m s) = s) -> keeps_recordings m.
Proof. intros H l e. now rewrite H. Qed.

Lemma kr_assign (f : locals -> locals) :
  (forall l, product_collections (f l) = product_collections l) ->
  keeps_recordings (assign (W:=W) f).
Proof. intros H l e. apply H. Qed.

Ltac keeps :=
  repeat first
    [ apply kr_bind; [|intros]
    | apply kr_try_except; [|intros]
    | apply kr_call
    | apply kr_call_with_product
    | apply kr_assign; intros; reflexivity
    | apply kr_pure; intros [? ?]; reflexivity
    | match goal with
      | |- keeps_recordings (match ?x with _ => _ end) => destruct x
      end ].

Lemma skip_product_keeps (msg : string) :
  keeps_recordings (skip_product (W:=W) msg).
Proof. unfold skip_product, product_title, migration_log. keeps. Qed.

Lemma fetch_source_collections_keeps (source_client : client) :
  keeps_recordings (fetch_source_collections source_client).
Proof. unfold fetch_source_collections, product_title, migration_log. keeps. Qed.

Lemma write_product_keeps (dest_client : client) (sku : json)
    (existing_product : option json) :
  keeps_recordings (write_product dest_client sku existing_product).
Proof.
  unfold write_product, update_existing, create_new, product_title,
    migration_log.
  keeps.
Qed.

Lemma try_recordings {A} (m : O (W:=W) A) (h : exn -> O (W:=W) A)
    (s : locals * env W) :
  (forall x, keeps_recordings (h x)) ->
  product_collections (fst (snd (try_except m h s)))
  = product_collections (fst (snd (m s))).
Proof.
  intros Hh. unfold try_except.
  destruct (m s) as [[a|x] [l1 e1]]; simpl; [reflexivity | apply Hh].
Qed.

Lemma record_collections_records (cs : list json) (l : locals) (e : env W) :
  product_collections (fst (snd (record_collections cs (l, e))))
  = record (product_collections l)
      match migrated_product l with
      | Some m =>
          if truthy m && nonempty cs then
            match py_getitem m "id" with
            | Ok key => if hashable key then Some (key, cs) else None
            | Raise _ => None
            end
          else None
      | None => None
      end.
Proof.
  unfold record_collections, bind, local, lift_res, assign, ret, raise.
  simpl. destruct (migrated_product l) as [m|]; simpl; [|reflexivity].
  destruct (truthy m && nonempty cs); simpl; [|reflexivity].
  destruct (py_getitem m "id") as [key|x]; simpl; [|reflexivity].
  destruct (hashable key); reflexivity.
Qed.

Lemma record_collections_silent (cs : list json) (s : locals * env W) :
  snd (snd (record_collections cs s)) = snd s.
Proof.
  destruct s as [l e].
  destruct (record_collections_frame cs l e) as (r & l' & -> & _).
  reflexivity.
Qed.

Lemma migrate_product_records (source_client dest_client : client) (p : json)
    (s : locals * env W) :
  product_collections
    (fst (snd (migrate_product source_client dest_client p s)))
  = record (product_collections (fst s))
      (recorded source_client dest_client p s).
Proof.
  destruct s as [l e]. unfold migrate_product.
  match goal with
  | |- context [try_except ?m ?h] => set (body := m); set (handler := h)
  end.
  assert (Hh : forall x, keeps_recordings (handler x))
    by (intros x; unfold handler, product_title, migration_log; keeps).
  unfold bind, assign. cbn [fst snd].
  rewrite (try_recordings body handler _ Hh). clear Hh handler.
  subst body. unfold recorded, first_variant_sku, res_bind.
  unfold bind, local, lift_res. cbn [fst snd product set_product].
  destruct (py_get p "variants" (JList [])) as [variants|x];
    cbn [fst snd product_collections set_product record]; [|reflexivity].
  destruct (truthy variants); cbn [negb truthy];
    [|now rewrite skip_product_keeps].
  destruct (py_getitem0 variants) as [first_variant|x];
    cbn [fst snd product_collections set_product record]; [|reflexivity].
  destruct (py_get first_variant "sku" JNull) as [sku|x];
    cbn [fst snd product_collections set_product record]; [|reflexivity].
  destruct (truthy sku); cbn [negb]; [|now rewrite skip_product_keeps].
  pose proof (fetch_source_collections_keeps source_client
                (set_product p l) e) as Hf.
  destruct (fetch_source_collections source_client (set_product p l, e))
    as [[cs|x] [l1 e1]]; cbn [fst snd product_collections set_product] in *;
    [|now rewrite Hf].
  unfold call.
  destruct (get_product_by_sku dest_client sku e1) as [[existing|x] e2];
    cbn [fst snd]; [|now rewrite Hf].
  pose proof (write_product_keeps dest_client sku existing l1 e2) as Hw.
  destruct (write_product dest_client sku existing (l1, e2))
    as [[[]|x] [l3 e3]]; cbn [fst snd] in *;
    [|now rewrite Hw, Hf].
  rewrite record_collections_records, Hw, Hf. reflexivity.
Qed.

Lemma recorded_well_keyed (source_client dest_client : client) (p : json)
    (s : locals * env W) :
  well_keyed (recorded source_client dest_client p s).
Proof.
  unfold recorded.
  destruct (first_variant_sku p) as [sku|]; [|exact I].
  destruct (truthy sku); [|exact I]. cbv zeta.
  destruct (fst (fetch_source_collections _ _)) as [cs|]; [|exact I].
  destruct (fst (get_product_by_sku _ _ _)) as [existing|]; [|exact I].
  destruct (fst (write_product _ _ _ _)) as [[]|]; [|exact I].
  destruct (migrated_product _) as [m|]; [|exact I].
  destruct (truthy m && nonempty cs); [|exact I].
  destruct (py_getitem m "id") as [key|]; [|exact I].
  destruct (hashable key) eqn:E; [exact E | exact I].
Qed.

Lemma loop_recordings_well_keyed (source_client dest_client : client)
    (ps : list json) (s : locals * env W) :
  Forall well_keyed (loop_recordings source_client dest_client ps s).
Proof.
  revert s. induction ps as [|p ps IH]; intros s; simpl; [constructor|].
  constructor; [apply recorded_well_keyed|].
  destruct (migrate_product source_client dest_client p s) as [[[]|x] s'];
    [apply IH | constructor].
Qed.

Lemma first_loop_records (source_client dest_client : client)
    (ps : list json) (s : locals * env W) :
  product_collections
    (fst (snd (for_each ps (migrate_product source_client dest_client) s)))
  = fold_left record (loop_recordings source_client dest_client ps s)
      (product_collections (fst s)).
Proof.
  revert s. induction ps as [|p ps IH]; intros s; [reflexivity|].
  cbn [for_each loop_recordings fold_left]. unfold bind.
  rewrite <- migrate_product_records.
  destruct (migrate_product source_client dest_client p s) as [[[]|x] s'];
    cbn [fst snd fold_left]; [apply IH | reflexivity].
Qed.

(** C10.  The recording dictionary is keyed by the identifier of the
    destination product.  Take any run of the first loop, from a dictionary
    whose keys are distinct as those of a Python dictionary are (the empty
    one of line 56 among them), and what its iterations record, one after
    the other: an iteration records when its write returns a product with
    an identifier and the source product has collections.  The dictionary
    that the loop leaves is these recordings made in order, its keys are
    distinct, and it is the dictionary whose entries the second phase
    iterates (the last part of the statement).  So for any
    two products of the run, however far apart, that are recorded under
    equal identifiers: the list of the first was the entry of that
    identifier once its iteration had ended; at the end of the loop the
    dictionary holds one list only under that identifier, which is the list
    of the last product recorded under it, the second of the two or one
    that comes after it, and so not what the first recorded; and when no
    product after the second is recorded under that identifier, that list
    is the list of the second.  Recording sends and logs nothing. *)
Theorem later_recording_replaces_earlier (source_client dest_client : client)
    (ps : list json) (l : locals) (e : env W) :
  distinct_keys (product_collections l) = true ->
  let loop := for_each ps (migrate_product source_client dest_client) (l, e) in
  let rs := loop_recordings source_client dest_client ps (l, e) in
  let final := product_collections (fst (snd loop)) in
  final = fold_left record rs (product_collections l) /\
  distinct_keys final = true /\
  (forall before k1 earlier between k2 later after,
     rs = before ++ Some (k1, earlier) :: between
            ++ Some (k2, later) :: after ->
     py_eq k1 k2 = true ->
     entries_of
       (fold_left record (before ++ [Some (k1, earlier)])
          (product_collections l)) k1 = [earlier] /\
     (exists pre k3 last post,
        Some (k2, later) :: after = pre ++ Some (k3, last) :: post /\
        py_eq k3 k2 = true /\
        Forall (under_other_key k2) post /\
        entries_of final k1 = [last] /\
        entries_of final k2 = [last]) /\
     (Forall (under_other_key k2) after ->
      entries_of final k1 = [later] /\ entries_of final k2 = [later])) /\
  (forall cs (s : locals * env W),
     snd (snd (record_collections cs s)) = snd s) /\
  migrate_collections dest_client (snd loop)
  = (if nonempty final then
       migration_log INFO "Starting collection migration process" [] ;;
       for_each final (fun '(product_id, collections) =>
         for_each collections (migrate_collection dest_client product_id))
     else ret tt) (snd loop).
Proof.
  intros Hd loop rs final.
  assert (Hphase : migrate_collections dest_client (snd loop)
                   = (if nonempty final then
                        migration_log INFO
                          "Starting collection migration process" [] ;;
                        for_each final (fun '(product_id, collections) =>
                          for_each collections
                            (migrate_collection dest_client product_id))
                      else ret tt) (snd loop)).
  { subst final. destruct (snd loop) as [l' e']. reflexivity. }
  pose proof (first_loop_records source_client dest_client ps (l, e)) as Hf.
  pose proof (loop_recordings_well_keyed source_client dest_client ps (l, e))
    as Hk.
  fold loop in Hf. fold final in Hf. fold rs in Hf, Hk. cbn [fst] in Hf.
  split; [exact Hf|]. split; [rewrite Hf; now apply fold_distinct|].
  split; [|split; [apply record_collections_silent | exact Hphase]].
  intros before k1 earlier between k2 later after Hrs H12.
  rewrite Hrs in Hk.
  pose proof Hk as Hk'. apply Forall_app in Hk' as [Hb Hk'].
  inversion Hk' as [|r1 rs1 Hk1 Hk'']; subst r1 rs1.
  apply Forall_app in Hk'' as [_ Hk''].
  inversion Hk'' as [|r2 rs2 Hk2 _]; subst r2 rs2.
  simpl in Hk1, Hk2.
  pose proof (py_eq_hashable_refl k1 Hk1) as Hr1.
  pose proof (py_eq_hashable_refl k2 Hk2) as Hr2.
  (* a recording of the run under the identifier, with none under it after *)
  assert (Hlast : forall pre k3 last post,
             Some (k2, later) :: after = pre ++ Some (k3, last) :: post ->
             py_eq k3 k2 = true ->
             Forall (under_other_key k2) post ->
             entries_of final k1 = [last] /\ entries_of final k2 = [last]).
  { intros pre k3 last post Hsplit H32 Ho.
    assert (Hall : rs = (before ++ Some (k1, earlier) :: between ++ pre)
                          ++ Some (k3, last) :: post).
    { rewrite Hrs, Hsplit, <- !app_assoc. cbn [app].
      now rewrite <- app_assoc. }
    assert (Hk3 : hashable k3 = true).
    { pose proof Hk as H0. rewrite Hsplit in H0.
      apply Forall_app in H0 as [_ H0]. inversion H0 as [|? ? _ H1]; subst.
      apply Forall_app in H1 as [_ H1]. apply Forall_app in H1 as [_ H1].
      now inversion H1. }
    assert (Hwk : Forall well_keyed
                    ((before ++ Some (k1, earlier) :: between ++ pre)
                       ++ Some (k3, last) :: post)).
    { rewrite <- Hall. apply loop_recordings_well_keyed. }
    rewrite Hf, Hall. split.
    - apply last_recording_wins; auto.
      + rewrite (py_eq_sym k1 k2 Hk1 Hk2) in H12.
        exact (py_eq_trans k3 k2 k1 Hk3 Hk2 Hk1 H32 H12).
      + eapply Forall_impl; [|exact Ho].
        intros [[k4 cs4]|] H; simpl in *; auto.
        destruct (py_eq k4 k1) eqn:E; [|reflexivity].
        assert (Hk4 : hashable k4 = true).
        { destruct k4, k1; simpl in *; try reflexivity; discriminate. }
        now rewrite (py_eq_trans k4 k1 k2 Hk4 Hk1 Hk2 E H12) in H.
    - apply last_recording_wins; auto. }
  split; [|split].
  - apply last_recording_wins; auto.
    apply Forall_app. split; [exact Hb|]. constructor; [exact Hk1|constructor].
  - destruct (last_under k2 (Some (k2, later) :: after))
      as [Ho|(pre & k3 & last & post & Hsplit & H32 & Ho)].
    + inversion Ho as [|? ? Hself _]; subst. simpl in Hself. congruence.
    + exists pre, k3, last, post. repeat split; auto;
        now apply (Hlast pre k3 last post).
  - intros Ho. now apply (Hlast [] k2 later after).
Qed.

End Recordings.

(** ** The examples *)

Lemma answer_tidy (s : store) (rq : request) :
  tidy_store s -> tidy_answer (answer s rq) = true.
Proof.
  intros (H1 & H2 & H3 & H4 & H5 & H6 & H7 & H8). unfold answer.
  destruct (rq_method rq), (rq_endpoint rq); auto.
Qed.

Lemma fixed_identifies_products (host : string) (source dest : store) :
  tidy_store source -> tidy_store dest ->
  identifies_products unit (R := fixed (mkStores host source dest)).
Proof.
  intros Hs Hd rq w status body m Hr Hp.
  unfold send, fixed, route in Hr. simpl in Hr.
  pose proof (answer_tidy source rq Hs) as Ha.
  pose proof (answer_tidy dest rq Hd) as Hb.
  destruct (String.eqb _ _).
  - rewrite Hr in Ha. simpl in Ha. now rewrite Hp in Ha.
  - rewrite Hr in Hb. simpl in Hb. now rewrite Hp in Hb.
Qed.

Lemma shirt_source_tidy : tidy_store shirt_source.
Proof. repeat split. Qed.

Lemma unlisting_dest_tidy : tidy_store unlisting_dest.
Proof. repeat split. Qed.

Lemma counts_sum_sample :
  let R := fixed (migration shirt_source unlisting_dest) in
  exists l' e',
    migrate_products source_shop dest_shop (initial_locals, nothing_yet)
      = (Ok tt, (l', e')) /\
    created_count l' + updated_count l' + skipped_count l' + error_count l'
      + collection_errors (logs nothing_yet)
    = List.length [shirt] + collection_errors (logs e').
Proof.
  intros R.
  apply (counts_sum_to_products_and_collection_errors (R:=R)
           (fixed_identifies_products _ _ _
              shirt_source_tidy unlisting_dest_tidy)
           source_shop dest_shop [shirt] initial_locals nothing_yet
           (snd (get_products source_shop 250 (started nothing_yet))));
    reflexivity.
Defined.

(** C4, as stated, fails: one valid product, created without error, and a
    destination that cannot list its collections.  The second phase counts
    the collection as an error, so the four counts sum to 2. *)
Lemma counts_exceed_products :
  let R := fixed (migration shirt_source unlisting_dest) in
  let r := run_migration shirt_source unlisting_dest in
  let l := fst (snd r) in
  fst (get_products source_shop 250 nothing_yet) = Ok (JList [shirt]) /\
  forallb valid_entry [shirt] = true /\
  fst r = Ok tt /\
  created_count l = 1 /\ updated_count l = 0 /\ skipped_count l = 0 /\
  error_count l = 1 /\
  created_count l + updated_count l + skipped_count l + error_count l
    <> List.length [shirt].
Proof.
  vm_compute. repeat split; discriminate.
Qed.



Lemma product_without_sku_is_skipped_sample :
  let R := fixed (migration shirt_source refusing_dest) in
  let bare := JDict [("id", JNum 3); ("title", JStr "Bare"); ("variants", JList [])] in
  exists l' e',
    migrate_product source_shop dest_shop bare (initial_locals, nothing_yet)
      = (Ok tt, (l', e')) /\
    skipped_count l' = 1 /\
    created_count l' = 0 /\ updated_count l' = 0 /\ error_count l' = 0 /\
    trace e' = [] /\
    for_each [bare; shirt] (migrate_product source_shop dest_shop)
      (initial_locals, nothing_yet)
    = for_each [shirt] (migrate_product source_shop dest_shop) (l', e').
Proof.
  intros R bare.
  destruct (product_without_sku_is_skipped (R:=R) source_shop dest_shop bare
              [shirt] initial_locals nothing_yet eq_refl)
    as (l' & e' & msg & title & Hrun & Hs & Hc & Hu & He & _ & _ & Ht & _
        & _ & _ & _ & Hnext).
  exists l', e'. repeat split; assumption.
Defined.

Example recording_twice_replaces_sample :
  exists l1 l2,
    record_collections [summer]
      (set_migrated_product (Some shirt_at_dest) initial_locals, nothing_yet)
      = (Ok tt, (l1, nothing_yet)) /\
    pc_get (product_collections l1) (JNum 42) = Some [summer] /\
    record_collections [winter]
      (set_migrated_product (Some shirt_at_dest) l1, nothing_yet)
      = (Ok tt, (l2, nothing_yet)) /\
    pc_get (product_collections l2) (JNum 42) = Some [winter] /\
    map fst (product_collections l2) = map fst (product_collections l1).
Proof.
  apply (recording_twice_replaces initial_locals nothing_yet
           shirt_at_dest shirt_at_dest (JNum 42) [summer] [winter]);
    try reflexivity; discriminate.
Qed.

Lemma later_recording_replaces_earlier_sample :
  let R := fixed (migration triple_source welcoming_dest) in
  let products := [shirt; hat; shirt_again] in
  let loop :=
    for_each products (migrate_product source_shop dest_shop)
      (initial_locals, nothing_yet) in
  let final := product_collections (fst (snd loop)) in
  loop_recordings source_shop dest_shop products (initial_locals, nothing_yet)
    = [Some (JNum 42, [summer]); Some (JNum 100, [summer]);
       Some (JNum 42, [winter])] /\
  entries_of final (JNum 42) = [[winter]] /\
  distinct_keys final = true.
Proof.
  intros R products loop final.
  destruct (later_recording_replaces_earlier (R:=R) source_shop dest_shop
              products initial_locals nothing_yet eq_refl)
    as (_ & Hd & Hlast & _).
  split; [reflexivity|]. split; [|exact Hd].
  destruct (Hlast [] (JNum 42) [summer] [Some (JNum 100, [summer])]
              (JNum 42) [winter] [] eq_refl eq_refl)
    as (_ & _ & H).
  exact (proj2 (H (Forall_nil _))).
Defined.

(** The run of that sample as a whole: the first and the third product
    update destination product 42, the second is created as product 100 in
    between; the second phase is given Winter for product 42, and Summer,
    which the first product recorded, for product 100 only. *)
Example third_product_replaces_the_first :
  let r := run_migration triple_source welcoming_dest in
  let l := fst (snd r) in
  fst r = Ok tt /\
  updated_count l = 2 /\ created_count l = 1 /\
  product_collections l = [(JNum 42, [winter]); (JNum 100, [summer])].
Proof.
  vm_compute. repeat split.
Qed.

(** The same on a whole run: two source products with one SKU, the first
    in Summer and the second in Winter.  Both update destination product 42;
    the phase of the collections sees Winter only. *)
Example twins_keep_the_later_collections :
  let r := run_migration twin_source accepting_dest in
  let l := fst (snd r) in
  fst r = Ok tt /\
  updated_count l = 2 /\
  product_collections l = [(JNum 42, [winter])] /\
  collection_count l = 1.
Proof.
  vm_compute. repeat split.
Qed.

(** C1 fails on the code.  [migrate_products] builds the dictionary
    [collection_data] and passes it as the one argument of
    [create_collection(title, description="")]: the collection that is
    requested has that whole dictionary for its title, an empty body, and no
    published flag of its own. *)
Theorem create_collection_is_given_a_dictionary :
  let r := run_migration shirt_source refusing_dest in
  filter (posts_to CustomCollections) (trace (snd (snd r))) =
  [mkRequest POST (base_url dest_shop) CustomCollections []
     (headers dest_shop)
     (Some (JDict
        [("custom_collection",
          JDict [("title",
                  JDict [("title", JStr "Summer");
                         ("body_html", JStr "<p>Hot</p>");
                         ("published", JBool true)]);
                 ("body_html", JStr "")])]))].
Proof. vm_compute. reflexivity. Qed.

(** C2 fails on the code.  When the destination refuses the new
    collection, the failure is logged and no association is requested, but
    the error count stays 0; when the association fails, the failure is
    logged and the error count stays 0 as well. *)
Theorem collection_failures_are_not_counted :
  let refused := snd (run_migration shirt_source refusing_dest) in
  let unlinked := snd (run_migration shirt_source unlinking_dest) in
  (filter is_error (logs (snd refused)) =
     [mkLog shopify_client ERROR
        "HTTP error occurred while creating collection: {}"
        [AExn (HTTPStatusError 422)];
      mkLog shopify_migration ERROR "Failed to create collection '{}': {}"
        [AVal (JStr "Summer"); AExn (HTTPStatusError 422)]] /\
   filter (posts_to Collects) (trace (snd refused)) = [] /\
   error_count (fst refused) = 0) /\
  (filter is_error (logs (snd unlinked)) =
     [mkLog shopify_client ERROR
        "HTTP error occurred while adding product to collection: {}"
        [AExn (HTTPStatusError 500)];
      mkLog shopify_migration ERROR
        "Failed to add product {} to collection '{}': {}"
        [AVal (JNum 100); AVal (JStr "Summer"); AExn (HTTPStatusError 500)]] /\
   error_count (fst unlinked) = 0).
Proof. vm_compute. repeat split. Qed.

(** C3 fails on the code.  The loop of [get_products] warns about the two
    entries that are not dictionaries with an identifier, and the function
    returns the listing with both of them in it; the migration then stops
    with an [AttributeError] at the entry that is not a dictionary. *)
Theorem get_products_returns_invalid_entries :
  let R := fixed (migration untidy_source accepting_dest) in
  let r := get_products source_shop 250 nothing_yet in
  fst r =
    Ok (JList [JDict [("title", JStr "No identifier")]; JStr "junk"; shirt]) /\
  filter is_warning (logs (snd r)) =
    [mkLog shopify_client WARNING "Found invalid product data in response" [];
     mkLog shopify_client WARNING "Found invalid product data in response" []] /\
  fst (run_migration untidy_source accepting_dest) = Raise AttributeError.
Proof. vm_compute. repeat split. Qed.

(** The case that the amended C4 leaves out: the update succeeds, its
    answer has no identifier, and recording the collections raises; the one
    product is counted as updated and as an error. *)
Example unidentified_update_is_counted_twice :
  let l := fst (snd (run_migration shirt_source anonymous_dest)) in
  updated_count l = 1 /\ error_count l = 1 /\ created_count l = 0 /\
  skipped_count l = 0.
Proof. vm_compute. repeat split. Qed.

(** * Further properties of the client *)

(** ** Where the requests of a client go *)

Section OwnStore.

Context {W : Type} {R : Remote W}.
Variable self : client.

Ltac own_effects :=
  effects_auto;
  try (repeat split; reflexivity);
  try (split; [split; reflexivity | right; split; reflexivity]);
  try (split; [split; reflexivity | left; reflexivity]).

Lemma validate_credentials_own :
  effects (reads_from self) of_client (validate_credentials (W:=W) self).
Proof. unfold validate_credentials. own_effects. Qed.
Hint Resolve validate_credentials_own : effects.

Lemma get_products_own (limit : Z) :
  effects (reads_from self) of_client (get_products (W:=W) self limit).
Proof. unfold get_products, warn_invalid. own_effects. Qed.
Hint Resolve get_products_own : effects.

Lemma first_with_sku_own (products : list json) (sku : json) :
  effects (reads_from self) of_client (first_with_sku (W:=W) self products sku).
Proof. induction products as [|p ps IH]; simpl; own_effects. Qed.
Hint Resolve first_with_sku_own : effects.

Lemma get_product_by_sku_own (sku : json) :
  effects (reads_from self) of_client (get_product_by_sku (W:=W) self sku).
Proof. unfold get_product_by_sku. own_effects. Qed.

Lemma get_collections_own :
  effects (reads_from self) of_client (get_collections (W:=W) self).
Proof. unfold get_collections, collection_handlers. own_effects. Qed.
Hint Resolve get_collections_own : effects.

Lemma get_collection_by_title_own (title : json) :
  effects (reads_from self) of_client
    (get_collection_by_title (W:=W) self title).
Proof. unfold get_collection_by_title. own_effects. Qed.

Lemma collections_of_own (product_id : json) (collections : list json) :
  effects (reads_from self) of_client
    (collections_of (W:=W) self product_id collections).
Proof. induction collections as [|c cs IH]; simpl; own_effects. Qed.
Hint Resolve collections_of_own : effects.

Lemma get_product_collections_own (product_id : json) :
  effects (reads_from self) of_client
    (get_product_collections (W:=W) self product_id).
Proof. unfold get_product_collections, collection_handlers. own_effects. Qed.

(** X1.  The reading operations of a client send only GET requests, all of
    them to the client's own store and with its own headers, and write only
    to the client's logger. *)
Theorem reading_operations_only_read :
  effects (reads_from self) of_client (validate_credentials (W:=W) self) /\
  (forall limit,
     effects (reads_from self) of_client (get_products (W:=W) self limit)) /\
  (forall sku,
     effects (reads_from self) of_client (get_product_by_sku (W:=W) self sku)) /\
  effects (reads_from self) of_client (get_collections (W:=W) self) /\
  (forall title,
     effects (reads_from self) of_client
       (get_collection_by_title (W:=W) self title)) /\
  (forall product_id,
     effects (reads_from self) of_client
       (get_product_collections (W:=W) self product_id)).
Proof.
  repeat split; intros;
    auto using validate_credentials_own, get_products_own,
      get_product_by_sku_own, get_collections_own,
      get_collection_by_title_own, get_product_collections_own.
Qed.

Lemma write_handlers_own {A} (P : request -> Prop) (m1 m2 : string)
    (arg : log_arg) (x : exn) :
  effects P of_client (write_handlers (W:=W) (A:=A) m1 m2 arg x).
Proof. unfold write_handlers. own_effects. Qed.

Lemma collection_handlers_own {A} (P : request -> Prop) (m1 m2 : string)
    (x : exn) :
  effects P of_client (collection_handlers (W:=W) (A:=A) m1 m2 x).
Proof. unfold collection_handlers. own_effects. Qed.

Lemma validate_credentials_or (m : http_method) (ep : endpoint) :
  effects (reads_or self m ep) of_client (validate_credentials (W:=W) self).
Proof.
  eapply effects_weaken; [| |apply validate_credentials_own]; auto.
  intros rq [Hs Hg]. split; auto.
Qed.

Lemma create_product_own :
  effects (reads_or self POST Products) of_client (create_product (W:=W) self).
Proof.
  intros [product_data e]. unfold create_product.
  destruct (py_get product_data "title" (JStr "Unknown")) as [title|x].
  - destruct (_prepare_product_data product_data) as [product_data' clean].
    assert (H : effects (reads_or self POST Products) of_client
                  (create_product_request (W:=W) self title clean)).
    { unfold create_product_request. own_effects.
      apply write_handlers_own. }
    specialize (H e).
    destruct (create_product_request self title clean e). exact H.
  - exists [], []. simpl. rewrite !app_nil_r. auto.
Qed.

Lemma update_product_own (product_id : json) :
  effects (reads_or self PUT (ProductById product_id)) of_client
    (update_product (W:=W) self product_id).
Proof.
  intros [product_data e]. unfold update_product.
  destruct (py_get product_data "title" (JStr "Unknown")) as [title|x].
  - destruct (_prepare_product_data product_data) as [product_data' clean].
    assert (H : effects (reads_or self PUT (ProductById product_id)) of_client
                  (update_product_request (W:=W) self product_id title clean)).
    { unfold update_product_request. own_effects.
      apply write_handlers_own. }
    specialize (H e).
    destruct (update_product_request self product_id title clean e). exact H.
  - exists [], []. simpl. rewrite !app_nil_r. auto.
Qed.

Lemma create_collection_own (title description : json) :
  effects (reads_or self POST CustomCollections) of_client
    (create_collection (W:=W) self title description).
Proof.
  unfold create_collection. own_effects;
    first [apply validate_credentials_or | apply collection_handlers_own].
Qed.

Lemma add_product_to_collection_own (product_id collection_id : json) :
  effects (reads_or self POST Collects) of_client
    (add_product_to_collection (W:=W) self product_id collection_id).
Proof.
  unfold add_product_to_collection. own_effects;
    first [apply validate_credentials_or | apply collection_handlers_own].
Qed.

(** X2.  Each writing operation of a client sends its requests to the
    client's own store with its own headers, and the only request among
    them that is not a GET is the one write of the operation: a POST on
    [/products.json], a PUT on [/products/{product_id}.json], a POST on
    [/custom_collections.json], a POST on [/collects.json]. *)
Theorem writing_operations_write_once_kind :
  effects (reads_or self POST Products) of_client
    (create_product (W:=W) self) /\
  (forall product_id,
     effects (reads_or self PUT (ProductById product_id)) of_client
       (update_product (W:=W) self product_id)) /\
  (forall title description,
     effects (reads_or self POST CustomCollections) of_client
       (create_collection (W:=W) self title description)) /\
  (forall product_id collection_id,
     effects (reads_or self POST Collects) of_client
       (add_product_to_collection (W:=W) self product_id collection_id)).
Proof.
  repeat split; intros;
    auto using create_product_own, update_product_own, create_collection_own,
      add_product_to_collection_own.
Qed.

End OwnStore.

(** ** What the writes of products return *)

Section ProductWrites.

Context {W : Type} {R : Remote W}.

Ltac handled :=
  repeat match goal with
         | |- context [match ?x with HTTPStatusError _ => _ | _ => _ end] =>
             destruct x; simpl
         | |- context [if (?s =? 422)%Z then _ else _] =>
             destruct (s =? 422)%Z; simpl
         end.

Lemma create_product_request_answer (self : client) (title payload : json)
    (e : env W) :
  let rq := create_request self payload in
  let run := create_product_request self title (Ok payload) e in
  fst run = product_of_answer true (fst (send rq (world e))) /\
  trace (snd run) = trace e ++ [rq] /\
  world (snd run) = snd (send rq (world e)).
Proof.
  intros rq run. subst run rq.
  unfold create_product_request, try_except, bind, client_log, log, lift_res,
    http, raise_for_status, response_json, write_handlers, ret, raise,
    create_request.
  simpl.
  destruct (send _ (world e)) as [[|status body] w'] eqn:Es; simpl;
    [now repeat split|].
  change ((200 <=? status)%Z && (status <=? 299)%Z) with (success status).
  destruct (success status); simpl.
  - destruct body as [[| | | | |d]|]; simpl; try now repeat split.
    destruct (dict_get d "product") as [created|]; simpl;
      [|now repeat split].
    destruct (py_getitem created "title") as [t|x]; simpl;
      [|handled; now repeat split].
    destruct (py_getitem created "id") as [i|x]; simpl;
      [|handled; now repeat split].
    now repeat split.
  - destruct (status =? 422)%Z; simpl; now repeat split.
Qed.

Lemma update_product_request_answer (self : client)
    (product_id title payload : json) (e : env W) :
  let rq := update_request self product_id payload in
  let run := update_product_request self product_id title (Ok payload) e in
  fst run = product_of_answer false (fst (send rq (world e))) /\
  trace (snd run) = trace e ++ [rq] /\
  world (snd run) = snd (send rq (world e)).
Proof.
  intros rq run. subst run rq.
  unfold update_product_request, try_except, bind, client_log, log, lift_res,
    http, raise_for_status, response_json, write_handlers, ret, raise,
    update_request.
  simpl.
  destruct (send _ (world e)) as [[|status body] w'] eqn:Es; simpl;
    [now repeat split|].
  change ((200 <=? status)%Z && (status <=? 299)%Z) with (success status).
  destruct (success status); simpl.
  - destruct body as [[| | | | |d]|]; simpl; try now repeat split.
    destruct (dict_get d "product") as [updated|]; simpl;
      [|now repeat split].
    destruct (py_getitem updated "title") as [t|x]; simpl;
      [|handled; now repeat split].
    now repeat split.
  - destruct (status =? 422)%Z; simpl; now repeat split.
Qed.

Lemma product_of_answer_ok (reads_id : bool) (answer : http_result) (m : json) :
  product_of_answer reads_id answer = Ok m <->
  exists status d,
    answer = Response status (Some (JDict d)) /\
    success status = true /\
    dict_get d "product" = Some m /\
    (exists t, py_getitem m "title" = Ok t) /\
    (reads_id = true -> exists i, py_getitem m "id" = Ok i).
Proof.
  split.
  - destruct answer as [|status body]; simpl; [discriminate|].
    destruct (success status) eqn:E2; [|discriminate].
    destruct body as [[| | | | |d]|]; try discriminate.
    destruct (dict_get d "product") as [m'|] eqn:Ep; [|discriminate].
    destruct (py_getitem m' "title") as [t|] eqn:Et; simpl; [|discriminate].
    destruct reads_id.
    + destruct (py_getitem m' "id") as [i|] eqn:Ei; simpl; [|discriminate].
      intros [= <-]. exists status, d. repeat split; eauto.
    + intros [= <-]. exists status, d. repeat split; eauto. discriminate.
  - intros (status & d & -> & E2 & Ep & (t & Et) & Hi). simpl.
    rewrite E2, Ep, Et. simpl. destruct reads_id; [|reflexivity].
    destruct (Hi eq_refl) as [i ->]. reflexivity.
Qed.

(** X3.  [create_product] on a product dictionary whose payload can be
    shaped sends exactly one request, the POST of that payload, and returns
    the product of the answer exactly when the answer has a 2xx status and
    a JSON dictionary whose ["product"] has a title and an identifier; a
    status that is not 2xx is raised as [HTTPStatusError] with that status,
    and a transport failure as [RequestError]. *)
Theorem create_product_returns (self : client) (product_data payload : json)
    (e : env W) :
  isinstance_dict product_data = true ->
  snd (_prepare_product_data product_data) = Ok payload ->
  let rq := create_request self payload in
  let run := create_product self (product_data, e) in
  trace (snd (snd run)) = trace e ++ [rq] /\
  world (snd (snd run)) = snd (send rq (world e)) /\
  (forall m,
     fst run = Ok m <->
     exists status d,
       fst (send rq (world e)) = Response status (Some (JDict d)) /\
       success status = true /\
       dict_get d "product" = Some m /\
       (exists t, py_getitem m "title" = Ok t) /\
       (exists i, py_getitem m "id" = Ok i)) /\
  (forall status body,
     fst (send rq (world e)) = Response status body ->
     success status = false ->
     fst run = Raise (HTTPStatusError status)) /\
  (fst (send rq (world e)) = ConnectFailed -> fst run = Raise RequestError).
Proof.
  intros Hd Hp rq run. subst run. unfold create_product.
  destruct (py_get_dict product_data "title" (JStr "Unknown") Hd) as [title ->].
  destruct (_prepare_product_data product_data) as [product_data' clean].
  simpl in Hp. subst clean.
  destruct (create_product_request_answer self title payload e)
    as (Hr & Ht & Hw). fold rq in Hr, Ht, Hw.
  destruct (create_product_request self title (Ok payload) e) as [r e'].
  simpl in *. subst r. repeat split; auto.
  - intros H. apply product_of_answer_ok in H.
    destruct H as (status & d & Ha & E2 & Ep & Et & Ei).
    exists status, d. repeat split; auto.
  - intros (status & d & Ha & E2 & Ep & Et & Ei).
    apply product_of_answer_ok. exists status, d. repeat split; auto.
  - intros status body -> E2. simpl. now rewrite E2.
  - intros ->. reflexivity.
Qed.

(** X4.  [update_product] on a product dictionary whose payload can be
    shaped sends exactly one request, the PUT of that payload on
    [/products/{product_id}.json], and returns the product of the answer
    exactly when the answer has a 2xx status and a JSON dictionary whose
    ["product"] has a title: unlike [create_product], it accepts a product
    without an identifier. *)
Theorem update_product_returns (self : client)
    (product_id product_data payload : json) (e : env W) :
  isinstance_dict product_data = true ->
  snd (_prepare_product_data product_data) = Ok payload ->
  let rq := update_request self product_id payload in
  let run := update_product self product_id (product_data, e) in
  trace (snd (snd run)) = trace e ++ [rq] /\
  world (snd (snd run)) = snd (send rq (world e)) /\
  (forall m,
     fst run = Ok m <->
     exists status d,
       fst (send rq (world e)) = Response status (Some (JDict d)) /\
       success status = true /\
       dict_get d "product" = Some m /\
       (exists t, py_getitem m "title" = Ok t)) /\
  (forall status body,
     fst (send rq (world e)) = Response status body ->
     success status = false ->
     fst run = Raise (HTTPStatusError status)) /\
  (fst (send rq (world e)) = ConnectFailed -> fst run = Raise RequestError).
Proof.
  intros Hd Hp rq run. subst run. unfold update_product.
  destruct (py_get_dict product_data "title" (JStr "Unknown") Hd) as [title ->].
  destruct (_prepare_product_data product_data) as [product_data' clean].
  simpl in Hp. subst clean.
  destruct (update_product_request_answer self product_id title payload e)
    as (Hr & Ht & Hw). fold rq in Hr, Ht, Hw.
  destruct (update_product_request self product_id title (Ok payload) e)
    as [r e'].
  simpl in *. subst r. repeat split; auto.
  - intros H. apply product_of_answer_ok in H.
    destruct H as (status & d & Ha & E2 & Ep & Et & Ei).
    exists status, d. repeat split; auto.
  - intros (status & d & Ha & E2 & Ep & Et).
    apply product_of_answer_ok. exists status, d. repeat split; auto.
    discriminate.
  - intros status body -> E2. simpl. now rewrite E2.
  - intros ->. reflexivity.
Qed.

(** X5.  When the payload cannot be shaped, [create_product] and
    [update_product] raise what the shaping raised and send nothing: the
    trace and the store are as before. *)
Theorem unshaped_product_is_not_sent (self : client)
    (product_id product_data : json) (x : exn) (e : env W) :
  isinstance_dict product_data = true ->
  snd (_prepare_product_data product_data) = Raise x ->
  let created := create_product self (product_data, e) in
  let updated := update_product self product_id (product_data, e) in
  fst created = Raise x /\
  trace (snd (snd created)) = trace e /\
  world (snd (snd created)) = world e /\
  fst updated = Raise x /\
  trace (snd (snd updated)) = trace e /\
  world (snd (snd updated)) = world e.
Proof.
  intros Hd Hp created updated. subst created updated.
  unfold create_product, update_product.
  destruct (py_get_dict product_data "title" (JStr "Unknown") Hd) as [title ->].
  destruct (_prepare_product_data product_data) as [product_data' clean].
  simpl in Hp. subst clean.
  unfold create_product_request, update_product_request, bind, client_log,
    log, lift_res.
  simpl. repeat split.
Qed.

End ProductWrites.

(** ** Listing the products *)

Section Listing.

Context {W : Type} {R : Remote W}.

Lemma validate_credentials_answer (self : client) (e : env W) :
  let run := validate_credentials self e in
  fst run = Ok (answers_ok (fst (send (shop_request self) (world e)))) /\
  trace (snd run) = trace e ++ [shop_request self] /\
  world (snd run) = snd (send (shop_request self) (world e)).
Proof.
  unfold validate_credentials, try_except, bind, http, raise_for_status,
    client_log, log, ret, raise, shop_request.
  simpl. destruct (send _ (world e)) as [[|status body] w']; simpl;
    [now repeat split|].
  change ((200 <=? status)%Z && (status <=? 299)%Z) with (success status).
  destruct (success status); simpl; [now repeat split|].
  destruct (status =? 401)%Z; now repeat split.
Qed.

Lemma warn_invalid_step (p : json) (e : env W) :
  exists e1,
    warn_invalid p e = (Ok tt, e1) /\
    trace e1 = trace e /\ world e1 = world e.
Proof.
  unfold warn_invalid.
  destruct (negb (isinstance_dict p) || _); eexists; now repeat split.
Qed.

Lemma warn_invalid_loop (l : list json) (e : env W) :
  let run := for_each l warn_invalid e in
  fst run = Ok tt /\ trace (snd run) = trace e /\ world (snd run) = world e.
Proof.
  revert e. induction l as [|p l IH]; intros e; simpl; [now repeat split|].
  unfold bind. destruct (warn_invalid_step p e) as (e1 & -> & Ht & Hw).
  rewrite <- Ht, <- Hw. apply IH.
Qed.

Ltac no_listing :=
  repeat split;
  [ discriminate
  | let Ha := fresh "Ha" in
    let Hp := fresh "Hp" in
    let Hn := fresh "Hn" in
    intros (? & ? & ? & Ha & ? & Hp & Hn);
    try discriminate Ha; inversion Ha; subst; congruence ].

(** X6.  [get_products] does not ask for the products when the
    credentials are not valid: if the shop request is not answered with a
    2xx status, the function raises [ValueError] and the shop request is the
    only request it has sent. *)
Theorem get_products_needs_valid_credentials (self : client) (limit : Z)
    (e : env W) :
  answers_ok (fst (send (shop_request self) (world e))) = false ->
  let run := get_products self limit e in
  fst run = Raise (ValueError ("Invalid credentials for store " ++ store_url self)) /\
  trace (snd run) = trace e ++ [shop_request self].
Proof.
  intros Hbad run. subst run. unfold get_products, try_except, bind.
  unfold client_log at 1. unfold log at 1. simpl.
  match goal with
  | |- context [validate_credentials self ?e0] =>
      destruct (validate_credentials_answer self e0) as (Hr & Ht & Hw);
      destruct (validate_credentials self e0) as [r e1]
  end.
  simpl in Hr, Ht, Hw. rewrite Hbad in Hr. subst r. simpl.
  unfold raise, client_log, log. simpl. split; [reflexivity | exact Ht].
Qed.

Lemma get_products_answer (self : client) (limit : Z) (e : env W) :
  answers_ok (fst (send (shop_request self) (world e))) = true ->
  let w1 := snd (send (shop_request self) (world e)) in
  let run := get_products self limit e in
  trace (snd run) = trace e ++ [shop_request self; products_request self limit] /\
  world (snd run) = snd (send (products_request self limit) w1) /\
  forall products,
    fst run = Ok products <->
    exists status d n,
      fst (send (products_request self limit) w1)
        = Response status (Some (JDict d)) /\
      success status = true /\
      dict_get d "products" = Some products /\
      py_len products = Ok n.
Proof.
  intros Hgood w1 run. subst run w1. unfold get_products, try_except, bind.
  unfold client_log at 1. unfold log at 1. simpl.
  match goal with
  | |- context [validate_credentials self ?e0] =>
      destruct (validate_credentials_answer self e0) as (Hr & Ht & Hw);
      destruct (validate_credentials self e0) as [r e1]
  end.
  simpl in Hr, Ht, Hw. rewrite Hgood in Hr. subst r. simpl.
  unfold http, raise_for_status, response_json, products_request.
  simpl. rewrite Hw, Ht, <- app_assoc. simpl.
  destruct (send _ (snd (send (shop_request self) (world e))))
    as [[|status body] w2]; simpl; [now no_listing|].
  change ((200 <=? status)%Z && (status <=? 299)%Z) with (success status).
  destruct (success status) eqn:E2; simpl;
    [|destruct (status =? 429)%Z; simpl; now no_listing].
  destruct body as [[|b|z|s|l0|d]|]; simpl; try now no_listing.
  destruct (dict_get d "products") as [products|] eqn:Ep; simpl;
    [|now no_listing].
  destruct (py_len products) as [n|x] eqn:El; simpl.
  2: { assert (Hx : x = TypeError)
         by (destruct products; try discriminate El; now injection El).
       subst x. simpl. now no_listing. }
  assert (Hi : exists l, py_iter products = Ok l)
    by (destruct products; try discriminate El; simpl; eauto).
  destruct Hi as [l ->]. unfold lift_res. simpl.
  match goal with
  | |- context [for_each l warn_invalid ?e2] =>
      destruct (warn_invalid_loop l e2) as (Hf & Hft & Hfw);
      destruct (for_each l warn_invalid e2) as [r2 e3]
  end.
  simpl in Hf, Hft, Hfw. subst r2. simpl. unfold ret. simpl.
  rewrite Hft, Hfw. simpl. repeat split.
  - intros [= <-]. exists status, d, n. now repeat split.
  - intros (st & d' & n' & [= <- <-] & _ & Hp & _). congruence.
Qed.

(** X7.  With valid credentials [get_products] sends the products request
    to the store as the shop request has left it, and returns a value
    exactly when the answer has a 2xx status and a JSON dictionary whose
    ["products"] has a length; what it returns is that value as it is,
    whatever its entries are. *)
Theorem get_products_returns_the_listing (self : client) (limit : Z)
    (e : env W) :
  answers_ok (fst (send (shop_request self) (world e))) = true ->
  let w1 := snd (send (shop_request self) (world e)) in
  let run := get_products self limit e in
  trace (snd run) = trace e ++ [shop_request self; products_request self limit] /\
  world (snd run) = snd (send (products_request self limit) w1) /\
  forall products,
    fst run = Ok products <->
    exists status d n,
      fst (send (products_request self limit) w1)
        = Response status (Some (JDict d)) /\
      success status = true /\
      dict_get d "products" = Some products /\
      py_len products = Ok n.
Proof. exact (get_products_answer self limit e). Qed.

End Listing.

(** ** The writes and the listing on the sample stores *)

Lemma create_product_returns_sample :
  let R := fixed (migration shirt_source refusing_dest) in
  let rq := create_request dest_shop sample_payload in
  let run := create_product dest_shop (sample_product, nothing_yet) in
  trace (snd (snd run)) = trace nothing_yet ++ [rq] /\
  fst run = Ok (JDict [("id", JNum 100); ("title", JStr "Shirt")]).
Proof.
  intros R rq run.
  destruct (create_product_returns (R:=R) dest_shop sample_product
              sample_payload nothing_yet eq_refl eq_refl)
    as (Ht & _ & Hr & _).
  split; [exact Ht|].
  apply Hr. exists 201%Z, [("product", JDict [("id", JNum 100); ("title", JStr "Shirt")])].
  repeat split; eexists; reflexivity.
Defined.

Lemma update_product_returns_sample :
  let R := fixed (migration shirt_source anonymous_dest) in
  let rq := update_request dest_shop (JNum 42) sample_payload in
  let run := update_product dest_shop (JNum 42) (sample_product, nothing_yet) in
  trace (snd (snd run)) = trace nothing_yet ++ [rq] /\
  fst run = Ok (JDict [("title", JStr "Shirt")]).
Proof.
  intros R rq run.
  destruct (update_product_returns (R:=R) dest_shop (JNum 42) sample_product
              sample_payload nothing_yet eq_refl eq_refl)
    as (Ht & _ & Hr & _).
  split; [exact Ht|].
  apply Hr. exists 200%Z, [("product", JDict [("title", JStr "Shirt")])].
  repeat split; eexists; reflexivity.
Defined.

Lemma unshaped_product_is_not_sent_sample :
  let R := fixed (migration shirt_source refusing_dest) in
  let created := create_product dest_shop (odd_product, nothing_yet) in
  let updated := update_product dest_shop (JNum 42) (odd_product, nothing_yet) in
  fst created = Raise TypeError /\
  trace (snd (snd created)) = [] /\
  fst updated = Raise TypeError /\
  trace (snd (snd updated)) = [].
Proof.
  intros R created updated.
  destruct (unshaped_product_is_not_sent (R:=R) dest_shop (JNum 42)
              odd_product TypeError nothing_yet eq_refl eq_refl)
    as (Hc & Hct & _ & Hu & Hut & _).
  repeat split; assumption.
Defined.

Lemma get_products_needs_valid_credentials_sample :
  let R := fixed (migration locked_store refusing_dest) in
  let run := get_products source_shop 250 nothing_yet in
  fst run = Raise (ValueError "Invalid credentials for store source.myshopify.com") /\
  trace (snd run) = [shop_request source_shop].
Proof.
  intros R run.
  exact (get_products_needs_valid_credentials (R:=R) source_shop 250
           nothing_yet eq_refl).
Defined.

Lemma get_products_returns_the_listing_sample :
  let R := fixed (migration shirt_source refusing_dest) in
  let run := get_products source_shop 250 nothing_yet in
  trace (snd run) = [shop_request source_shop; products_request source_shop 250] /\
  fst run = Ok (JList [shirt]).
Proof.
  intros R run.
  destruct (get_products_returns_the_listing (R:=R) source_shop 250
              nothing_yet eq_refl) as (Ht & _ & Hr).
  split; [exact Ht|].
  apply Hr. exists 200%Z, [("products", JList [shirt])], 1. repeat split.
Defined.

(** ** Looking a product up by its SKU *)

Lemma sku_among_true (vs : list json) (sku : json) :
  sku_among vs sku = Ok true ->
  exists v s, In v vs /\ py_get v "sku" JNull = Ok s /\ py_eq s sku = true.
Proof.
  induction vs as [|v vs IH]; simpl; [discriminate|].
  destruct (py_get v "sku" JNull) as [s|x] eqn:Es; simpl; [|discriminate].
  destruct (py_eq s sku) eqn:E.
  - intros _. exists v, s. auto.
  - intros H. destruct (IH H) as (v' & s' & Hin & Hs & He).
    exists v', s'. auto.
Qed.

Lemma sku_among_false (vs : list json) (sku : json) :
  sku_among vs sku = Ok false ->
  forall v, In v vs ->
    exists s, py_get v "sku" JNull = Ok s /\ py_eq s sku = false.
Proof.
  induction vs as [|v vs IH]; simpl; [contradiction|].
  destruct (py_get v "sku" JNull) as [s|x] eqn:Es; simpl; [|discriminate].
  destruct (py_eq s sku) eqn:E; [discriminate|].
  intros H v' [<-|Hin]; eauto.
Qed.

Lemma sku_among_dicts (vs : list json) (sku : json) :
  forallb isinstance_dict vs = true -> exists b, sku_among vs sku = Ok b.
Proof.
  induction vs as [|v vs IH]; simpl; [eauto|].
  intros H. apply andb_prop in H as [Hv Hvs].
  destruct (py_get_dict v "sku" JNull Hv) as [s ->]. simpl.
  destruct (py_eq s sku); eauto.
Qed.

Section Lookups.

Context {W : Type} {R : Remote W}.

Lemma first_with_sku_silent (self : client) (l : list json) (sku : json)
    (e : env W) :
  trace (snd (first_with_sku self l sku e)) = trace e /\
  world (snd (first_with_sku self l sku e)) = world e.
Proof.
  induction l as [|p l IH]; simpl; unfold bind, lift_res; simpl; [now split|].
  destruct (py_get p "variants" (JList [])) as [variants|x]; [|now split].
  destruct (py_iter variants) as [vs|x]; [|now split].
  destruct (sku_among vs sku) as [[|]|x]; [| exact IH | now split].
  destruct (py_getitem p "title") as [t|x]; now split.
Qed.

Lemma first_with_sku_finds (self : client) (l : list json) (sku : json)
    (e : env W) (found : option json) :
  fst (first_with_sku self l sku e) = Ok found ->
  first_such (fun p => carries_sku p sku) l found.
Proof.
  revert found.
  induction l as [|p l IH]; simpl; unfold bind, lift_res; simpl; intros found.
  - intros [= <-]. constructor.
  - destruct (py_get p "variants" (JList [])) as [variants|x] eqn:Ev;
      [|discriminate].
    destruct (py_iter variants) as [vs|x] eqn:Ei; [|discriminate].
    destruct (sku_among vs sku) as [[|]|x] eqn:Es; [| |discriminate].
    + destruct (py_getitem p "title") as [t|x]; [|discriminate].
      simpl. intros [= <-]. exists [], l. split; [reflexivity|].
      split; [|constructor].
      destruct (sku_among_true vs sku Es) as (v & s & Hin & Hs & He).
      exists variants, vs, v, s. auto.
    + intros H. specialize (IH found H).
      assert (Hp : ~ carries_sku p sku).
      { intros (variants' & vs' & v & s & Hv' & Hi' & Hin & Hs & He).
        assert (variants' = variants) by congruence. subst variants'.
        assert (vs' = vs) by congruence. subst vs'.
        destruct (sku_among_false vs sku Es v Hin) as (s' & Hs' & He').
        congruence. }
      destruct found as [q|]; simpl in *.
      * destruct IH as (before & after & -> & Hq & Hb).
        exists (p :: before), after. split; [reflexivity|]. split; auto.
      * constructor; auto.
Qed.

Lemma first_with_sku_returns (self : client) (l : list json) (sku : json)
    (e : env W) :
  forallb listed_product l = true ->
  forallb has_title l = true ->
  exists found, fst (first_with_sku self l sku e) = Ok found.
Proof.
  induction l as [|p l IH]; simpl; unfold bind, lift_res; simpl; [eauto|].
  intros Hl Ht. apply andb_prop in Hl as [Hp Hl]. apply andb_prop in Ht as [Hpt Ht].
  destruct p as [| | | | |d]; try discriminate. unfold py_get. simpl in *.
  apply andb_prop in Hp as [Hv _].
  unfold dict_has in Hpt.
  destruct (dict_get d "title") as [t|]; [|discriminate].
  destruct (dict_get d "variants") as [variants|]; simpl.
  - destruct variants as [| | | |vs|]; try discriminate. simpl in *.
    destruct (sku_among_dicts vs sku Hv) as [[|] ->]; simpl; eauto.
  - eauto.
Qed.

(** X8.  What [get_product_by_sku] returns is the first entry, in the
    order of the listing that [get_products] gives with a limit of 250, one
    of whose variants has a SKU equal to the one sought; it returns [None]
    only when no entry of that listing has such a variant.  The search
    itself sends nothing. *)
Theorem get_product_by_sku_finds_the_first (self : client) (sku : json)
    (e : env W) (found : option json) :
  let listing := get_products self 250 (searching self sku e) in
  let run := get_product_by_sku self sku e in
  fst run = Ok found ->
  trace (snd run) = trace (snd listing) /\
  world (snd run) = world (snd listing) /\
  exists products l,
    fst listing = Ok products /\
    py_iter products = Ok l /\
    first_such (fun p => carries_sku p sku) l found.
Proof.
  intros listing run. subst run listing.
  unfold get_product_by_sku, try_except, bind, client_log, log, searching.
  simpl.
  destruct (get_products self 250 _) as [[products|x] e1]; simpl;
    [|discriminate].
  unfold lift_res.
  destruct (py_iter products) as [l|x] eqn:Ei; simpl; [|discriminate].
  pose proof (first_with_sku_silent self l sku e1) as [Ht Hw].
  pose proof (first_with_sku_finds self l sku e1) as Hf.
  destruct (first_with_sku self l sku e1) as [[r|x] e2]; simpl in *;
    [|discriminate].
  intros [= <-]. repeat split; auto.
  exists products, l. auto.
Qed.

(** X9.  [get_product_by_sku] raises what the listing raises, having sent
    what the listing sent; and it does return, a product or [None], when
    the listing is a list of product dictionaries with a title whose
    variants and images are lists of dictionaries. *)
Theorem get_product_by_sku_fails_with_the_listing (self : client) (sku : json)
    (e : env W) :
  let listing := get_products self 250 (searching self sku e) in
  let run := get_product_by_sku self sku e in
  (forall x, fst listing = Raise x ->
     fst run = Raise x /\
     trace (snd run) = trace (snd listing) /\
     world (snd run) = world (snd listing)) /\
  (forall l, fst listing = Ok (JList l) ->
     forallb listed_product l = true ->
     forallb has_title l = true ->
     exists found, fst run = Ok found).
Proof.
  intros listing run. subst run listing.
  unfold get_product_by_sku, try_except, bind, client_log, log, searching.
  simpl.
  destruct (get_products self 250 _) as [[products|x] e1]; simpl; split.
  - discriminate.
  - intros l [= ->] Hl Ht. unfold lift_res. simpl.
    destruct (first_with_sku_returns self l sku e1 Hl Ht) as [found Hf].
    destruct (first_with_sku self l sku e1) as [[r|y] e2]; simpl in *;
      [eauto | discriminate].
  - intros y [= <-]. unfold raise. simpl. now repeat split.
  - discriminate.
Qed.

End Lookups.

Lemma get_product_by_sku_finds_the_first_sample :
  let R := fixed (migration shirt_source accepting_dest) in
  exists products l,
    fst (get_products dest_shop 250
           (searching dest_shop (JStr "SKU-1") nothing_yet)) = Ok products /\
    py_iter products = Ok l /\
    first_such (fun p => carries_sku p (JStr "SKU-1")) l (Some shirt_at_dest).
Proof.
  intros R.
  apply (get_product_by_sku_finds_the_first (R:=R) dest_shop (JStr "SKU-1")
           nothing_yet (Some shirt_at_dest) eq_refl).
Defined.

Lemma get_product_by_sku_fails_with_the_listing_sample :
  fst (get_product_by_sku (R := fixed (migration shirt_source locked_store))
         dest_shop (JStr "SKU-1") nothing_yet)
    = Raise (ValueError "Invalid credentials for store dest.myshopify.com") /\
  exists found,
    fst (get_product_by_sku (R := fixed (migration shirt_source accepting_dest))
           dest_shop (JStr "SKU-1") nothing_yet) = Ok found.
Proof.
  split.
  - apply (get_product_by_sku_fails_with_the_listing
             (R := fixed (migration shirt_source locked_store))
             dest_shop (JStr "SKU-1") nothing_yet).
    reflexivity.
  - apply (get_product_by_sku_fails_with_the_listing
             (R := fixed (migration shirt_source accepting_dest))
             dest_shop (JStr "SKU-1") nothing_yet) with (l := [shirt_at_dest]);
      reflexivity.
Defined.

(** ** The collections *)

Lemma py_eq_string (t : json) (s : string) :
  py_eq t (JStr s) = true <-> t = JStr s.
Proof.
  destruct t; simpl; split; try discriminate.
  - intros H. apply String.eqb_eq in H. now subst.
  - intros [= ->]. apply String.eqb_refl.
Qed.

Lemma first_with_title_finds (l : list json) (title : json)
    (found : option json) :
  first_with_title l title = Ok found ->
  first_such (fun c => titled c title) l found.
Proof.
  revert found. induction l as [|c l IH]; simpl; intros found.
  - intros [= <-]. constructor.
  - destruct (py_get c "title" JNull) as [t|x] eqn:Et; simpl; [|discriminate].
    destruct (py_eq t title) eqn:E.
    + intros [= <-]. exists [], l. split; [reflexivity|].
      split; [|constructor]. exists t. auto.
    + intros H. specialize (IH found H).
      assert (Hc : ~ titled c title)
        by (intros (t' & Ht' & He'); congruence).
      destruct found as [q|]; simpl in *.
      * destruct IH as (before & after & -> & Hq & Hb).
        exists (c :: before), after. split; [reflexivity|]. split; auto.
      * constructor; auto.
Qed.

Section Collections.

Context {W : Type} {R : Remote W}.

Ltac after_validation self e :=
  let Hr := fresh "Hr" in
  let r := fresh "r" in
  destruct (validate_credentials_answer self e) as (Hr & Ht & Hw);
  destruct (validate_credentials self e) as [r e1];
  simpl in Hr, Ht, Hw; subst r; simpl.

Lemma create_collection_answer (self : client) (title description : json)
    (e : env W) :
  let w1 := snd (send (shop_request self) (world e)) in
  let rq := collection_post self title description in
  let run := create_collection self title description e in
  trace (snd run) = trace e ++ [shop_request self; rq] /\
  world (snd run) = snd (send rq w1) /\
  fst run = field_of_answer "custom_collection"
              "Invalid response format for collection creation"
              (fst (send rq w1)).
Proof.
  intros w1 rq run. subst run rq w1.
  unfold create_collection, try_except, bind.
  after_validation self e.
  unfold http, raise_for_status, response_json, collection_handlers,
    collection_post, client_log, log, raise, ret.
  simpl. rewrite Hw, Ht, <- app_assoc. simpl.
  destruct (send _ (snd (send (shop_request self) (world e))))
    as [[|status body] w2]; simpl; [now repeat split|].
  change ((200 <=? status)%Z && (status <=? 299)%Z) with (success status).
  destruct (success status); simpl; [|now repeat split].
  destruct body as [[| | | | |d]|]; simpl; try now repeat split.
  destruct (dict_get d "custom_collection"); simpl; now repeat split.
Qed.

Lemma add_product_to_collection_answer (self : client)
    (product_id collection_id : json) (e : env W) :
  let w1 := snd (send (shop_request self) (world e)) in
  let rq := collect_post self product_id collection_id in
  let run := add_product_to_collection self product_id collection_id e in
  trace (snd run) = trace e ++ [shop_request self; rq] /\
  world (snd run) = snd (send rq w1) /\
  fst run = field_of_answer "collect"
              "Invalid response format for collect creation"
              (fst (send rq w1)).
Proof.
  intros w1 rq run. subst run rq w1.
  unfold add_product_to_collection, try_except, bind.
  after_validation self e.
  unfold http, raise_for_status, response_json, collection_handlers,
    collect_post, client_log, log, raise, ret.
  simpl. rewrite Hw, Ht, <- app_assoc. simpl.
  destruct (send _ (snd (send (shop_request self) (world e))))
    as [[|status body] w2]; simpl; [now repeat split|].
  change ((200 <=? status)%Z && (status <=? 299)%Z) with (success status).
  destruct (success status); simpl; [|now repeat split].
  destruct body as [[| | | | |d]|]; simpl; try now repeat split.
  destruct (dict_get d "collect"); simpl; now repeat split.
Qed.

(** X10.  [create_collection] and [add_product_to_collection] do not use
    the outcome of the credentials check: whatever the store answers to the
    shop request, the POST is sent next, and the call returns the
    ["custom_collection"] (the ["collect"]) of a 2xx JSON answer and raises
    otherwise what the answer amounts to, as the handlers raise again what
    they log. *)
Theorem collection_writes_ignore_the_credentials_check (self : client)
    (e : env W) :
  let w1 := snd (send (shop_request self) (world e)) in
  (forall title description,
     let rq := collection_post self title description in
     let run := create_collection self title description e in
     trace (snd run) = trace e ++ [shop_request self; rq] /\
     world (snd run) = snd (send rq w1) /\
     fst run = field_of_answer "custom_collection"
                 "Invalid response format for collection creation"
                 (fst (send rq w1))) /\
  (forall product_id collection_id,
     let rq := collect_post self product_id collection_id in
     let run := add_product_to_collection self product_id collection_id e in
     trace (snd run) = trace e ++ [shop_request self; rq] /\
     world (snd run) = snd (send rq w1) /\
     fst run = field_of_answer "collect"
                 "Invalid response format for collect creation"
                 (fst (send rq w1))).
Proof.
  split; intros.
  - apply create_collection_answer.
  - apply add_product_to_collection_answer.
Qed.

Lemma get_collections_answer (self : client) (e : env W) :
  let w1 := snd (send (shop_request self) (world e)) in
  let rq := collections_request self in
  let run := get_collections self e in
  trace (snd run) = trace e ++ [shop_request self; rq] /\
  world (snd run) = snd (send rq w1) /\
  fst run =
    (v <~ field_of_answer "custom_collections"
            "Invalid response format for collections" (fst (send rq w1)) ;;
     _ <~ py_len v ;;
     Ok v)%res.
Proof.
  intros w1 rq run. subst run rq w1.
  unfold get_collections, try_except, bind.
  after_validation self e.
  unfold http, raise_for_status, response_json, collection_handlers,
    collections_request, client_log, log, raise, ret, lift_res.
  simpl. rewrite Hw, Ht, <- app_assoc. simpl.
  destruct (send _ (snd (send (shop_request self) (world e))))
    as [[|status body] w2]; simpl; [now repeat split|].
  change ((200 <=? status)%Z && (status <=? 299)%Z) with (success status).
  destruct (success status); simpl; [|now repeat split].
  destruct body as [[| | | | |d]|]; simpl; try now repeat split.
  destruct (dict_get d "custom_collections") as [v|]; simpl;
    [|now repeat split].
  destruct (py_len v) as [n|x]; simpl; [now repeat split|].
  destruct (is_HTTPStatusError x); now repeat split.
Qed.

(** X11.  [get_collections] does not use the outcome of the credentials
    check either: it sends the shop request and then asks for the custom
    collections, and returns the ["custom_collections"] of a 2xx JSON
    answer, as it is, when that value has a length. *)
Theorem get_collections_returns_the_listing (self : client) (e : env W) :
  let w1 := snd (send (shop_request self) (world e)) in
  let rq := collections_request self in
  let run := get_collections self e in
  trace (snd run) = trace e ++ [shop_request self; rq] /\
  world (snd run) = snd (send rq w1) /\
  fst run =
    (v <~ field_of_answer "custom_collections"
            "Invalid response format for collections" (fst (send rq w1)) ;;
     _ <~ py_len v ;;
     Ok v)%res.
Proof. exact (get_collections_answer self e). Qed.

(** X12.  What [get_collection_by_title] returns is the first entry of the
    listing of [get_collections] whose title equals the one sought, and
    [None] only when no entry has that title; for a string the match is
    exact.  The search sends and logs nothing of its own. *)
Theorem get_collection_by_title_finds_the_first (self : client) (title : json)
    (e : env W) (found : option json) :
  let listing := get_collections self e in
  let run := get_collection_by_title self title e in
  fst run = Ok found ->
  snd run = snd listing /\
  (exists collections l,
     fst listing = Ok collections /\
     py_iter collections = Ok l /\
     first_such (fun c => titled c title) l found) /\
  (forall s c, title = JStr s -> found = Some c ->
     py_get c "title" JNull = Ok (JStr s)).
Proof.
  intros listing run. subst run listing.
  unfold get_collection_by_title, try_except, bind, lift_res.
  destruct (get_collections self e) as [[collections|x] e1]; simpl;
    [|discriminate].
  destruct (py_iter collections) as [l|x] eqn:Ei; simpl; [|discriminate].
  destruct (first_with_title l title) as [r|x] eqn:Ef; simpl; [|discriminate].
  intros [= <-]. pose proof (first_with_title_finds l title r Ef) as Hf.
  split; [reflexivity|]. split; [exists collections, l; auto|].
  intros s c -> ->. simpl in Hf.
  destruct Hf as (before & after & _ & (t & Ht' & He) & _).
  apply py_eq_string in He. now subst t.
Qed.

Lemma collections_of_asks (self : client) (product_id : json)
    (l : list json) (e : env W) (cs : list json) :
  fst (collections_of self product_id l e) = Ok cs ->
  exists ids,
    Forall2 (fun c i => py_getitem c "id" = Ok i) l ids /\
    trace (snd (collections_of self product_id l e))
      = trace e ++ map (collects_request self product_id) ids /\
    sublist cs l.
Proof.
  revert e cs. induction l as [|c l IH]; intros e cs.
  - simpl. intros [= <-]. exists []. rewrite app_nil_r.
    repeat split; constructor.
  - simpl. unfold bind, lift_res, http, raise_for_status, response_json, ret, raise.
    destruct (py_getitem c "id") as [collection_id|x] eqn:Ei; [|discriminate].
    simpl. destruct (send _ (world e)) as [[|status body] w']; simpl;
      [discriminate|].
    destruct ((200 <=? status)%Z && (status <=? 299)%Z); simpl; [|discriminate].
    destruct body as [data|]; simpl; [|discriminate].
    match goal with
    | |- context [collections_of self product_id l ?e1] =>
        specialize (IH e1); destruct (collections_of self product_id l e1)
          as [[rest|x] e2]
    end; simpl; [|discriminate].
    destruct (IH rest eq_refl) as (ids & Hids & Ht & Hs). simpl in Ht.
    intros [= <-]. exists (collection_id :: ids).
    split; [constructor; auto|]. split.
    + rewrite Ht, <- app_assoc. reflexivity.
    + destruct (match data with JDict _ => _ | _ => false end);
        now constructor.
Qed.

(** X13.  When [get_product_collections] returns, it has sent the shop
    request twice (its own check and that of [get_collections]), the
    request for the custom collections, and then one collect lookup for
    each collection of the listing, in order; what it returns is that
    listing with some entries left out. *)
Theorem get_product_collections_asks_per_collection (self : client)
    (product_id : json) (e : env W) (cs : list json) :
  let run := get_product_collections self product_id e in
  fst run = Ok cs ->
  exists collections l ids,
    fst (get_collections self (snd (validate_credentials self e)))
      = Ok collections /\
    py_iter collections = Ok l /\
    Forall2 (fun c i => py_getitem c "id" = Ok i) l ids /\
    trace (snd run)
      = trace e ++ [shop_request self; shop_request self;
                    collections_request self]
          ++ map (collects_request self product_id) ids /\
    sublist cs l.
Proof.
  intros run. subst run.
  unfold get_product_collections, try_except, bind, lift_res.
  after_validation self e.
  destruct (get_collections_answer self e1) as (Ht2 & _ & _).
  destruct (get_collections self e1) as [[collections|x] e2]; simpl in *;
    [|unfold collection_handlers; destruct (is_HTTPStatusError x); discriminate].
  destruct (py_iter collections) as [l|x] eqn:Ei; simpl;
    [|unfold collection_handlers; destruct (is_HTTPStatusError x); discriminate].
  pose proof (collections_of_asks self product_id l e2) as H.
  destruct (collections_of self product_id l e2) as [[pcs|x] e3]; simpl in *;
    [|unfold collection_handlers; destruct (is_HTTPStatusError x); discriminate].
  intros [= <-]. destruct (H pcs eq_refl) as (ids & Hids & Ht3 & Hs).
  exists collections, l, ids. repeat split; auto.
  rewrite Ht3, Ht2, Ht, <- !app_assoc. reflexivity.
Qed.

End Collections.

Lemma get_collection_by_title_finds_the_first_sample :
  let R := fixed (migration shirt_source accepting_dest) in
  let winter_at_dest := JDict [("id", JNum 80); ("title", JStr "Winter")] in
  (exists collections l,
     fst (get_collections dest_shop nothing_yet) = Ok collections /\
     py_iter collections = Ok l /\
     first_such (fun c => titled c (JStr "Winter")) l (Some winter_at_dest)) /\
  py_get winter_at_dest "title" JNull = Ok (JStr "Winter").
Proof.
  intros R winter_at_dest.
  destruct (get_collection_by_title_finds_the_first (R:=R) dest_shop
              (JStr "Winter") nothing_yet (Some winter_at_dest) eq_refl)
    as (_ & Hf & H).
  split; [exact Hf | exact (H "Winter" _ eq_refl eq_refl)].
Defined.

Lemma get_product_collections_asks_per_collection_sample :
  let R := fixed (migration shirt_source accepting_dest) in
  exists collections l ids,
    fst (get_collections source_shop
           (snd (validate_credentials source_shop nothing_yet)))
      = Ok collections /\
    py_iter collections = Ok l /\
    Forall2 (fun c i => py_getitem c "id" = Ok i) l ids /\
    trace (snd (get_product_collections source_shop (JNum 1) nothing_yet))
      = trace nothing_yet
          ++ [shop_request source_shop; shop_request source_shop;
              collections_request source_shop]
          ++ map (collects_request source_shop (JNum 1)) ids /\
    sublist [summer] l.
Proof.
  intros R.
  exact (get_product_collections_asks_per_collection (R:=R) source_shop
           (JNum 1) nothing_yet [summer] eq_refl).
Defined.

(** ** The payload, again *)

Lemma dict_pop_absent (d : dict) (k : string) :
  dict_get d k = None -> dict_pop d k = d.
Proof.
  unfold dict_pop. induction d as [|[k' v] d IH]; simpl; [reflexivity|].
  destruct (String.eqb k' k); simpl; [discriminate|].
  intros H. now rewrite IH.
Qed.

Lemma pop_all_absent (ks : list string) (d : dict) :
  (forall k, In k ks -> dict_get d k = None) -> fold_left dict_pop ks d = d.
Proof.
  induction ks as [|k ks IH]; simpl; intros H; [reflexivity|].
  rewrite dict_pop_absent by auto. auto.
Qed.

Lemma dict_get_pop_other (d : dict) (k k' : string) :
  k <> k' -> dict_get (dict_pop d k') k = dict_get d k.
Proof.
  intros Hne. unfold dict_pop.
  rewrite (dict_get_filter (fun x => negb (String.eqb x k'))).
  destruct (String.eqb_spec k k'); [contradiction | reflexivity].
Qed.

Lemma dict_get_pop_all_other (ks : list string) (d : dict) (k : string) :
  ~ In k ks -> dict_get (fold_left dict_pop ks d) k = dict_get d k.
Proof.
  revert d. induction ks as [|k0 ks IH]; simpl; intros d Hn; [reflexivity|].
  rewrite IH by tauto. apply dict_get_pop_other. intros ->. tauto.
Qed.

Lemma dict_setitem_same_value (d : dict) (k : string) (v : json) :
  dict_get d k = Some v -> dict_setitem d k v = d.
Proof.
  induction d as [|[k' v'] d IH]; simpl; [discriminate|].
  destruct (String.eqb_spec k' k) as [->|Hne].
  - now intros [= ->].
  - intros H. now rewrite IH.
Qed.

Lemma filter_all {A} (f : A -> bool) (l : list A) :
  (forall x, In x l -> f x = true) -> filter f l = l.
Proof.
  induction l as [|x l IH]; simpl; intros H; [reflexivity|].
  rewrite (H x) by auto. now rewrite IH by auto.
Qed.

Lemma strip_variant_fixed (v v' : json) :
  strip_variant v = Ok v' -> strip_variant v' = Ok v'.
Proof.
  destruct v; try discriminate. intros [= <-].
  unfold strip_variant. do 2 f_equal. apply pop_all_absent.
  intros k Hk. exact (dict_get_pop_all keys_to_remove d k Hk).
Qed.

Lemma strip_variants_fixed (vs vs' : list json) :
  strip_variants vs = (vs', Ok tt) -> strip_variants vs' = (vs', Ok tt).
Proof.
  revert vs'. induction vs as [|v vs IH]; simpl; intros vs'.
  - now intros [= <-].
  - destruct (strip_variant v) as [v1|] eqn:Ev; [|discriminate].
    destruct (strip_variants vs) as [rest r] eqn:Er.
    intros [= <- ->]. simpl.
    rewrite (strip_variant_fixed v v1 Ev). now rewrite (IH rest eq_refl).
Qed.

Lemma strip_variants_map (vs vs' : list json) :
  strip_variants vs = (vs', Ok tt) -> vs' = map pop_keys vs.
Proof.
  revert vs'. induction vs as [|v vs IH]; simpl; intros vs'.
  - now intros [= <-].
  - destruct (strip_variant v) as [v1|] eqn:Ev; [|discriminate].
    destruct (strip_variants vs) as [rest r] eqn:Er.
    intros [= <- ->]. rewrite (IH rest eq_refl). f_equal.
    destruct v; try discriminate Ev. now injection Ev as <-.
Qed.

Lemma clean_variants_fixed (vs vs' : json) :
  clean_variants vs = (vs', Ok tt) -> clean_variants vs' = (vs', Ok tt).
Proof.
  unfold clean_variants.
  destruct vs as [| | |s|l|d]; simpl; try discriminate.
  - intros H. injection H as <- Hr. simpl. now rewrite Hr.
  - destruct (strip_variants l) as [l' r] eqn:El.
    intros [= <- ->]. simpl. now rewrite (strip_variants_fixed l l' El).
  - intros H. injection H as <- Hr. simpl. now rewrite Hr.
Qed.

Lemma clean_image_fixed (i : json) :
  src_and_alt i -> clean_image i = Ok (Some i).
Proof. intros (src & alt & ->). reflexivity. Qed.

Lemma clean_image_list_fixed (l : list json) :
  Forall src_and_alt l -> clean_image_list l = Ok l.
Proof.
  induction 1 as [|i l Hi Hl IH]; simpl; [reflexivity|].
  rewrite (clean_image_fixed i Hi). simpl. now rewrite IH.
Qed.

Lemma clean_images_fixed (images cleaned : json) :
  clean_images images = Ok cleaned -> clean_images cleaned = Ok cleaned.
Proof.
  unfold clean_images.
  destruct (py_len images); simpl; [|discriminate].
  destruct (py_iter images) as [l|]; simpl; [|discriminate].
  destruct (clean_image_list l) as [c|] eqn:Ec; simpl; [|discriminate].
  intros [= <-]. simpl.
  now rewrite (clean_image_list_fixed c (clean_image_list_src_and_alt l c Ec)).
Qed.

Lemma clean_image_list_map (l cleaned : list json) :
  clean_image_list l = Ok cleaned ->
  cleaned = map src_alt_of (filter has_src l).
Proof.
  revert cleaned. induction l as [|image rest IH]; simpl; intros cleaned.
  - now intros [= <-].
  - unfold clean_image, has_src, src_alt_of.
    destruct (py_contains image "src") as [[|]|]; simpl; try discriminate.
    + destruct (py_getitem image "src") as [src|]; simpl; [|discriminate].
      destruct (py_get image "alt" (JStr "")) as [alt|]; simpl; [|discriminate].
      destruct (clean_image_list rest) as [rest'|]; simpl; [|discriminate].
      intros [= <-]. now rewrite (IH rest' eq_refl).
    + destruct (clean_image_list rest) as [rest'|]; simpl; [|discriminate].
      intros [= <-]. now rewrite (IH rest' eq_refl).
Qed.

Lemma replace_images_settled (cleaned_data : dict) (payload : json) :
  (forall k, In k (dict_keys cleaned_data) -> In k allowed_fields) ->
  (forall vs, dict_get cleaned_data "variants" = Some vs ->
     clean_variants vs = (vs, Ok tt)) ->
  replace_images cleaned_data = Ok payload ->
  exists d, payload = JDict d /\ settled d.
Proof.
  intros Hkeys Hvs. unfold replace_images.
  destruct (dict_get cleaned_data "images") as [images|] eqn:Ei.
  - destruct (clean_images images) as [cleaned|] eqn:Ec; simpl; [|discriminate].
    intros [= <-]. eexists; split; [reflexivity|]. repeat split.
    + erewrite dict_keys_setitem_present by eassumption. exact Hkeys.
    + intros vs. rewrite dict_get_setitem_other by discriminate. apply Hvs.
    + intros images'. rewrite dict_get_setitem_same. intros [= <-].
      eauto using clean_images_fixed.
  - intros [= <-]. eexists; split; [reflexivity|]. repeat split; auto.
    intros images. rewrite Ei. discriminate.
Qed.

Lemma prepare_settled (product_data payload : json) :
  snd (_prepare_product_data product_data) = Ok payload ->
  exists d, payload = JDict d /\ settled d.
Proof.
  destruct product_data as [| | | | |pd]; simpl; try discriminate.
  set (cleaned := filter (fun kv => is_allowed (fst kv)) pd).
  destruct (dict_get cleaned "variants") as [vs|] eqn:Ev.
  - destruct (clean_variants vs) as [vs' r] eqn:Ec. simpl.
    destruct r as [[]|]; simpl; [|discriminate].
    apply replace_images_settled.
    + intros k. erewrite dict_keys_setitem_present by eassumption.
      apply filter_allowed_keys.
    + intros vs0. rewrite dict_get_setitem_same. intros [= <-].
      eauto using clean_variants_fixed.
  - simpl. apply replace_images_settled.
    + apply filter_allowed_keys.
    + intros vs. rewrite Ev. discriminate.
Qed.

Lemma settled_is_fixed (d : dict) :
  settled d -> _prepare_product_data (JDict d) = (JDict d, Ok (JDict d)).
Proof.
  intros (Hkeys & Hvs & Him). simpl.
  assert (Hf : filter (fun kv => is_allowed (fst kv)) d = d).
  { apply filter_all. intros [k v] Hin. apply is_allowed_In, Hkeys.
    unfold dict_keys. apply in_map_iff. exists (k, v). auto. }
  rewrite Hf.
  assert (Hr : replace_images d = Ok (JDict d)).
  { unfold replace_images.
    destruct (dict_get d "images") as [images|] eqn:Ei; [|reflexivity].
    rewrite (Him images eq_refl). simpl.
    now rewrite (dict_setitem_same_value d "images" images Ei). }
  destruct (dict_get d "variants") as [vs|] eqn:Ev.
  - rewrite (Hvs vs eq_refl). simpl.
    rewrite (dict_setitem_same_value d "variants" vs Ev). now rewrite Hr.
  - now rewrite Hr.
Qed.

(** X14.  [_prepare_product_data] is idempotent: shaping a payload that it
    has returned gives that payload again and leaves it as it is. *)
Theorem prepare_is_idempotent (product_data payload : json) :
  snd (_prepare_product_data product_data) = Ok payload ->
  _prepare_product_data payload = (payload, Ok payload).
Proof.
  intros H. destruct (prepare_settled product_data payload H) as (d & -> & Hd).
  now apply settled_is_fixed.
Qed.

Lemma prepare_is_idempotent_sample :
  _prepare_product_data sample_payload = (sample_payload, Ok sample_payload).
Proof. exact (prepare_is_idempotent sample_product sample_payload eq_refl). Defined.

Lemma replace_images_keeps (cleaned_data payload : dict) (k : string) :
  replace_images cleaned_data = Ok (JDict payload) ->
  k <> "images" -> dict_get payload k = dict_get cleaned_data k.
Proof.
  unfold replace_images. intros H Hk.
  destruct (dict_get cleaned_data "images") as [images|].
  - destruct (clean_images images) as [cleaned|]; simpl in H; [|discriminate].
    injection H as <-. apply dict_get_setitem_other. congruence.
  - now injection H as <-.
Qed.

(** X15.  The payload keeps every allow-listed field other than the
    variants and the images with the value the product has for it; its
    variants, when the product has a list of them, are that list with each
    variant stripped of the removed keys, and a variant keeps the value of
    every other key. *)
Theorem payload_keeps_the_allowed_fields (pd payload : dict) :
  snd (_prepare_product_data (JDict pd)) = Ok (JDict payload) ->
  (forall k, In k allowed_fields -> k <> "variants" -> k <> "images" ->
     dict_get payload k = dict_get pd k) /\
  (forall vs, dict_get pd "variants" = Some (JList vs) ->
     dict_get payload "variants" = Some (JList (map pop_keys vs))) /\
  (forall d k, ~ In k keys_to_remove ->
     exists d', pop_keys (JDict d) = JDict d' /\
                dict_get d' k = dict_get d k).
Proof.
  simpl. set (cleaned := filter (fun kv => is_allowed (fst kv)) pd).
  assert (Hc : forall k, In k allowed_fields ->
                 dict_get cleaned k = dict_get pd k).
  { intros k Hk. unfold cleaned. rewrite (dict_get_filter is_allowed pd k).
    apply is_allowed_In in Hk. now rewrite Hk. }
  intros H. repeat split.
  - intros k Hk Hv Hi. rewrite <- (Hc k Hk).
    destruct (dict_get cleaned "variants") as [vs|] eqn:Ev.
    + destruct (clean_variants vs) as [vs' r]. simpl in H.
      destruct r as [[]|]; simpl in H; [|discriminate].
      rewrite (replace_images_keeps _ _ k H Hi).
      apply dict_get_setitem_other. congruence.
    + simpl in H. exact (replace_images_keeps _ _ k H Hi).
  - intros vs Hvs.
    rewrite <- (Hc "variants") in Hvs by (simpl; tauto). rewrite Hvs in H.
    unfold clean_variants in H. simpl in H.
    destruct (strip_variants vs) as [vs' r] eqn:Es. simpl in H.
    destruct r as [[]|]; simpl in H; [|discriminate].
    rewrite (replace_images_keeps _ _ "variants" H) by discriminate.
    rewrite dict_get_setitem_same.
    now rewrite (strip_variants_map vs vs' Es).
  - intros d k Hk. eexists; split; [reflexivity|].
    exact (dict_get_pop_all_other keys_to_remove d k Hk).
Qed.

(** X16.  The images of the payload, when the product has a list of them,
    are the images that have a source, in their order, each reduced to its
    source and its alt text, the empty string when it has none. *)
Theorem payload_images_are_the_sourced_ones (pd payload : dict)
    (images : list json) :
  snd (_prepare_product_data (JDict pd)) = Ok (JDict payload) ->
  dict_get pd "images" = Some (JList images) ->
  dict_get payload "images"
    = Some (JList (map src_alt_of (filter has_src images))).
Proof.
  simpl. set (cleaned := filter (fun kv => is_allowed (fst kv)) pd).
  intros H Hi.
  assert (Hc : dict_get cleaned "images" = Some (JList images)).
  { unfold cleaned. rewrite (dict_get_filter is_allowed pd "images").
    exact Hi. }
  assert (Hr : forall d, dict_get d "images" = Some (JList images) ->
                 replace_images d = Ok (JDict payload) ->
                 dict_get payload "images"
                 = Some (JList (map src_alt_of (filter has_src images)))).
  { intros d Hd. unfold replace_images, clean_images. rewrite Hd. simpl.
    destruct (clean_image_list images) as [c|] eqn:Ec; simpl; [|discriminate].
    intros [= <-]. rewrite dict_get_setitem_same.
    now rewrite (clean_image_list_map images c Ec). }
  destruct (dict_get cleaned "variants") as [vs|] eqn:Ev.
  - destruct (clean_variants vs) as [vs' r]. simpl in H.
    destruct r as [[]|]; simpl in H; [|discriminate].
    apply (Hr (dict_setitem cleaned "variants" vs')); [|exact H].
    rewrite dict_get_setitem_other by discriminate. exact Hc.
  - simpl in H. exact (Hr cleaned Hc H).
Qed.

Lemma payload_keeps_the_allowed_fields_sample :
  dict_get sample_payload_fields "vendor" = Some (JStr "Test Vendor") /\
  dict_get sample_payload_fields "variants"
    = Some (JList (map pop_keys sample_variants)).
Proof.
  destruct (payload_keeps_the_allowed_fields sample_fields
              sample_payload_fields eq_refl) as (Hk & Hv & _).
  split.
  - rewrite (Hk "vendor"); [reflexivity | simpl; tauto | discriminate
                            | discriminate].
  - exact (Hv sample_variants eq_refl).
Defined.

Lemma payload_images_are_the_sourced_ones_sample :
  dict_get sample_payload_fields "images"
    = Some (JList [JDict [("src", JStr "https://test.com/image1.jpg");
                          ("alt", JStr "Test Image 1")];
                   JDict [("src", JStr "https://test.com/image2.jpg");
                          ("alt", JStr "Test Image 2")]]).
Proof.
  exact (payload_images_are_the_sourced_ones sample_fields
           sample_payload_fields _ eq_refl eq_refl).
Defined.

(** * Further properties of the migration *)

(** ** The source store is only read *)

Section SourceIsRead.

Context {W : Type} {R : Remote W}.
Variables source_client dest_client : client.

Lemma from_source {A} (m : M (env W) A) :
  effects (reads_from source_client) of_client m ->
  effects (of_migration source_client dest_client) any_record m.
Proof.
  apply effects_weaken; [|now intros]. intros rq H. now left.
Qed.

Lemma to_dest_read {A} (m : M (env W) A) :
  effects (reads_from dest_client) of_client m ->
  effects (of_migration source_client dest_client) any_record m.
Proof.
  apply effects_weaken; [|now intros]. intros rq [H _]. now right.
Qed.

Lemma to_dest {S} {H : HasEnv (W:=W) S} {A} (mth : http_method)
    (ep : endpoint) (m : M S A) :
  effects (reads_or dest_client mth ep) of_client m ->
  effects (of_migration source_client dest_client) any_record m.
Proof.
  apply effects_weaken; [|now intros]. intros rq [Hs _]. now right.
Qed.

Ltac client_calls :=
  first [ apply from_source, get_product_collections_own
        | apply from_source, get_products_own
        | apply to_dest_read, get_product_by_sku_own
        | apply to_dest_read, get_collection_by_title_own
        | eapply to_dest, create_product_own
        | eapply to_dest, update_product_own
        | eapply to_dest, create_collection_own
        | eapply to_dest, add_product_to_collection_own
        | exact I ].

Ltac orchestrator_effects := effects_auto; try client_calls.

Lemma migrate_product_of_migration (p : json) :
  effects (of_migration source_client dest_client) any_record
    (migrate_product (W:=W) source_client dest_client p).
Proof.
  unfold migrate_product, fetch_source_collections, write_product,
    update_existing, create_new, record_collections, skip_product,
    product_title.
  orchestrator_effects.
Qed.

Lemma migrate_collection_of_migration (product_id collection : json) :
  effects (of_migration source_client dest_client) any_record
    (migrate_collection (W:=W) dest_client product_id collection).
Proof.
  unfold migrate_collection, find_or_create, associate.
  orchestrator_effects.
Qed.

(** X17.  A migration only reads the source store: every request that
    [migrate_products] sends is a GET to the source store or a request to
    the destination store, whatever the stores answer. *)
Theorem migration_only_reads_the_source :
  effects (of_migration source_client dest_client) any_record
    (migrate_products (W:=W) source_client dest_client).
Proof.
  pose proof migrate_product_of_migration as Hp.
  pose proof migrate_collection_of_migration as Hc.
  unfold migrate_products, migrate_listed, migrate_collections, report.
  orchestrator_effects.
Qed.

End SourceIsRead.

(** ** The steps of an iteration *)

Section Iteration.

Context {W : Type} {R : Remote W}.

(** X18.  When the listing of the source products fails, the migration
    stops there: [migrate_products] logs the failure and raises the same
    exception, the local variables are as before, and nothing has been sent
    after the requests of the listing. *)
Theorem listing_failure_stops_the_migration (source_client dest_client : client)
    (l : locals) (e : env W) (x : exn) :
  let listing := get_products source_client 250 (started e) in
  fst listing = Raise x ->
  let run := migrate_products source_client dest_client (l, e) in
  fst run = Raise x /\
  fst (snd run) = l /\
  trace (snd (snd run)) = trace (snd listing) /\
  world (snd (snd run)) = world (snd listing) /\
  logs (snd (snd run))
    = logs (snd listing)
        ++ [mkLog shopify_migration ERROR "Migration failed: {}" [AExn x]].
Proof.
  intros listing Hx run. subst run listing. unfold started in *.
  unfold migrate_products, try_except, bind, migration_log, call, log.
  simpl.
  destruct (get_products source_client 250 _) as [[products|y] e1];
    simpl in *; [discriminate|].
  injection Hx as ->. now repeat split.
Qed.

Lemma create_product_posts (self : client) :
  effects (is_create_at self) of_client (create_product (W:=W) self).
Proof.
  intros [product_data e]. unfold create_product.
  destruct (py_get product_data "title" (JStr "Unknown")) as [title|x].
  - destruct (_prepare_product_data product_data) as [product_data' clean].
    assert (H : effects (is_create_at self) of_client
                  (create_product_request (W:=W) self title clean)).
    { unfold create_product_request, write_handlers. effects_auto.
      repeat split. }
    specialize (H e).
    destruct (create_product_request self title clean e). exact H.
  - exists [], []. simpl. rewrite !app_nil_r. auto.
Qed.

(** X19.  When the SKU of a product's first variant is not found at the
    destination (the lookup returns [None], or a product that is empty),
    the iteration calls [create_product] with the product: it leaves the
    stores and the trace as that call leaves them, every request it adds to
    the trace is a read or a POST on [/products.json] of the destination
    (so nothing is updated), and the updated and skipped counts are as
    before.  The created count is one more when the call returns; when it
    raises, the created count is as before and the error count is one
    more. *)
Theorem unmatched_sku_creates (source_client dest_client : client) (p : json)
    (l : locals) (e e2 : env W) (sku : json) (existing_product : option json) :
  isinstance_dict p = true ->
  first_variant_sku p = Ok sku ->
  truthy sku = true ->
  get_product_by_sku dest_client sku
    (snd (snd (fetch_source_collections source_client (set_product p l, e))))
    = (Ok existing_product, e2) ->
  truthy_opt existing_product = false ->
  let outcome := create_product dest_client (p, e2) in
  exists l' e',
    migrate_product source_client dest_client p (l, e) = (Ok tt, (l', e')) /\
    world e' = world (snd (snd outcome)) /\
    trace e' = trace (snd (snd outcome)) /\
    (exists t,
       trace e' = trace e ++ t /\
       Forall (fun rq => is_get rq \/ is_create_at dest_client rq) t) /\
    updated_count l' = updated_count l /\
    skipped_count l' = skipped_count l /\
    match fst outcome with
    | Ok _ => created_count l' = S (created_count l)
    | Raise _ =>
        created_count l' = created_count l /\
        error_count l' = S (error_count l)
    end.
Proof.
  intros Hd Hsku Ht Hfound Hnone outcome.
  assert (Hsent : exists t,
             trace (snd (snd outcome)) = trace e ++ t /\
             Forall (fun rq => is_get rq \/ is_create_at dest_client rq) t).
  { destruct (fetch_source_collections_effects (W:=W) source_client
                (set_product p l, e)) as (t1 & _ & Ht1 & _ & Hg1 & _).
    destruct (get_product_by_sku_effects (W:=W) is_get of_client
                (fun _ H => H) (fun _ H => H) dest_client sku
                (snd (snd (fetch_source_collections source_client
                             (set_product p l, e)))))
      as (t2 & _ & Ht2 & _ & Hg2 & _).
    rewrite Hfound in Ht2.
    destruct (create_product_posts dest_client (p, e2))
      as (t3 & _ & Ht3 & _ & Hg3 & _).
    unfold env_of, env_has_env, locals_has_env, object_has_env in *.
    simpl in *. exists (t1 ++ t2 ++ t3). split.
    - unfold outcome. rewrite Ht3, Ht2, Ht1, !app_assoc. reflexivity.
    - rewrite !Forall_app. repeat split;
        (eapply Forall_impl; [|eassumption]); simpl; auto. }
  destruct (fetch_source_collections_run source_client (set_product p l) e Hd)
    as (cs & e1 & Hfetch & _).
  rewrite Hfetch in Hfound. simpl in Hfound.
  unfold first_variant_sku in Hsku.
  destruct (py_get_dict p "variants" (JList []) Hd) as [variants Hv].
  rewrite Hv in Hsku. simpl in Hsku.
  destruct (truthy variants) eqn:Etv;
    [|injection Hsku as <-; discriminate Ht].
  destruct (py_getitem0 variants) as [first_variant|] eqn:E0;
    [|discriminate Hsku]. simpl in Hsku.
  pose proof (create_product_object dest_client p e2) as Hobj.
  pose proof (prepare_keeps_dict p Hd) as Hd'.
  assert (Hw : write_product dest_client sku existing_product
               = (assign (set_migrated_product None) ;;
                  create_new dest_client sku)).
  { unfold write_product. destruct existing_product as [ex|]; [|reflexivity].
    simpl in Hnone. now rewrite Hnone. }
  unfold migrate_product, product_title.
  unfold try_except, bind, ret. simpl.
  rewrite Hv. simpl. rewrite Etv. simpl. rewrite E0. simpl.
  rewrite Hsku. simpl. rewrite Ht. simpl. rewrite Hfetch. simpl.
  unfold call. rewrite Hfound. simpl. rewrite Hw.
  unfold create_new, product_title, try_except, bind, ret. simpl.
  unfold call_with_product. simpl. subst outcome.
  rewrite <- Hobj in Hd'. clear Hobj. revert Hd' Hsent.
  destruct (create_product dest_client (p, e2)) as [r [p' e3]].
  simpl. intros Hd' Hsent.
  destruct (py_get_dict p' "title" JNull Hd') as [t' Ht'].
  destruct (py_get_dict p' "title" (JStr "Unknown") Hd') as [t'' Ht''].
  destruct r as [created|x]; simpl; rewrite Ht'; simpl.
  - match goal with
    | |- context [record_collections cs (?l3, ?e3')] =>
        destruct (record_collections_frame cs l3 e3')
          as (r & l4 & -> & ((Hc & Hu & Hs) & He) & Hp)
    end.
    simpl in Hc, Hu, Hs, He, Hp.
    destruct r as [[]|x]; simpl.
    + eexists _, _. split; [reflexivity|]. simpl. repeat split; auto.
    + rewrite Hp, Ht''. simpl.
      eexists _, _. split; [reflexivity|]. simpl. repeat split; auto.
  - unfold record_collections, bind, ret. simpl.
    eexists _, _. split; [reflexivity|]. simpl. repeat split; auto.
Qed.

(** X20.  When the lookup of the SKU at the destination raises, the
    iteration ends normally and counts the product as one error: nothing is
    written after the lookup, every request of the iteration is a read, and
    the three other counts and the recorded collections are as before. *)
Theorem failed_lookup_is_one_error (source_client dest_client : client)
    (p : json) (l : locals) (e e2 : env W) (sku : json) (x : exn) :
  isinstance_dict p = true ->
  first_variant_sku p = Ok sku ->
  truthy sku = true ->
  get_product_by_sku dest_client sku
    (snd (snd (fetch_source_collections source_client (set_product p l, e))))
    = (Raise x, e2) ->
  exists l' e' title,
    migrate_product source_client dest_client p (l, e) = (Ok tt, (l', e')) /\
    world e' = world e2 /\
    trace e' = trace e2 /\
    logs e' = logs e2
                ++ [mkLog shopify_migration ERROR
                      "Error processing product '{}': {}"
                      [AVal title; AExn x]] /\
    (exists t, trace e' = trace e ++ t /\ Forall is_get t) /\
    created_count l' = created_count l /\
    updated_count l' = updated_count l /\
    skipped_count l' = skipped_count l /\
    error_count l' = S (error_count l) /\
    product_collections l' = product_collections l.
Proof.
  intros Hd Hsku Ht Hfound.
  assert (Hsent : exists t, trace e2 = trace e ++ t /\ Forall is_get t).
  { destruct (fetch_source_collections_effects (W:=W) source_client
                (set_product p l, e)) as (t1 & _ & Ht1 & _ & Hg1 & _).
    destruct (get_product_by_sku_effects (W:=W) is_get of_client
                (fun _ H => H) (fun _ H => H) dest_client sku
                (snd (snd (fetch_source_collections source_client
                             (set_product p l, e)))))
      as (t2 & _ & Ht2 & _ & Hg2 & _).
    rewrite Hfound in Ht2.
    unfold env_of, env_has_env, locals_has_env, object_has_env in *.
    simpl in *. exists (t1 ++ t2). split.
    - rewrite Ht2, Ht1, !app_assoc. reflexivity.
    - rewrite !Forall_app. split; assumption. }
  destruct (fetch_source_collections_run source_client (set_product p l) e Hd)
    as (cs & e1 & Hfetch & _).
  rewrite Hfetch in Hfound. simpl in Hfound.
  unfold first_variant_sku in Hsku.
  destruct (py_get_dict p "variants" (JList []) Hd) as [variants Hv].
  rewrite Hv in Hsku. simpl in Hsku.
  destruct (truthy variants) eqn:Etv;
    [|injection Hsku as <-; discriminate Ht].
  destruct (py_getitem0 variants) as [first_variant|] eqn:E0;
    [|discriminate Hsku]. simpl in Hsku.
  destruct (py_get_dict p "title" (JStr "Unknown") Hd) as [title Htitle].
  unfold migrate_product, product_title, migration_log, log.
  unfold try_except, bind, ret. simpl.
  rewrite Hv. simpl. rewrite Etv. simpl. rewrite E0. simpl.
  rewrite Hsku. simpl. rewrite Ht. simpl. rewrite Hfetch. simpl.
  unfold call. rewrite Hfound. simpl. rewrite Htitle. simpl.
  eexists _, _, title. split; [reflexivity|]. simpl. now repeat split.
Qed.

(** X21.  A failure to fetch the source collections of a product is not
    an error of the migration: for a product dictionary
    [fetch_source_collections] always returns, with the local variables as
    they were; it gives what [get_product_collections] returns for the
    identifier of the product, and the empty list when that call raises or
    the product has no identifier (in which case nothing is sent). *)
Theorem failed_collection_fetch_is_not_an_error (source_client : client)
    (l : locals) (e : env W) :
  isinstance_dict (product l) = true ->
  exists cs e',
    fetch_source_collections source_client (l, e) = (Ok cs, (l, e')) /\
    match py_getitem (product l) "id" with
    | Ok product_id =>
        let listing := get_product_collections source_client product_id e in
        cs = match fst listing with Ok found => found | Raise _ => [] end /\
        trace e' = trace (snd listing) /\
        world e' = world (snd listing)
    | Raise _ => cs = [] /\ trace e' = trace e /\ world e' = world e
    end.
Proof.
  intros Hd.
  destruct (py_get_dict (product l) "title" JNull Hd) as [t Ht].
  unfold fetch_source_collections, try_except, bind, product_title, ret,
    migration_log, log.
  simpl. destruct (py_getitem (product l) "id") as [product_id|x]; simpl.
  - unfold call.
    destruct (get_product_collections source_client product_id e)
      as [[cs|x] e1]; simpl; rewrite Ht; simpl;
      eexists _, _; (split; [reflexivity|]); now repeat split.
  - rewrite Ht. simpl. eexists _, _; (split; [reflexivity|]); now repeat split.
Qed.

(** X22.  When the destination has a collection of the title, with an
    identifier, no collection is created: the only requests that
    [migrate_collection] sends after the lookup are the shop request and the
    POST of the link between the product and that collection.  The
    iteration ends normally; the collection count is one more when the link
    is made, and when it is refused no count changes, the error count
    included. *)
Theorem existing_collection_is_linked (dest_client : client)
    (product_id collection : json) (l : locals) (e e1 : env W)
    (title c collection_id : json) :
  py_getitem collection "title" = Ok title ->
  get_collection_by_title dest_client title e = (Ok (Some c), e1) ->
  py_getitem c "id" = Ok collection_id ->
  let outcome :=
    add_product_to_collection dest_client product_id collection_id e1 in
  exists l' e',
    migrate_collection dest_client product_id collection (l, e)
      = (Ok tt, (l', e')) /\
    world e' = world (snd outcome) /\
    trace e' = trace e1 ++ [shop_request dest_client;
                            collect_post dest_client product_id collection_id] /\
    same_counts l l' /\
    collection_count l'
      = match fst outcome with
        | Ok _ => S (collection_count l)
        | Raise _ => collection_count l
        end.
Proof.
  intros Htitle Hfound Hid outcome.
  pose proof (identified_is_truthy c collection_id Hid) as Hc.
  destruct (add_product_to_collection_answer dest_client product_id
              collection_id e1) as (Ht & _ & _).
  fold outcome in Ht.
  unfold migrate_collection, find_or_create, associate, migration_log, log.
  unfold try_except, bind, ret, lift_res, call. simpl.
  rewrite Htitle. simpl. rewrite Hfound. simpl. rewrite Hc. simpl.
  rewrite Hid. simpl. subst outcome. revert Ht.
  destruct (add_product_to_collection dest_client product_id collection_id e1)
    as [[collect|x] e2]; simpl; intros Ht;
    (eexists _, _; split; [reflexivity|]); simpl; now repeat split.
Qed.

(** X23.  When the destination has no collection of the title,
    [find_or_create] asks for a collection whose title is the dictionary of
    the title, the description and the published flag of the source
    collection, and whose description is empty.  It never raises and leaves
    the local variables as they were, the error count included: it gives
    the collection that [create_collection] returns, and [None] when that
    call raises. *)
Theorem missing_collection_is_created_from_a_dictionary (dest_client : client)
    (collection title : json) (dest_collection : option json) (l : locals)
    (e : env W) :
  isinstance_dict collection = true ->
  truthy_opt dest_collection = false ->
  exists body_html published,
    py_get collection "body_html" (JStr "") = Ok body_html /\
    py_get collection "published" (JBool true) = Ok published /\
    let collection_data :=
      JDict [("title", title); ("body_html", body_html);
             ("published", published)] in
    let outcome := create_collection dest_client collection_data (JStr "") e in
    exists found e',
      find_or_create dest_client collection title dest_collection (l, e)
        = (Ok found, (l, e')) /\
      trace e' = trace e ++ [shop_request dest_client;
                             collection_post dest_client collection_data
                               (JStr "")] /\
      world e' = world (snd outcome) /\
      found = match fst outcome with
              | Ok created => Some created
              | Raise _ => None
              end.
Proof.
  intros Hd Hnone.
  destruct (py_get_dict collection "body_html" (JStr "") Hd) as [body_html Hb].
  destruct (py_get_dict collection "published" (JBool true) Hd)
    as [published Hp].
  exists body_html, published. split; [exact Hb|]. split; [exact Hp|].
  intros collection_data outcome.
  destruct (create_collection_answer dest_client collection_data (JStr "") e)
    as (Ht & _ & _).
  fold outcome in Ht.
  unfold find_or_create, migration_log, log.
  unfold try_except, bind, ret, lift_res, call. rewrite Hnone. simpl.
  rewrite Hb. simpl. rewrite Hp. simpl. fold collection_data.
  subst outcome. revert Ht.
  destruct (create_collection dest_client collection_data (JStr "") e)
    as [[created|x] e2]; simpl; intros Ht;
    (eexists _, _; split; [reflexivity|]); simpl; now repeat split.
Qed.

End Iteration.

(** ** The steps on the sample stores *)

Lemma listing_failure_stops_the_migration_sample :
  let run := run_migration locked_store refusing_dest in
  fst run
    = Raise (ValueError "Invalid credentials for store source.myshopify.com") /\
  fst (snd run) = initial_locals /\
  trace (snd (snd run)) = [shop_request source_shop].
Proof.
  intros run.
  destruct (listing_failure_stops_the_migration
              (R := fixed (migration locked_store refusing_dest))
              source_shop dest_shop initial_locals nothing_yet
              (ValueError "Invalid credentials for store source.myshopify.com")
              eq_refl) as (H1 & H2 & H3 & _).
  repeat split; assumption.
Defined.

Lemma unmatched_sku_creates_sample :
  let R := fixed (migration shirt_source refusing_dest) in
  let e2 :=
    snd (get_product_by_sku dest_shop (JStr "SKU-1")
           (snd (snd (fetch_source_collections source_shop
                        (set_product shirt initial_locals, nothing_yet))))) in
  let outcome := create_product dest_shop (shirt, e2) in
  exists l' e',
    migrate_product source_shop dest_shop shirt
      (initial_locals, nothing_yet) = (Ok tt, (l', e')) /\
    world e' = world (snd (snd outcome)) /\
    trace e' = trace (snd (snd outcome)) /\
    (exists t,
       trace e' = trace nothing_yet ++ t /\
       Forall (fun rq => is_get rq \/ is_create_at dest_shop rq) t) /\
    updated_count l' = updated_count initial_locals /\
    skipped_count l' = skipped_count initial_locals /\
    match fst outcome with
    | Ok _ => created_count l' = S (created_count initial_locals)
    | Raise _ =>
        created_count l' = created_count initial_locals /\
        error_count l' = S (error_count initial_locals)
    end.
Proof.
  intros R e2.
  apply (unmatched_sku_creates (R:=R) source_shop dest_shop shirt
           initial_locals nothing_yet e2 (JStr "SKU-1") None);
    reflexivity.
Defined.

Lemma failed_lookup_is_one_error_sample :
  let R := fixed (migration shirt_source locked_store) in
  let x := ValueError "Invalid credentials for store dest.myshopify.com" in
  let e2 :=
    snd (get_product_by_sku dest_shop (JStr "SKU-1")
           (snd (snd (fetch_source_collections source_shop
                        (set_product shirt initial_locals, nothing_yet))))) in
  exists l' e' title,
    migrate_product source_shop dest_shop shirt
      (initial_locals, nothing_yet) = (Ok tt, (l', e')) /\
    world e' = world e2 /\
    trace e' = trace e2 /\
    logs e' = logs e2
                ++ [mkLog shopify_migration ERROR
                      "Error processing product '{}': {}"
                      [AVal title; AExn x]] /\
    (exists t, trace e' = trace nothing_yet ++ t /\ Forall is_get t) /\
    created_count l' = created_count initial_locals /\
    updated_count l' = updated_count initial_locals /\
    skipped_count l' = skipped_count initial_locals /\
    error_count l' = S (error_count initial_locals) /\
    product_collections l' = product_collections initial_locals.
Proof.
  intros R x e2.
  apply (failed_lookup_is_one_error (R:=R) source_shop dest_shop shirt
           initial_locals nothing_yet e2 (JStr "SKU-1") x);
    reflexivity.
Defined.

Lemma failed_collection_fetch_is_not_an_error_sample :
  let R := fixed (migration shirt_source refusing_dest) in
  exists e',
    fetch_source_collections source_shop
      (set_product shirt initial_locals, nothing_yet)
      = (Ok [summer], (set_product shirt initial_locals, e')).
Proof.
  intros R.
  destruct (failed_collection_fetch_is_not_an_error (R:=R) source_shop
              (set_product shirt initial_locals) nothing_yet eq_refl)
    as (cs & e' & Hrun & Hcs & _).
  exists e'. rewrite Hrun, Hcs. reflexivity.
Defined.

Lemma existing_collection_is_linked_sample :
  let R := fixed (migration shirt_source accepting_dest) in
  let e1 := snd (get_collection_by_title dest_shop (JStr "Summer") nothing_yet) in
  exists l' e',
    migrate_collection dest_shop (JNum 42) summer (initial_locals, nothing_yet)
      = (Ok tt, (l', e')) /\
    trace e' = trace e1 ++ [shop_request dest_shop;
                            collect_post dest_shop (JNum 42) (JNum 70)] /\
    same_counts initial_locals l' /\
    collection_count l' = 1.
Proof.
  intros R e1.
  destruct (existing_collection_is_linked (R:=R) dest_shop (JNum 42) summer
              initial_locals nothing_yet e1 (JStr "Summer")
              (JDict [("id", JNum 70); ("title", JStr "Summer")]) (JNum 70)
              eq_refl eq_refl eq_refl)
    as (l' & e' & Hrun & _ & Ht & Hc & Hn).
  exists l', e'. repeat split; try assumption; apply Hc.
Defined.

Lemma missing_collection_is_created_from_a_dictionary_sample :
  let R := fixed (migration shirt_source refusing_dest) in
  exists e',
    find_or_create dest_shop summer (JStr "Summer") None
      (initial_locals, nothing_yet) = (Ok None, (initial_locals, e')) /\
    trace e'
      = [shop_request dest_shop;
         collection_post dest_shop
           (JDict [("title", JStr "Summer"); ("body_html", JStr "<p>Hot</p>");
                   ("published", JBool true)])
           (JStr "")].
Proof.
  intros R.
  destruct (missing_collection_is_created_from_a_dictionary (R:=R) dest_shop
              summer (JStr "Summer") None initial_locals nothing_yet
              eq_refl eq_refl)
    as (body_html & published & Hb & Hp & found & e' & Hrun & Ht & _ & Hf).
  injection Hb as <-. injection Hp as <-.
  exists e'. rewrite Hrun, Hf. split; [reflexivity | exact Ht].
Defined.

(** * Further properties of the entry point *)

(** ** The constructor of the client *)

Lemma substring_all (s : string) : substring 0 (String.length s) s = s.
Proof. induction s as [|c s IH]; simpl; [reflexivity | now rewrite IH]. Qed.

Lemma substring_append (p suffix : string) :
  substring (String.length p) (String.length suffix) (p ++ suffix)%string
  = suffix.
Proof. induction p as [|c p IH]; simpl; [apply substring_all | exact IH]. Qed.

Lemma length_append (p suffix : string) :
  String.length (p ++ suffix)%string
  = String.length p + String.length suffix.
Proof. induction p as [|c p IH]; simpl; [reflexivity | now rewrite IH]. Qed.

Lemma substring_split (s : string) (n : nat) :
  n <= String.length s ->
  s = (substring 0 n s ++ substring n (String.length s - n) s)%string.
Proof.
  revert n. induction s as [|c s IH]; intros [|n] H; simpl in *;
    try reflexivity; try lia.
  - now rewrite substring_all.
  - f_equal. apply IH. lia.
Qed.

Lemma endswith_suffix (s suffix : string) :
  endswith s suffix = true <-> exists prefix, s = (prefix ++ suffix)%string.
Proof.
  unfold endswith. split.
  - intros H. apply andb_prop in H as [Hle Heq].
    apply Nat.leb_le in Hle. apply String.eqb_eq in Heq.
    exists (substring 0 (String.length s - String.length suffix) s).
    rewrite <- Heq at 2.
    rewrite (substring_split s (String.length s - String.length suffix)) at 1
      by lia.
    do 2 f_equal. lia.
  - intros [prefix ->]. rewrite length_append.
    replace (String.length prefix + String.length suffix - String.length suffix)
      with (String.length prefix) by lia.
    rewrite substring_append, String.eqb_refl, andb_true_r.
    apply Nat.leb_le. lia.
Qed.

Section EntryPoint.

Context {W : Type} {R : Remote W}.

Lemma ShopifyClient_run (store_url admin_key : string) (e : env W) :
  (well_formed store_url admin_key /\
   ShopifyClient store_url admin_key e
   = (Ok (new_client store_url admin_key),
      mkEnv (world e) (trace e)
        (logs e ++ [mkLog shopify_client INFO
                      "Initialized Shopify client for store: {}"
                      [AStr store_url]]))) \/
  (~ well_formed store_url admin_key /\
   exists msg,
     ShopifyClient store_url admin_key e = (Raise (ValueError msg), e)).
Proof.
  unfold ShopifyClient, well_formed.
  destruct (String.eqb_spec store_url "") as [->|Hs]; simpl.
  - right. split; [|eexists; reflexivity]. intros [_ [prefix H]].
    destruct prefix; discriminate H.
  - destruct (String.eqb_spec admin_key "") as [->|Hk]; simpl.
    + right. split; [|eexists; reflexivity]. now intros [H _].
    + destruct (endswith store_url "myshopify.com") eqn:E; simpl.
      * left. split; [|reflexivity]. split; [exact Hk|].
        now apply endswith_suffix.
      * right. split; [|eexists; reflexivity]. intros [_ H].
        apply endswith_suffix in H. congruence.
Qed.

(** X24.  The constructor of the client sends nothing, and accepts
    exactly a non-empty access token with a store URL that has
    [myshopify.com] for a suffix, whatever precedes the suffix; the client
    then has [https://{store_url}/admin/api/2024-01] for its base URL and
    the token in its headers.  It raises [ValueError] otherwise. *)
Theorem client_is_made_for_a_suffix (store_url admin_key : string)
    (e : env W) :
  let run := ShopifyClient store_url admin_key e in
  trace (snd run) = trace e /\
  world (snd run) = world e /\
  (forall c,
     fst run = Ok c <->
     well_formed store_url admin_key /\ c = new_client store_url admin_key) /\
  (forall x, fst run = Raise x -> exists msg, x = ValueError msg).
Proof.
  intros run. subst run.
  destruct (ShopifyClient_run store_url admin_key e)
    as [[Hw ->]|[Hn [msg ->]]]; simpl.
  - split; [reflexivity|]. split; [reflexivity|]. split.
    + intros c. split.
      * intros [= <-]. now split.
      * now intros [_ ->].
    + discriminate.
  - split; [reflexivity|]. split; [reflexivity|]. split.
    + intros c. split; [discriminate|]. intros [Hw _]. contradiction.
    + intros x [= <-]. eauto.
Qed.

Lemma validate_store_credentials_run (store_url admin_key : string)
    (e : env W) :
  let self := new_client store_url admin_key in
  let run := validate_store_credentials store_url admin_key e in
  exists valid,
    fst run = Ok valid /\
    (valid = true <->
     well_formed store_url admin_key /\
     answers_ok (fst (send (shop_request self) (world e))) = true) /\
    (well_formed store_url admin_key ->
     trace (snd run) = trace e ++ [shop_request self] /\
     world (snd run) = snd (send (shop_request self) (world e))) /\
    (~ well_formed store_url admin_key ->
     trace (snd run) = trace e /\ world (snd run) = world e).
Proof.
  intros self run. subst run.
  unfold validate_store_credentials, try_except, bind.
  destruct (ShopifyClient_run store_url admin_key e)
    as [[Hw ->]|[Hn [msg ->]]].
  - match goal with
    | |- context [validate_credentials ?c ?e0] =>
        destruct (validate_credentials_answer c e0) as (Hr & Ht & Hv);
        destruct (validate_credentials c e0) as [r e1]
    end.
    simpl in *. subst r.
    eexists. split; [reflexivity|]. split; [|split].
    + split; [intros H; split; [exact Hw | exact H] | intros [_ H]; exact H].
    + intros _. split; [exact Ht | exact Hv].
    + intros Hn. contradiction.
  - simpl. exists false. split; [reflexivity|]. split; [|split].
    + split; [discriminate | intros [Hw _]; contradiction].
    + intros Hw. contradiction.
    + intros _. now split.
Qed.

(** X25.  [validate_store_credentials] never raises.  It returns [True]
    exactly when the constructor accepts the credentials and the store
    answers the shop request with a 2xx status; when the constructor
    rejects them it returns [False] and nothing is sent, and otherwise the
    shop request is the one request sent. *)
Theorem validate_store_credentials_never_raises (store_url admin_key : string)
    (e : env W) :
  let self := new_client store_url admin_key in
  let run := validate_store_credentials store_url admin_key e in
  exists valid,
    fst run = Ok valid /\
    (valid = true <->
     well_formed store_url admin_key /\
     answers_ok (fst (send (shop_request self) (world e))) = true) /\
    (well_formed store_url admin_key ->
     trace (snd run) = trace e ++ [shop_request self] /\
     world (snd run) = snd (send (shop_request self) (world e))) /\
    (~ well_formed store_url admin_key ->
     trace (snd run) = trace e /\ world (snd run) = world e).
Proof. exact (validate_store_credentials_run store_url admin_key e). Qed.

Lemma validate_store_credentials_shop (store_url admin_key : string) :
  effects is_shop_request any_record
    (validate_store_credentials (W:=W) store_url admin_key).
Proof.
  unfold validate_store_credentials, ShopifyClient, validate_credentials.
  effects_auto; first [ now split | exact I ].
Qed.

(** X26.  When one of the four environment variables is unset or empty,
    [main] raises [ValueError] before anything is sent: the trace, the
    stores and the local variables are as before. *)
Theorem main_needs_the_environment (p : process) (l : locals) (e : env W)
    (var : string) :
  In var required_env_vars ->
  unset p var = true ->
  exists msg e',
    main p (l, e) = (Raise (ValueError msg), (l, e')) /\
    trace e' = trace e /\
    world e' = world e.
Proof.
  intros Hin Hu.
  assert (Hm : nonempty (filter (unset p) required_env_vars) = true).
  { assert (H : In var (filter (unset p) required_env_vars))
      by (apply filter_In; auto).
    destruct (filter (unset p) required_env_vars); [contradiction|reflexivity]. }
  unfold main, try_except, bind, migration_log, call, log, raise.
  cbv zeta. rewrite Hm. cbn [fst snd world trace logs].
  eexists _, _. split; [reflexivity|]. now split.
Qed.

(** X27.  When the operator declines, [main] migrates nothing: every
    request that it sends is a GET of [/shop.json]. *)
Theorem declined_migration_only_checks_the_shops (p : process) :
  confirm p = false ->
  effects is_shop_request any_record (main (W:=W) p).
Proof.
  intros H. pose proof validate_store_credentials_shop as Hv.
  unfold main, ShopifyClient. destruct (confirm p); [discriminate|].
  effects_auto; try exact I.
Qed.

(** X28.  When the four variables are set and one of the two credential
    checks returns [False], [main] raises [ValueError] and migrates
    nothing: the trace and the stores are as the second check leaves them,
    and the local variables are as before. *)
Theorem main_needs_valid_credentials (p : process) (l : locals) (e : env W) :
  let source_check :=
    validate_store_credentials
      (env_string p "SOURCE_SHOPIFY_STORE") (env_string p "SOURCE_ADMIN_KEY")
      (announced INFO "Validating source store credentials" []
         (announced INFO "Loading environment variables" [] e)) in
  let dest_check :=
    validate_store_credentials
      (env_string p "DESTINATION_SHOPIFY_STORE")
      (env_string p "DESTINATION_ADMIN_KEY")
      (announced INFO "Validating destination store credentials" []
         (snd source_check)) in
  filter (unset p) required_env_vars = [] ->
  fst source_check = Ok false \/ fst dest_check = Ok false ->
  exists e',
    main p (l, e)
    = (Raise (ValueError
                "Invalid credentials. Please check your Admin API access tokens."),
       (l, e')) /\
    trace e' = trace (snd dest_check) /\
    world e' = world (snd dest_check).
Proof.
  intros source_check dest_check Hset Hbad. subst dest_check source_check.
  unfold announced in *.
  unfold main, try_except, bind, migration_log, call, log, raise.
  cbv zeta. rewrite Hset. cbn [nonempty fst snd world trace logs].
  destruct (validate_store_credentials_run
              (env_string p "SOURCE_SHOPIFY_STORE")
              (env_string p "SOURCE_ADMIN_KEY")
              (mkEnv (world e) (trace e)
                 ((logs e ++ [mkLog shopify_migration INFO
                                "Loading environment variables" []])
                  ++ [mkLog shopify_migration INFO
                        "Validating source store credentials" []])))
    as (sv & Hsv & _).
  destruct (validate_store_credentials _ _ _) as [rs e1] eqn:Es.
  cbn [fst snd world trace logs] in *. subst rs.
  destruct (validate_store_credentials_run
              (env_string p "DESTINATION_SHOPIFY_STORE")
              (env_string p "DESTINATION_ADMIN_KEY")
              (mkEnv (world e1) (trace e1)
                 (logs e1 ++ [mkLog shopify_migration INFO
                                "Validating destination store credentials" []])))
    as (dv & Hdv & _).
  destruct (validate_store_credentials _ _ _) as [rd e2] eqn:Ed.
  cbn [fst snd world trace logs] in *. subst rd.
  assert (Hb : negb (sv && dv) = true).
  { destruct Hbad as [[= ->]|[= ->]]; [reflexivity|].
    now rewrite andb_false_r. }
  rewrite Hb. cbn [fst snd world trace logs].
  eexists. split; [reflexivity|]. now split.
Qed.

End EntryPoint.

(** ** The entry point on the sample stores *)

Lemma client_is_made_for_a_suffix_sample :
  fst (ShopifyClient "dest.myshopify.com" "dest-token" nothing_yet)
    = Ok dest_shop /\
  fst (ShopifyClient "notmyshopify.com" "dest-token" nothing_yet)
    = Ok (new_client "notmyshopify.com" "dest-token").
Proof.
  split.
  - apply (client_is_made_for_a_suffix "dest.myshopify.com"
             "dest-token" nothing_yet).
    split; [|reflexivity]. split; [discriminate|]. now exists "dest.".
  - apply (client_is_made_for_a_suffix "notmyshopify.com"
             "dest-token" nothing_yet).
    split; [|reflexivity]. split; [discriminate|]. now exists "not".
Defined.

Lemma validate_store_credentials_never_raises_sample :
  let R := fixed (migration shirt_source locked_store) in
  fst (validate_store_credentials "source.myshopify.com" "source-token"
         nothing_yet) = Ok true /\
  trace (snd (validate_store_credentials "source.myshopify.com" ""
                nothing_yet)) = [].
Proof.
  intros R. split.
  - destruct (validate_store_credentials_never_raises (R:=R)
                "source.myshopify.com" "source-token" nothing_yet)
      as (valid & Hr & Hv & _).
    rewrite Hr. f_equal. apply Hv. split; [|reflexivity].
    split; [discriminate|]. now exists "source.".
  - destruct (validate_store_credentials_never_raises (R:=R)
                "source.myshopify.com" "" nothing_yet)
      as (valid & _ & _ & _ & Hn).
    apply Hn. now intros [H _].
Defined.

Lemma main_needs_the_environment_sample :
  let R := fixed (migration shirt_source refusing_dest) in
  exists msg e',
    main without_destination_key (initial_locals, nothing_yet)
      = (Raise (ValueError msg), (initial_locals, e')) /\
    trace e' = trace nothing_yet /\
    world e' = world nothing_yet.
Proof.
  intros R.
  apply (main_needs_the_environment (R:=R) without_destination_key
           initial_locals nothing_yet "DESTINATION_ADMIN_KEY");
    [simpl; tauto | reflexivity].
Defined.

Lemma declined_migration_only_checks_the_shops_sample :
  effects is_shop_request any_record
    (main (R := fixed (migration shirt_source refusing_dest)) declining).
Proof.
  exact (declined_migration_only_checks_the_shops
           (R := fixed (migration shirt_source refusing_dest))
           declining eq_refl).
Defined.

Lemma main_needs_valid_credentials_sample :
  let R := fixed (migration shirt_source locked_store) in
  exists e',
    main confirming (initial_locals, nothing_yet)
    = (Raise (ValueError
                "Invalid credentials. Please check your Admin API access tokens."),
       (initial_locals, e')) /\
    trace e' = [shop_request source_shop; shop_request dest_shop].
Proof.
  intros R.
  destruct (main_needs_valid_credentials (R:=R) confirming initial_locals
              nothing_yet eq_refl (or_intror eq_refl))
    as (e' & Hrun & Ht & _).
  exists e'. split; [exact Hrun | exact Ht].
Defined.

(** ** A confirmed run, and the cost of a lookup *)

Section Composition.

Context {W : Type} {R : Remote W}.

(** X29.  When the four variables are set, both credential checks return
    [True] and the operator confirms, [main] is the migration between the
    two clients made from the variables: it runs [migrate_products] after
    the second check, with nothing sent in between, and ends as that run
    ends, with the same result, local variables, trace and stores. *)
Theorem confirmed_main_runs_the_migration (p : process) (l : locals)
    (e : env W) :
  let source_check :=
    validate_store_credentials
      (env_string p "SOURCE_SHOPIFY_STORE") (env_string p "SOURCE_ADMIN_KEY")
      (announced INFO "Validating source store credentials" []
         (announced INFO "Loading environment variables" [] e)) in
  let dest_check :=
    validate_store_credentials
      (env_string p "DESTINATION_SHOPIFY_STORE")
      (env_string p "DESTINATION_ADMIN_KEY")
      (announced INFO "Validating destination store credentials" []
         (snd source_check)) in
  let source_client :=
    new_client (env_string p "SOURCE_SHOPIFY_STORE")
      (env_string p "SOURCE_ADMIN_KEY") in
  let dest_client :=
    new_client (env_string p "DESTINATION_SHOPIFY_STORE")
      (env_string p "DESTINATION_ADMIN_KEY") in
  filter (unset p) required_env_vars = [] ->
  fst source_check = Ok true ->
  fst dest_check = Ok true ->
  confirm p = true ->
  exists e3,
    trace e3 = trace (snd dest_check) /\
    world e3 = world (snd dest_check) /\
    let migration := migrate_products source_client dest_client (l, e3) in
    let run := main p (l, e) in
    fst run = fst migration /\
    fst (snd run) = fst (snd migration) /\
    trace (snd (snd run)) = trace (snd (snd migration)) /\
    world (snd (snd run)) = world (snd (snd migration)).
Proof.
  intros source_check dest_check source_client dest_client Hset Hs Hd Hc.
  subst dest_check source_check source_client dest_client.
  unfold announced in *.
  unfold main, try_except, bind, migration_log, call, log, raise.
  cbv zeta. rewrite Hset, Hc. cbn [nonempty fst snd world trace logs] in *.
  destruct (validate_store_credentials_run
              (env_string p "SOURCE_SHOPIFY_STORE")
              (env_string p "SOURCE_ADMIN_KEY")
              (mkEnv (world e) (trace e)
                 ((logs e ++ [mkLog shopify_migration INFO
                                "Loading environment variables" []])
                  ++ [mkLog shopify_migration INFO
                        "Validating source store credentials" []])))
    as (sv & Hsv & Hsw & _).
  destruct (validate_store_credentials _ _ _) as [rs e1].
  cbn [fst snd world trace logs] in *. subst rs. injection Hsv as <-.
  destruct (validate_store_credentials_run
              (env_string p "DESTINATION_SHOPIFY_STORE")
              (env_string p "DESTINATION_ADMIN_KEY")
              (mkEnv (world e1) (trace e1)
                 (logs e1 ++ [mkLog shopify_migration INFO
                                "Validating destination store credentials" []])))
    as (dv & Hdv & Hdw & _).
  destruct (validate_store_credentials _ _ _) as [rd e2].
  cbn [fst snd world trace logs] in *. subst rd. injection Hdv as <-.
  apply proj1 in Hsw. apply proj1 in Hdw.
  specialize (Hsw eq_refl). specialize (Hdw eq_refl).
  destruct Hsw as [Hsw _]. destruct Hdw as [Hdw _].
  cbn [andb negb fst snd world trace logs].
  repeat match goal with
         | |- context [ShopifyClient ?u ?k ?e0] =>
             destruct (ShopifyClient_run u k e0) as [[_ ->]|[Hn _]];
               [|contradiction]; cbn [fst snd world trace logs]
         end.
  match goal with
  | |- context [migrate_products ?s ?d (l, ?e3)] => exists e3
  end.
  split; [reflexivity|]. split; [reflexivity|]. cbv zeta.
  destruct (migrate_products _ _ _) as [[[]|x] [l' e4]];
    cbn [fst snd world trace logs]; repeat split.
Qed.

(** X30.  A lookup of a SKU reads one page: with valid credentials
    [get_product_by_sku] sends the shop request and one products request
    with a limit of 250, whatever it finds, and nothing else. *)
Theorem lookup_reads_one_page (self : client) (sku : json) (e : env W) :
  answers_ok (fst (send (shop_request self) (world e))) = true ->
  trace (snd (get_product_by_sku self sku e))
    = trace e ++ [shop_request self; products_request self 250].
Proof.
  intros Hgood.
  destruct (get_products_answer self 250 (searching self sku e) Hgood)
    as (Ht & _).
  unfold searching in Ht.
  unfold get_product_by_sku, try_except, bind, client_log, log, raise,
    lift_res.
  cbn [fst snd world trace logs] in *.
  destruct (get_products self 250 _) as [[products|x] e1];
    cbn [fst snd world trace logs] in *; [|exact Ht].
  destruct (py_iter products) as [l|x]; cbn [fst snd world trace logs];
    [|exact Ht].
  destruct (first_with_sku_silent self l sku e1) as [Hs _].
  destruct (first_with_sku self l sku e1) as [[r|x] e2];
    cbn [fst snd world trace logs] in *; congruence.
Qed.

End Composition.

Lemma confirmed_main_runs_the_migration_sample :
  let R := fixed (migration shirt_source accepting_dest) in
  let run := main confirming (initial_locals, nothing_yet) in
  exists e3,
    trace e3 = [shop_request source_shop; shop_request dest_shop] /\
    fst run = fst (migrate_products source_shop dest_shop (initial_locals, e3)) /\
    trace (snd (snd run))
      = trace (snd (snd (migrate_products source_shop dest_shop
                           (initial_locals, e3)))).
Proof.
  intros R run.
  destruct (confirmed_main_runs_the_migration (R:=R) confirming initial_locals
              nothing_yet eq_refl eq_refl eq_refl eq_refl)
    as (e3 & Ht & _ & Hr & _ & Htr & _).
  exists e3. repeat split; assumption.
Defined.

Lemma lookup_reads_one_page_sample :
  let R := fixed (migration shirt_source accepting_dest) in
  trace (snd (get_product_by_sku dest_shop (JStr "SKU-9") nothing_yet))
    = [shop_request dest_shop; products_request dest_shop 250].
Proof.
  intros R.
  exact (lookup_reads_one_page (R:=R) dest_shop (JStr "SKU-9") nothing_yet
           eq_refl).
Defined.
